(** * Blockchain-Simulation: a shallow embedding of the simulation engine

    The Python sources embedded here are [models.py], [config.py],
    [network.py], [mining.py], [wallet.py] and the loop, the callbacks and
    the termination logic of [simulator.py].

    Conventions of the embedding.
    - A Python [float] is a rational [Q].  Arithmetic on floats is exact
      and a decimal literal is the rational it denotes, except where a
      rounding decides what a function returns: module [F64] and
      [from_args] compute with the operations of IEEE 754 binary64
      ([round64]).
    - A Python [int] is a [Z]; a counter that starts at zero and is only ever
      incremented is an [N].
    - A [str] is a [string]; a [set] of block ids is a [gset string]; a
      [dict] keyed by strings is a [gmap string _]; a Python [list] is a
      [list].
    - Objects shared by reference (the nodes of the network, the one
      [NetworkStats] instance every node points to) live in one store: nodes
      are addressed by their index in [NetworkManager.nodes].
    - [random.choice] is resolved by an explicit argument (the chosen index).
    - Logging has no effect on the modelled state and is dropped.
    - An uncaught Python exception is an explicit outcome ([Raised]). *)

From Stdlib Require Import ZArith QArith Qabs Qminmax Qpower Qround Lqa Lia
  String List Bool.
From stdpp Require Import base option list gmap sets strings pretty.
Import ListNotations.

Local Open Scope string_scope.
Local Open Scope Z_scope.
Local Open Scope Q_scope.
Local Open Scope list_scope.

(** ** Python builtins *)

(** [x < y] on floats, as a boolean. *)
Definition Qlt_bool (x y : Q) : bool := negb (Qle_bool y x).

(** [min(a, b)]: the first argument unless the second is strictly smaller. *)
Definition py_min (a b : Q) : Q := if Qlt_bool b a then b else a.

(** [max(a, b)]: the first argument unless the second is strictly larger. *)
Definition py_max (a b : Q) : Q := if Qlt_bool a b then b else a.

(** Truthiness of an [Optional[int]]: [None] and [0] are falsy. *)
Definition truthy_int (o : option Z) : bool :=
  match o with
  | None => false
  | Some z => negb (z =? 0)%Z
  end.

(** Truthiness of a [str]: only the empty string is falsy. *)
Definition truthy_str (s : string) : bool :=
  match s with
  | EmptyString => false
  | String _ _ => true
  end.

(** Outcome of a call that may raise. *)
Inductive outcome (R S : Type) : Type :=
  | Returned (r : R) (s : S)
  | Raised (e : string) (s : S).
Arguments Returned {R S} r s.
Arguments Raised {R S} e s.

Definition ZeroDivisionError : string := "ZeroDivisionError".
Definition OverflowError : string := "OverflowError".

(** ** Python floats: IEEE 754 binary64 *)

(** Where a rounding decides what a function returns, the function is
    modelled a second time in module [F64] with the operations below: a
    finite float is the rational it is, and an operation is the exact one
    followed by rounding to the nearest float, ties to even.  Infinities
    and NaN are not values of the model: [overflows] tells when Python
    would produce an infinity, and where it does the model's value, the
    rounding with no limit on the exponent, stands for none of Python's. *)

(** [2^k] for any integer [k]. *)
Definition pow2 (k : Z) : Q :=
  if (0 <=? k)%Z then inject_Z (2 ^ k) else 1 # Z.to_pos (2 ^ (- k)).

(** [floor (log2 (n / d))] for positive [n] and [d]. *)
Definition ilog2 (n d : Z) : Z :=
  let e := (Z.log2 n - Z.log2 d)%Z in
  if (0 <=? e)%Z
  then if (n <? d * 2 ^ e)%Z then (e - 1)%Z else e
  else if (n * 2 ^ (- e) <? d)%Z then (e - 1)%Z else e.

(** The integer nearest to [num / den], the even one of two equally near,
    for [0 <= num] and [0 < den]. *)
Definition round_half_even (num den : Z) : Z :=
  let fl := (num / den)%Z in
  match (2 * (num mod den) ?= den)%Z with
  | Lt => fl
  | Gt => (fl + 1)%Z
  | Eq => if Z.even fl then fl else (fl + 1)%Z
  end.

(** The binary64 value nearest to [x]: 53 significant bits, the exponent
    of the last bit not below [-1074] (subnormal numbers), and no upper
    limit on the exponent. *)
Definition round64 (x : Q) : Q :=
  let n := Z.abs (Qnum (Qred x)) in
  let d := Zpos (Qden (Qred x)) in
  if (n =? 0)%Z then 0
  else
    let e := ilog2 n d in
    let q := Z.max (e - 52) (-1074) in
    let m :=
      if (0 <=? q)%Z then round_half_even n (d * 2 ^ q)
      else round_half_even (n * 2 ^ (- q)) d in
    inject_Z (Z.sgn (Qnum (Qred x)) * m) * pow2 q.

(** [sys.float_info.max] *)
Definition max_float : Q := inject_Z ((2 ^ 53 - 1) * 2 ^ 971).

(** The operation whose exact result is [x] gives an infinity. *)
Definition overflows (x : Q) : bool := Qlt_bool max_float (Qabs (round64 x)).

(** [x] is a finite float: rounding leaves it as it is, and it is not
    beyond [max_float]. *)
Definition representable (x : Q) : Prop :=
  round64 x == x /\ overflows x = false.

Definition float_add (a b : Q) : Q := round64 (a + b).
Definition float_sub (a b : Q) : Q := round64 (a - b).
Definition float_mul (a b : Q) : Q := round64 (a * b).

(** [a / b] for [b] other than zero. *)
Definition float_div (a b : Q) : Q := round64 (a / b).

(** [float(k)], the conversion applied to an [int] operand. *)
Definition float_of_int (k : Z) : Q := round64 (inject_Z k).

(** ** models.py *)

Record Block : Type := mkBlock {
  b_block_id : string;
  b_timestamp : Q;
  b_time_since_last : Q;
  b_transaction_count : Z;
  b_size : Z;
  b_transactions : list string;
  b_miner_reward : Q;
  b_previous_hash : string;
  b_miner_id : string;
  b_difficulty : Q;
  (** the attribute set by [__post_init__] *)
  b_hash : string
}.

Inductive tx_status : Type := pending | confirmed | failed.

Record Transaction : Type := mkTransaction {
  tx_id : string;
  tx_sender : string;
  tx_recipient : string;
  tx_amount : Q;
  tx_fee : Q;
  tx_timestamp : Q;
  tx_status_of : tx_status;
  tx_priority : string;
  tx_network_congestion : Q
}.

Record Wallet : Type := mkWallet {
  w_wallet_id : string;
  w_balance : Q;
  w_transactions_sent : N;
  w_transactions_received : N;
  w_total_sent : Q;
  w_total_received : Q;
  w_total_fees : Q
}.

(** [Wallet.add_balance] *)
Definition add_balance (w : Wallet) (amount : Q) : Wallet :=
  {| w_wallet_id := w_wallet_id w;
     w_balance := w_balance w + amount;
     w_transactions_sent := w_transactions_sent w;
     w_transactions_received := (w_transactions_received w + 1)%N;
     w_total_sent := w_total_sent w;
     w_total_received := w_total_received w + amount;
     w_total_fees := w_total_fees w |}.

(** [Wallet.subtract_balance] over the rationals: the returned boolean and
    the wallet after the call.  [F64.subtract_balance] below is the same
    function with Python's float operations. *)
Definition subtract_balance (w : Wallet) (amount fee : Q) : bool * Wallet :=
  let total_deduction := amount + fee in
  if Qle_bool total_deduction (w_balance w) then
    (true,
     {| w_wallet_id := w_wallet_id w;
        w_balance := w_balance w - total_deduction;
        w_transactions_sent := (w_transactions_sent w + 1)%N;
        w_transactions_received := w_transactions_received w;
        w_total_sent := w_total_sent w + amount;
        w_total_received := w_total_received w;
        w_total_fees := w_total_fees w + fee |})
  else (false, w).

Record NetworkStats : Type := mkNetworkStats {
  ns_total_blocks_propagated : N;
  ns_total_transactions_propagated : N;
  ns_total_network_data : Z;
  ns_total_io_requests : N;
  ns_average_propagation_time : Q;
  ns_network_latency : Q;
  ns_packet_loss_rate : Q
}.

(** [NetworkStats.update_propagation_stats] over the rationals: the divisor
    is the counter after its increment, hence never zero.
    [F64.update_propagation_stats] below is the same function with Python's
    float operations. *)
Definition update_propagation_stats
    (st : NetworkStats) (block_size : Z) (propagation_time : Q) : NetworkStats :=
  let n := (ns_total_blocks_propagated st + 1)%N in
  {| ns_total_blocks_propagated := n;
     ns_total_transactions_propagated := ns_total_transactions_propagated st;
     ns_total_network_data := (ns_total_network_data st + block_size)%Z;
     ns_total_io_requests := (ns_total_io_requests st + 1)%N;
     ns_average_propagation_time :=
       if (n =? 1)%N then propagation_time
       else (ns_average_propagation_time st * inject_Z (Z.of_N n - 1)
             + propagation_time) / inject_Z (Z.of_N n);
     ns_network_latency := ns_network_latency st;
     ns_packet_loss_rate := ns_packet_loss_rate st |}.

(** [subtract_balance] and [update_propagation_stats] with Python's float
    operations: every [+], [-], [*] and [/] of the source is the rounded
    one, and an [int] operand is converted first. *)
Module F64.

(** [Wallet.subtract_balance] *)
Definition subtract_balance (w : Wallet) (amount fee : Q) : bool * Wallet :=
  let total_deduction := float_add amount fee in
  if Qle_bool total_deduction (w_balance w) then
    (true,
     {| w_wallet_id := w_wallet_id w;
        w_balance := float_sub (w_balance w) total_deduction;
        w_transactions_sent := (w_transactions_sent w + 1)%N;
        w_transactions_received := w_transactions_received w;
        w_total_sent := float_add (w_total_sent w) amount;
        w_total_received := w_total_received w;
        w_total_fees := float_add (w_total_fees w) fee |})
  else (false, w).

(** [NetworkStats.update_propagation_stats] *)
Definition update_propagation_stats
    (st : NetworkStats) (block_size : Z) (propagation_time : Q) : NetworkStats :=
  let n := (ns_total_blocks_propagated st + 1)%N in
  {| ns_total_blocks_propagated := n;
     ns_total_transactions_propagated := ns_total_transactions_propagated st;
     ns_total_network_data := (ns_total_network_data st + block_size)%Z;
     ns_total_io_requests := (ns_total_io_requests st + 1)%N;
     ns_average_propagation_time :=
       if (n =? 1)%N then propagation_time
       else
         float_div
           (float_add
              (float_mul (ns_average_propagation_time st)
                 (float_of_int (Z.of_N n - 1)))
              propagation_time)
           (float_of_int (Z.of_N n));
     ns_network_latency := ns_network_latency st;
     ns_packet_loss_rate := ns_packet_loss_rate st |}.

(** A run of [update_propagation_stats] calls, one per pair of a block
    size and a propagation time. *)
Definition record_propagations
    (st : NetworkStats) (updates : list (Z * Q)) : NetworkStats :=
  fold_left (fun st u => update_propagation_stats st (fst u) (snd u))
            updates st.

End F64.

Record MiningStats : Type := mkMiningStats {
  ms_total_blocks_mined : N;
  ms_total_mining_time : Q;
  ms_average_mining_time : Q;
  ms_current_difficulty : Q;
  ms_total_hashrate : Q;
  ms_blocks_per_miner : gmap string N
}.

(** [MiningStats.update_mining_stats] *)
Definition update_mining_stats
    (st : MiningStats) (miner_id : string) (mining_time difficulty : Q)
    : MiningStats :=
  let n := (ms_total_blocks_mined st + 1)%N in
  let total := ms_total_mining_time st + mining_time in
  let per_miner :=
    match ms_blocks_per_miner st !! miner_id with
    | None => <[miner_id := 0%N]> (ms_blocks_per_miner st)
    | Some _ => ms_blocks_per_miner st
    end in
  {| ms_total_blocks_mined := n;
     ms_total_mining_time := total;
     ms_average_mining_time := total / inject_Z (Z.of_N n);
     ms_current_difficulty := difficulty;
     ms_total_hashrate := ms_total_hashrate st;
     ms_blocks_per_miner :=
       <[miner_id := (default 0%N (per_miner !! miner_id) + 1)%N]> per_miner |}.

(** ** config.py *)

Definition DIFFICULTY_ADJUSTMENT_BLOCKS : Z := 2016.

(** [TRANSACTION_CONFIG]: the three entries the fee calculator reads. *)
Definition TRANSACTION_CONFIG_min_fee : Q := 1 # 1000.
Definition TRANSACTION_CONFIG_max_fee : Q := 1 # 10.
Definition TRANSACTION_CONFIG_fee_rate : Q := 1 # 100.

Record SimulationConfig : Type := mkSimulationConfig {
  cfg_nodes : Z;
  cfg_neighbors : Z;
  cfg_miners : Z;
  cfg_hashrate : Q;
  cfg_blocktime : Q;
  cfg_difficulty : Q;
  cfg_reward : Q;
  (** [None] for a static reward (Dogecoin) *)
  cfg_halving : option Z;
  cfg_wallets : Z;
  cfg_transactions : Z;
  cfg_interval : Q;
  cfg_blocksize : Z;
  (** [None] when no block-count target is given *)
  cfg_blocks : option Z;
  cfg_years : Q;
  cfg_print_interval : Z;
  cfg_debug : bool
}.

(** ** network.py *)

(** A node: its neighbours are references to other node objects, here the
    indices of those nodes in [nm_nodes].  The [network_stats] attribute of
    every node is the one instance owned by the manager. *)
Record BlockchainNode : Type := mkBlockchainNode {
  n_node_id : string;
  n_stored_blocks : gset string;
  n_neighbors : list nat;
  n_unconfirmed_transactions : list Transaction
}.

Record NetworkManager : Type := mkNetworkManager {
  nm_node_count : Z;
  nm_neighbor_count : Z;
  nm_network_stats : NetworkStats;
  nm_nodes : list BlockchainNode
}.

(** [BlockchainNode._broadcast_block]: one statistics update per neighbour,
    with the fixed delay [0.1]; nothing is delivered to the neighbour. *)
Fixpoint _broadcast_block
    (neighbors : list nat) (block : Block) (st : NetworkStats) : NetworkStats :=
  match neighbors with
  | [] => st
  | _ :: rest =>
      _broadcast_block rest block
        (update_propagation_stats st (b_size block) (1 # 10))
  end.

Definition set_stored_blocks (nd : BlockchainNode) (s : gset string)
    : BlockchainNode :=
  {| n_node_id := n_node_id nd;
     n_stored_blocks := s;
     n_neighbors := n_neighbors nd;
     n_unconfirmed_transactions := n_unconfirmed_transactions nd |}.

(** [BlockchainNode.store_block], called on the node at index [i].  A call
    on an index that names no node leaves the network as it is. *)
Definition store_block (net : NetworkManager) (i : nat) (block : Block)
    : bool * NetworkManager :=
  match nm_nodes net !! i with
  | None => (false, net)
  | Some nd =>
      if decide (b_block_id block ∈ n_stored_blocks nd) then (false, net)
      else
        (true,
         {| nm_node_count := nm_node_count net;
            nm_neighbor_count := nm_neighbor_count net;
            nm_network_stats :=
              _broadcast_block (n_neighbors nd) block (nm_network_stats net);
            nm_nodes :=
              <[i := set_stored_blocks nd
                       ({[b_block_id block]} ∪ n_stored_blocks nd)]>
                (nm_nodes net) |})
  end.

(** [NetworkManager.broadcast_block]; [choice] is the index drawn by
    [random.choice(self.nodes)]. *)
Definition broadcast_block (net : NetworkManager) (choice : nat) (block : Block)
    : NetworkManager :=
  match nm_nodes net with
  | [] => net
  | _ :: _ => snd (store_block net choice block)
  end.

(** Node [j] holds the block with identifier [bid]. *)
Definition holds (net : NetworkManager) (j : nat) (bid : string) : Prop :=
  exists nd, nm_nodes net !! j = Some nd /\ bid ∈ n_stored_blocks nd.

(** Node [j] can be reached from node [i] along neighbour links. *)
Inductive reachable (net : NetworkManager) (i : nat) : nat -> Prop :=
  | reachable_refl : reachable net i i
  | reachable_step j k nd :
      reachable net i j ->
      nm_nodes net !! j = Some nd ->
      In k (n_neighbors nd) ->
      (k < length (nm_nodes net))%nat ->
      reachable net i k.

(** ** mining.py *)

Record Miner : Type := mkMiner {
  m_miner_id : string;
  m_hashrate : Q;
  m_blocks_mined : N;
  m_total_mining_time : Q;
  m_running : bool;
  (** [hashrate * variance], set by [__post_init__] *)
  m_actual_hashrate : Q
}.

(** [Miner.update_stats] *)
Definition update_stats (m : Miner) (mining_time : Q) : Miner :=
  {| m_miner_id := m_miner_id m;
     m_hashrate := m_hashrate m;
     m_blocks_mined := (m_blocks_mined m + 1)%N;
     m_total_mining_time := m_total_mining_time m + mining_time;
     m_running := m_running m;
     m_actual_hashrate := m_actual_hashrate m |}.

(** The fields of [MiningManager].  The lock is not a field: every call
    below is one critical section.  [block_callback] is [None], as
    [__init__] leaves it. *)
Record MiningManager : Type := mkMiningManager {
  mm_config : SimulationConfig;
  mm_mining_stats : MiningStats;
  mm_miners : list Miner;
  mm_blocks : list Block;
  mm_current_difficulty : Q;
  mm_block_reward : Q;
  mm_halving_blocks : option Z;
  mm_simulated_time : Q;
  mm_last_block_time : Q;
  mm_last_block_hash : string;
  mm_transaction_pool : list Transaction;
  mm_block_counter : N
}.

Definition set_chain_tip (mm : MiningManager) (block : Block) : MiningManager :=
  {| mm_config := mm_config mm;
     mm_mining_stats := mm_mining_stats mm;
     mm_miners := mm_miners mm;
     mm_blocks := mm_blocks mm ++ [block];
     mm_current_difficulty := mm_current_difficulty mm;
     mm_block_reward := mm_block_reward mm;
     mm_halving_blocks := mm_halving_blocks mm;
     mm_simulated_time := mm_simulated_time mm;
     mm_last_block_time := b_timestamp block;
     mm_last_block_hash := b_hash block;
     mm_transaction_pool := mm_transaction_pool mm;
     mm_block_counter := mm_block_counter mm |}.

Definition set_miner_stats
    (mm : MiningManager) (miners : list Miner) (stats : MiningStats)
    : MiningManager :=
  {| mm_config := mm_config mm;
     mm_mining_stats := stats;
     mm_miners := miners;
     mm_blocks := mm_blocks mm;
     mm_current_difficulty := mm_current_difficulty mm;
     mm_block_reward := mm_block_reward mm;
     mm_halving_blocks := mm_halving_blocks mm;
     mm_simulated_time := mm_simulated_time mm;
     mm_last_block_time := mm_last_block_time mm;
     mm_last_block_hash := mm_last_block_hash mm;
     mm_transaction_pool := mm_transaction_pool mm;
     mm_block_counter := mm_block_counter mm |}.

Definition set_current_difficulty (mm : MiningManager) (d : Q) : MiningManager :=
  {| mm_config := mm_config mm;
     mm_mining_stats := mm_mining_stats mm;
     mm_miners := mm_miners mm;
     mm_blocks := mm_blocks mm;
     mm_current_difficulty := d;
     mm_block_reward := mm_block_reward mm;
     mm_halving_blocks := mm_halving_blocks mm;
     mm_simulated_time := mm_simulated_time mm;
     mm_last_block_time := mm_last_block_time mm;
     mm_last_block_hash := mm_last_block_hash mm;
     mm_transaction_pool := mm_transaction_pool mm;
     mm_block_counter := mm_block_counter mm |}.

Definition set_block_reward (mm : MiningManager) (r : Q) : MiningManager :=
  {| mm_config := mm_config mm;
     mm_mining_stats := mm_mining_stats mm;
     mm_miners := mm_miners mm;
     mm_blocks := mm_blocks mm;
     mm_current_difficulty := mm_current_difficulty mm;
     mm_block_reward := r;
     mm_halving_blocks := mm_halving_blocks mm;
     mm_simulated_time := mm_simulated_time mm;
     mm_last_block_time := mm_last_block_time mm;
     mm_last_block_hash := mm_last_block_hash mm;
     mm_transaction_pool := mm_transaction_pool mm;
     mm_block_counter := mm_block_counter mm |}.

Definition set_transaction_pool
    (mm : MiningManager) (pool : list Transaction) : MiningManager :=
  {| mm_config := mm_config mm;
     mm_mining_stats := mm_mining_stats mm;
     mm_miners := mm_miners mm;
     mm_blocks := mm_blocks mm;
     mm_current_difficulty := mm_current_difficulty mm;
     mm_block_reward := mm_block_reward mm;
     mm_halving_blocks := mm_halving_blocks mm;
     mm_simulated_time := mm_simulated_time mm;
     mm_last_block_time := mm_last_block_time mm;
     mm_last_block_hash := mm_last_block_hash mm;
     mm_transaction_pool := pool;
     mm_block_counter := mm_block_counter mm |}.

(** [MiningManager._create_miners]; [variance i] is the draw of
    [random.uniform] in the [__post_init__] of the [i]-th miner. *)
Definition _create_miners (config : SimulationConfig) (variance : nat -> Q)
    : list Miner :=
  map (fun i =>
         {| m_miner_id := "miner_" +:+ pretty i;
            m_hashrate := cfg_hashrate config;
            m_blocks_mined := 0%N;
            m_total_mining_time := 0;
            m_running := false;
            m_actual_hashrate := cfg_hashrate config * variance i |})
      (seq 0 (Z.to_nat (cfg_miners config))).

(** [MiningManager.__init__] *)
Definition MiningManager_init
    (config : SimulationConfig) (mining_stats : MiningStats)
    (variance : nat -> Q) : MiningManager :=
  {| mm_config := config;
     mm_mining_stats := mining_stats;
     mm_miners := _create_miners config variance;
     mm_blocks := [];
     mm_current_difficulty := cfg_difficulty config;
     mm_block_reward := cfg_reward config;
     mm_halving_blocks := cfg_halving config;
     mm_simulated_time := 0;
     mm_last_block_time := 0;
     mm_last_block_hash := "genesis";
     mm_transaction_pool := [];
     mm_block_counter := 0%N |}.

(** [MiningManager._get_miner_by_id]: the position of the first miner with
    that id. *)
Fixpoint _get_miner_by_id (miners : list Miner) (miner_id : string)
    : option nat :=
  match miners with
  | [] => None
  | m :: rest =>
      if String.eqb (m_miner_id m) miner_id then Some O
      else option_map S (_get_miner_by_id rest miner_id)
  end.

(** [MiningManager._validate_block] *)
Definition _validate_block (mm : MiningManager) (block : Block) : bool :=
  if negb (truthy_str (b_block_id block)) || negb (truthy_str (b_hash block))
  then false
  else if existsb (fun b => String.eqb (b_block_id b) (b_block_id block))
                  (mm_blocks mm)
  then false
  else if (cfg_blocksize (mm_config mm) <? b_transaction_count block)%Z
  then false
  else true.

(** [statistics.mean] on a non-empty sample. *)
Definition statistics_mean (data : list Q) : Q :=
  fold_left Qplus data 0 / inject_Z (Z.of_nat (length data)).

(** The baseline [blocktime * miners * hashrate]. *)
Definition base_difficulty (config : SimulationConfig) : Q :=
  cfg_blocktime config * inject_Z (cfg_miners config) * cfg_hashrate config.

(** [MiningManager._adjust_difficulty].  The quotient
    [target_time / actual_avg_time] raises when the mean is zero. *)
Definition _adjust_difficulty (mm : MiningManager) : outcome unit MiningManager :=
  if (Z.of_nat (length (mm_blocks mm)) <? DIFFICULTY_ADJUSTMENT_BLOCKS)%Z
  then Returned tt mm
  else
    let recent_blocks :=
      skipn (length (mm_blocks mm) - Z.to_nat DIFFICULTY_ADJUSTMENT_BLOCKS)
            (mm_blocks mm) in
    let actual_avg_time :=
      statistics_mean (map b_time_since_last recent_blocks) in
    let target_time := cfg_blocktime (mm_config mm) in
    if Qeq_bool actual_avg_time 0 then Raised ZeroDivisionError mm
    else
      let difficulty_change := target_time / actual_avg_time in
      let max_change := 3 # 2 in
      let difficulty_change :=
        py_max (67 # 100) (py_min max_change difficulty_change) in
      let current := mm_current_difficulty mm * difficulty_change in
      let base := base_difficulty (mm_config mm) in
      let min_difficulty := base * (1 # 10) in
      let max_difficulty := base * 5 in
      Returned tt
        (set_current_difficulty mm
           (py_max min_difficulty (py_min max_difficulty current))).

(** [MiningManager._halve_reward] *)
Definition _halve_reward (mm : MiningManager) : MiningManager :=
  set_block_reward mm (mm_block_reward mm / 2).

(** The part of [submit_block] that records the miner's statistics. *)
Definition record_miner_stats
    (mm : MiningManager) (block : Block) (miner_id : string) : MiningManager :=
  match _get_miner_by_id (mm_miners mm) miner_id with
  | None => mm
  | Some i =>
      let mining_time := b_time_since_last block in
      set_miner_stats mm
        (alter (fun m => update_stats m mining_time) i (mm_miners mm))
        (update_mining_stats (mm_mining_stats mm) miner_id mining_time
           (mm_current_difficulty mm))
  end.

(** [MiningManager.submit_block] *)
Definition submit_block
    (mm : MiningManager) (block : Block) (miner_id : string)
    : outcome bool MiningManager :=
  if negb (_validate_block mm block) then Returned false mm
  else
    let mm1 := set_chain_tip mm block in
    let mm2 := record_miner_stats mm1 block miner_id in
    let len := Z.of_nat (length (mm_blocks mm2)) in
    let adjusted :=
      if (len mod DIFFICULTY_ADJUSTMENT_BLOCKS =? 0)%Z && (0 <? len)%Z
      then _adjust_difficulty mm2
      else Returned tt mm2 in
    match adjusted with
    | Raised e mm3 => Raised e mm3
    | Returned _ mm3 =>
        let halve :=
          truthy_int (mm_halving_blocks mm3)
          && (len mod default 0%Z (mm_halving_blocks mm3) =? 0)%Z
          && (0 <? len)%Z in
        Returned true (if halve then _halve_reward mm3 else mm3)
    end.

(** The engine state a call leaves behind, whatever its outcome. *)
Definition state_after {R : Type} (o : outcome R MiningManager) : MiningManager :=
  match o with
  | Returned _ s => s
  | Raised _ s => s
  end.

(** The loop of [get_transactions_for_block]: [n] iterations, each popping
    the head of the pool when there is one. *)
Fixpoint pop_transactions
    (n : nat) (pool transactions : list Transaction)
    : list Transaction * list Transaction :=
  match n with
  | O => (transactions, pool)
  | S n' =>
      match pool with
      | [] => pop_transactions n' pool transactions
      | tx :: rest => pop_transactions n' rest (transactions ++ [tx])
      end
  end.

(** [MiningManager.get_transactions_for_block]; [range] of a negative bound
    is empty. *)
Definition get_transactions_for_block (mm : MiningManager)
    : list Transaction * MiningManager :=
  let max_tx :=
    Z.min (cfg_blocksize (mm_config mm))
          (Z.of_nat (length (mm_transaction_pool mm))) in
  let '(transactions, pool) :=
    pop_transactions (Z.to_nat max_tx) (mm_transaction_pool mm) [] in
  (transactions, set_transaction_pool mm pool).

(** [MiningManager.add_transaction] *)
Definition add_transaction (mm : MiningManager) (transaction : Transaction)
    : MiningManager :=
  set_transaction_pool mm (mm_transaction_pool mm ++ [transaction]).

(** [MiningManager.get_pending_transaction_count] *)
Definition get_pending_transaction_count (mm : MiningManager) : Z :=
  Z.of_nat (length (mm_transaction_pool mm)).

(** ** wallet.py *)

Record FeeCalculator : Type := mkFeeCalculator {
  fc_base_fee_rate : Q;
  fc_min_fee : Q;
  fc_max_fee : Q;
  fc_congestion_multiplier : Q;
  fc_block_utilization : Q
}.

(** [FeeCalculator.__init__] *)
Definition FeeCalculator_init : FeeCalculator :=
  {| fc_base_fee_rate := TRANSACTION_CONFIG_fee_rate;
     fc_min_fee := TRANSACTION_CONFIG_min_fee;
     fc_max_fee := TRANSACTION_CONFIG_max_fee;
     fc_congestion_multiplier := 1;
     fc_block_utilization := 1 # 2 |}.

(** The dictionary literal of [calculate_fee]. *)
Definition priority_multipliers : gmap string Q :=
  <["low" := 1 # 2]> (<["normal" := 1]> (<["high" := 2]> (<["urgent" := 5]> ∅))).

(** [FeeCalculator.calculate_fee] *)
Definition calculate_fee
    (fc : FeeCalculator) (amount : Q) (priority : string)
    (network_congestion : Q) : Q :=
  let base_fee := amount * fc_base_fee_rate fc in
  let priority_mult := default 1 (priority_multipliers !! priority) in
  let congestion_mult := 1 + network_congestion * 2 in
  let utilization_factor := 1 + fc_block_utilization fc * (1 # 2) in
  let fee := base_fee * priority_mult * congestion_mult * utilization_factor in
  py_max (fc_min_fee fc) (py_min fee (fc_max_fee fc)).

(** [FeeCalculator.update_network_conditions] *)
Definition update_network_conditions
    (fc : FeeCalculator) (congestion block_utilization : Q) : FeeCalculator :=
  {| fc_base_fee_rate := fc_base_fee_rate fc;
     fc_min_fee := fc_min_fee fc;
     fc_max_fee := fc_max_fee fc;
     fc_congestion_multiplier := 1 + congestion;
     fc_block_utilization := py_max 0 (py_min 1 block_utilization) |}.

(** A calculator as the simulation can hold it: built by [__init__], then
    updated any number of times with [(congestion, block_utilization)]
    pairs. *)
Definition fee_calculator_after (updates : list (Q * Q)) : FeeCalculator :=
  fold_left (fun fc cu => update_network_conditions fc (fst cu) (snd cu))
            updates FeeCalculator_init.

(** The fee model in the words of the specification. *)
Definition priorityMultiplier (priority : string) : option Q :=
  if String.eqb priority "low" then Some (1 # 2)
  else if String.eqb priority "normal" then Some 1
  else if String.eqb priority "high" then Some 2
  else if String.eqb priority "urgent" then Some 5
  else None.

Definition clamp (x lo hi : Q) : Q := Qmax lo (Qmin x hi).

Definition fee_model
    (amount base_rate multiplier congestion blockUtilization min_fee max_fee : Q)
    : Q :=
  clamp (amount * base_rate * multiplier * (1 + 2 * congestion)
         * (1 + (1 # 2) * blockUtilization))
        min_fee max_fee.

(** The wallet map of [WalletManager]; the other attributes of the class
    play no part in confirmation. *)
Record WalletManager : Type := mkWalletManager {
  wm_wallet_count : Z;
  wm_transaction_count : Z;
  wm_interval : Q;
  wm_wallets : gmap string Wallet;
  wm_running : bool;
  wm_fee_calculator : FeeCalculator;
  wm_network_congestion : Q;
  wm_block_utilization : Q
}.

Definition set_wallets (wm : WalletManager) (ws : gmap string Wallet)
    : WalletManager :=
  {| wm_wallet_count := wm_wallet_count wm;
     wm_transaction_count := wm_transaction_count wm;
     wm_interval := wm_interval wm;
     wm_wallets := ws;
     wm_running := wm_running wm;
     wm_fee_calculator := wm_fee_calculator wm;
     wm_network_congestion := wm_network_congestion wm;
     wm_block_utilization := wm_block_utilization wm |}.

Definition set_status (tx : Transaction) (st : tx_status) : Transaction :=
  {| tx_id := tx_id tx;
     tx_sender := tx_sender tx;
     tx_recipient := tx_recipient tx;
     tx_amount := tx_amount tx;
     tx_fee := tx_fee tx;
     tx_timestamp := tx_timestamp tx;
     tx_status_of := st;
     tx_priority := tx_priority tx;
     tx_network_congestion := tx_network_congestion tx |}.

(** [WalletManager.process_confirmed_transaction]: the manager and the
    transaction object after the call. *)
Definition process_confirmed_transaction
    (wm : WalletManager) (transaction : Transaction)
    : WalletManager * Transaction :=
  let wm' :=
    match wm_wallets wm !! tx_recipient transaction with
    | Some w =>
        set_wallets wm
          (<[tx_recipient transaction := add_balance w (tx_amount transaction)]>
             (wm_wallets wm))
    | None => wm
    end in
  (wm', set_status transaction confirmed).

(** ** simulator.py *)

(** The attributes of [BlockchainSimulator] read by the loop. *)
Record BlockchainSimulator : Type := mkBlockchainSimulator {
  sim_config : SimulationConfig;
  sim_mining_manager : MiningManager;
  sim_running : bool;
  sim_blocks_mined : Z;
  sim_total_coins : Q
}.

(** [BlockchainSimulator._should_terminate] *)
Definition _should_terminate (sim : BlockchainSimulator) : bool :=
  let pending_tx := get_pending_transaction_count (sim_mining_manager sim) in
  let total_expected_transactions :=
    (cfg_wallets (sim_config sim) * cfg_transactions (sim_config sim))%Z in
  if (0 <? cfg_wallets (sim_config sim))%Z
     && (pending_tx =? 0)%Z
     && (0 <? sim_blocks_mined sim)%Z
     && (0 <? total_expected_transactions)%Z
  then true
  else if truthy_int (cfg_blocks (sim_config sim))
          && (default 0%Z (cfg_blocks (sim_config sim)) <=? sim_blocks_mined sim)%Z
  then true
  else false.

(** How [_simulation_loop] is left. *)
Inductive loop_exit : Type :=
  | exit_terminated      (** [break] after [_should_terminate] *)
  | exit_stopped         (** the run flag was cleared *)
  | exit_exception.      (** the [except] clause caught an exception *)

(** [BlockchainSimulator._simulation_loop].  [body] is the rest of one
    iteration after the termination check: the mining attempt, the advance
    of simulated time and the refresh of the statistics, with its random
    draws resolved.  [fuel] bounds the number of iterations looked at; the
    result is [None] when the loop is still running after that many. *)
Fixpoint _simulation_loop
    (body : BlockchainSimulator -> outcome unit BlockchainSimulator)
    (fuel : nat) (sim : BlockchainSimulator)
    : option (loop_exit * BlockchainSimulator) :=
  match fuel with
  | O => None
  | S fuel' =>
      if negb (sim_running sim) then Some (exit_stopped, sim)
      else if _should_terminate sim then Some (exit_terminated, sim)
      else
        match body sim with
        | Raised _ sim' => Some (exit_exception, sim')
        | Returned _ sim' =>
            if negb (sim_running sim') then Some (exit_stopped, sim')
            else _simulation_loop body fuel' sim'
        end
  end.

(** The state after [n] iterations whose bodies all return. *)
Fixpoint iterations
    (body : BlockchainSimulator -> outcome unit BlockchainSimulator)
    (n : nat) (sim : BlockchainSimulator) : BlockchainSimulator :=
  match n with
  | O => sim
  | S n' =>
      match body sim with
      | Returned _ sim' => iterations body n' sim'
      | Raised _ sim' => sim'
      end
  end.

(** [MiningManager.advance_simulation_time] *)
Definition advance_simulation_time (mm : MiningManager) (elapsed_time : Q)
    : MiningManager :=
  {| mm_config := mm_config mm;
     mm_mining_stats := mm_mining_stats mm;
     mm_miners := mm_miners mm;
     mm_blocks := mm_blocks mm;
     mm_current_difficulty := mm_current_difficulty mm;
     mm_block_reward := mm_block_reward mm;
     mm_halving_blocks := mm_halving_blocks mm;
     mm_simulated_time := mm_simulated_time mm + elapsed_time;
     mm_last_block_time := mm_last_block_time mm;
     mm_last_block_hash := mm_last_block_hash mm;
     mm_transaction_pool := mm_transaction_pool mm;
     mm_block_counter := mm_block_counter mm |}.

(** The branch of the loop body taken when no block was mined: simulated
    time moves on by 300 seconds. *)
Definition idle_iteration (sim : BlockchainSimulator)
    : outcome unit BlockchainSimulator :=
  Returned tt
    {| sim_config := sim_config sim;
       sim_mining_manager :=
         advance_simulation_time (sim_mining_manager sim) 300;
       sim_running := sim_running sim;
       sim_blocks_mined := sim_blocks_mined sim;
       sim_total_coins := sim_total_coins sim |}.

(** The statistics records as their constructors build them. *)
Definition empty_network_stats : NetworkStats :=
  {| ns_total_blocks_propagated := 0; ns_total_transactions_propagated := 0;
     ns_total_network_data := 0; ns_total_io_requests := 0;
     ns_average_propagation_time := 0; ns_network_latency := 0;
     ns_packet_loss_rate := 0 |}.

Definition empty_mining_stats : MiningStats :=
  {| ms_total_blocks_mined := 0; ms_total_mining_time := 0;
     ms_average_mining_time := 0; ms_current_difficulty := 0;
     ms_total_hashrate := 0; ms_blocks_per_miner := ∅ |}.

(** Submitting a list of blocks one after the other. *)
Definition submit_all
    (mm : MiningManager) (blocks : list Block) (miner_id : string)
    : MiningManager :=
  fold_left (fun s b => state_after (submit_block s b miner_id)) blocks mm.

(** ** Properties as the specification words them *)

(** The difficulty lies within [0.1x, 5.0x] of the baseline. *)
Definition difficulty_within_bounds (config : SimulationConfig) (d : Q) : Prop :=
  base_difficulty config * (1 # 10) <= d /\ d <= base_difficulty config * 5.

(** One adjustment step, as specified: the new difficulty is within the
    bounds and its ratio to the old one is between [1/1.5] and [1.5]. *)
Definition adjustment_step_as_specified (before after : MiningManager) : Prop :=
  difficulty_within_bounds (mm_config after) (mm_current_difficulty after)
  /\ mm_current_difficulty after / mm_current_difficulty before <= 3 # 2
  /\ 1 / (3 # 2) <= mm_current_difficulty after / mm_current_difficulty before.

(** The difficulty invariant, as specified: a submission to the engine
    [mm] that triggers an adjustment is such a step. *)
Definition adjustment_as_specified
    (mm : MiningManager) (block : Block) (miner_id : string) : Prop :=
  forall mm',
    submit_block mm block miner_id = Returned true mm' ->
    (Z.of_nat (length (mm_blocks mm')) mod DIFFICULTY_ADJUSTMENT_BLOCKS = 0)%Z ->
    adjustment_step_as_specified mm mm'.

(** The flood, as specified: on a network all of whose nodes can be reached
    from the origin, every node holds the block after the broadcast. *)
Definition flood_as_specified
    (net : NetworkManager) (origin : nat) (block : Block) : Prop :=
  (forall j, (j < length (nm_nodes net))%nat -> reachable net origin j) ->
  forall j, (j < length (nm_nodes net))%nat ->
    holds (broadcast_block net origin block) j (b_block_id block).

(** Confirmation, as specified: the recipient is credited, the transaction
    is marked confirmed and the wallet of the sender is as it was. *)
Definition confirmation_as_specified
    (wm : WalletManager) (tx : Transaction) : Prop :=
  forall w, wm_wallets wm !! tx_recipient tx = Some w ->
    let wm' := fst (process_confirmed_transaction wm tx) in
    let tx' := snd (process_confirmed_transaction wm tx) in
    wm_wallets wm' !! tx_recipient tx = Some (add_balance w (tx_amount tx))
    /\ tx_status_of tx' = confirmed
    /\ wm_wallets wm' !! tx_sender tx = wm_wallets wm !! tx_sender tx.

(** The workload of case (i) of the termination check is configured, the
    pool is empty and a block has been mined. *)
Definition workload_processed (sim : BlockchainSimulator) : Prop :=
  (0 < cfg_wallets (sim_config sim))%Z
  /\ (0 < cfg_wallets (sim_config sim) * cfg_transactions (sim_config sim))%Z
  /\ mm_transaction_pool (sim_mining_manager sim) = []
  /\ (0 < sim_blocks_mined sim)%Z.

(** Case (ii): a block-count target is configured and has been reached. *)
Definition target_reached (sim : BlockchainSimulator) : Prop :=
  exists target,
    cfg_blocks (sim_config sim) = Some target
    /\ target <> 0%Z
    /\ (target <= sim_blocks_mined sim)%Z.

(** ** Concrete inputs *)

Definition node_0 : BlockchainNode :=
  {| n_node_id := "node_0"; n_stored_blocks := ∅; n_neighbors := [1%nat];
     n_unconfirmed_transactions := [] |}.

Definition node_1 : BlockchainNode :=
  {| n_node_id := "node_1"; n_stored_blocks := ∅; n_neighbors := [0%nat];
     n_unconfirmed_transactions := [] |}.

(** Two nodes, one neighbour each: [node_0] and [node_1] linked both ways. *)
Definition two_node_network : NetworkManager :=
  {| nm_node_count := 2; nm_neighbor_count := 1;
     nm_network_stats := empty_network_stats;
     nm_nodes := [node_0; node_1] |}.

(** One miner of hashrate 1 aiming at 600-second blocks: the baseline
    difficulty is 600. *)
Definition example_config (difficulty : Q) (halving : option Z)
    : SimulationConfig :=
  {| cfg_nodes := 2; cfg_neighbors := 1; cfg_miners := 1; cfg_hashrate := 1;
     cfg_blocktime := 600; cfg_difficulty := difficulty; cfg_reward := 50;
     cfg_halving := halving; cfg_wallets := 0; cfg_transactions := 0;
     cfg_interval := 1; cfg_blocksize := 4000; cfg_blocks := None;
     cfg_years := 1; cfg_print_interval := 144; cfg_debug := false |}.

(** The [i]-th block of a run in which every block reports the same
    [time_since_last].  The digest is not computed: a non-empty string
    stands for the hexadecimal SHA-256 value. *)
Definition example_block (time_since_last : Q) (i : nat) : Block :=
  {| b_block_id := "block_" +:+ pretty i;
     b_timestamp := inject_Z (Z.of_nat i) * time_since_last;
     b_time_since_last := time_since_last;
     b_transaction_count := 0; b_size := 1024; b_transactions := [];
     b_miner_reward := 50; b_previous_hash := "genesis";
     b_miner_id := "miner_0"; b_difficulty := 600;
     b_hash := "sha256_" +:+ pretty i |}.

(** The engine after [n] submissions [block_1 .. block_n] by [miner_0]. *)
Definition engine_after
    (difficulty : Q) (halving : option Z) (time_since_last : Q) (n : nat)
    : MiningManager :=
  submit_all
    (MiningManager_init (example_config difficulty halving)
       empty_mining_stats (fun _ => 1))
    (map (example_block time_since_last) (seq 1 n)) "miner_0".

Definition raised {R S : Type} (o : outcome R S) : bool :=
  match o with
  | Raised _ _ => true
  | Returned _ _ => false
  end.

(** A wallet as [Wallet(wallet_id, 0.0)] builds it. *)
Definition empty_wallet (wallet_id : string) : Wallet :=
  {| w_wallet_id := wallet_id; w_balance := 0; w_transactions_sent := 0;
     w_transactions_received := 0; w_total_sent := 0; w_total_received := 0;
     w_total_fees := 0 |}.

(** One wallet, and a transaction it sends to itself, as the bulk
    generator produces them when a single wallet is configured
    ([recipient = wallet_((0 + 1) % 1)]). *)
Definition single_wallet_manager : WalletManager :=
  {| wm_wallet_count := 1; wm_transaction_count := 1; wm_interval := 1;
     wm_wallets :=
       {[ "wallet_0" := empty_wallet "wallet_0" ]};
     wm_running := true; wm_fee_calculator := FeeCalculator_init;
     wm_network_congestion := 0; wm_block_utilization := 1 # 2 |}.

Definition self_transfer : Transaction :=
  {| tx_id := "tx_0"; tx_sender := "wallet_0"; tx_recipient := "wallet_0";
     tx_amount := 1; tx_fee := 1 # 100; tx_timestamp := 0;
     tx_status_of := pending; tx_priority := "normal";
     tx_network_congestion := 0 |}.

Definition wallet_with_ten : Wallet :=
  {| w_wallet_id := "wallet_0"; w_balance := 10; w_transactions_sent := 0;
     w_transactions_received := 0; w_total_sent := 0; w_total_received := 0;
     w_total_fees := 0 |}.

(** A wallet holding the float [0.3], and one holding [1.0]. *)
Definition wallet_with_three_tenths : Wallet :=
  {| w_wallet_id := "wallet_0"; w_balance := round64 (3 # 10);
     w_transactions_sent := 0; w_transactions_received := 0;
     w_total_sent := 0; w_total_received := 0; w_total_fees := 0 |}.

Definition wallet_with_one : Wallet :=
  {| w_wallet_id := "wallet_0"; w_balance := 1;
     w_transactions_sent := 0; w_transactions_received := 0;
     w_total_sent := 0; w_total_received := 0; w_total_fees := 0 |}.

(** Two wallets, the first one funded as [_create_wallets] funds the
    first half of the wallets, and the first transaction of the bulk
    generator, [wallet_0] paying [wallet_1]. *)
Definition two_wallet_manager : WalletManager :=
  {| wm_wallet_count := 2; wm_transaction_count := 3; wm_interval := 1;
     wm_wallets :=
       <["wallet_0" := wallet_with_ten]>
         {[ "wallet_1" := empty_wallet "wallet_1" ]};
     wm_running := true; wm_fee_calculator := FeeCalculator_init;
     wm_network_congestion := 0; wm_block_utilization := 1 # 2 |}.

Definition transfer_0_to_1 : Transaction :=
  {| tx_id := "tx_0"; tx_sender := "wallet_0"; tx_recipient := "wallet_1";
     tx_amount := 1; tx_fee := 1 # 100; tx_timestamp := 0;
     tx_status_of := pending; tx_priority := "normal";
     tx_network_congestion := 0 |}.

(** The two-node network once [node_0] has stored [block_1]. *)
Definition two_node_network_after_broadcast : NetworkManager :=
  broadcast_block two_node_network 0 (example_block 600 1).

(** A fresh engine whose blocks hold one transaction. *)
Definition queue_engine : MiningManager :=
  MiningManager_init
    {| cfg_nodes := 2; cfg_neighbors := 1; cfg_miners := 1; cfg_hashrate := 1;
       cfg_blocktime := 600; cfg_difficulty := 600; cfg_reward := 50;
       cfg_halving := None; cfg_wallets := 2; cfg_transactions := 1;
       cfg_interval := 1; cfg_blocksize := 1; cfg_blocks := None;
       cfg_years := 1; cfg_print_interval := 144; cfg_debug := false |}
    empty_mining_stats (fun _ => 1).

(** A running simulator with neither a workload nor a block-count target. *)
Definition unbounded_simulator : BlockchainSimulator :=
  {| sim_config := example_config 600 None;
     sim_mining_manager :=
       MiningManager_init (example_config 600 None) empty_mining_stats
         (fun _ => 1);
     sim_running := true;
     sim_blocks_mined := 0;
     sim_total_coins := 0 |}.

Definition returned_true {S : Type} (o : outcome bool S) : bool :=
  match o with
  | Returned true _ => true
  | _ => false
  end.

(** The engine once [miner_0] has had [block_1 .. block_n] accepted, with
    no adjustment and no halving on the way ([n < 2016]), written out
    field by field. *)
Definition example_engine
    (difficulty : Q) (halving : option Z) (time_since_last : Q) (n : nat)
    : MiningManager :=
  let total := fold_left Qplus (repeat time_since_last n) 0 in
  {| mm_config := example_config difficulty halving;
     mm_mining_stats :=
       {| ms_total_blocks_mined := N.of_nat n;
          ms_total_mining_time := total;
          ms_average_mining_time := total / inject_Z (Z.of_nat n);
          ms_current_difficulty := difficulty;
          ms_total_hashrate := 0;
          ms_blocks_per_miner := {[ "miner_0" := N.of_nat n ]} |};
     mm_miners :=
       [ {| m_miner_id := "miner_0"; m_hashrate := 1;
            m_blocks_mined := N.of_nat n; m_total_mining_time := total;
            m_running := false; m_actual_hashrate := 1 * 1 |} ];
     mm_blocks := map (example_block time_since_last) (seq 1 n);
     mm_current_difficulty := difficulty;
     mm_block_reward := 50;
     mm_halving_blocks := halving;
     mm_simulated_time := 0;
     mm_last_block_time := b_timestamp (example_block time_since_last n);
     mm_last_block_hash := b_hash (example_block time_since_last n);
     mm_transaction_pool := [];
     mm_block_counter := 0%N |}.

(** 2015 blocks of 600 seconds each on an engine configured with the
    baseline difficulty 600; the next block is the 2016th. *)
Definition steady_engine : MiningManager := example_engine 600 None 600 2015.

Definition steady_engine_adjusted : MiningManager :=
  state_after (submit_block steady_engine (example_block 600 2016) "miner_0").

(** The same run on an engine started with the custom difficulty 60000,
    a hundred times the baseline. *)
Definition overshoot_engine : MiningManager :=
  example_engine 60000 None 600 2015.

Definition overshoot_engine_adjusted : MiningManager :=
  state_after (submit_block overshoot_engine (example_block 600 2016) "miner_0").

(** A fresh engine that halves the reward with every block, as
    [--halving 1] configures it, and one with the default interval of
    210000 blocks. *)
Definition halving_engine : MiningManager :=
  MiningManager_init (example_config 600 (Some 1%Z)) empty_mining_stats
    (fun _ => 1).

Definition default_halving_engine : MiningManager :=
  MiningManager_init (example_config 600 (Some 210000%Z)) empty_mining_stats
    (fun _ => 1).

(** * The rest of the engine *)

(** ** Runs of the mining engine *)

(** Submitting blocks one after the other, each under the id of the miner
    that built it. *)
Definition submit_sequence
    (mm : MiningManager) (submissions : list (Block * string)) : MiningManager :=
  fold_left (fun s bm => state_after (submit_block s (fst bm) (snd bm)))
            submissions mm.

(** The blocks of a run that are appended: those that pass
    [_validate_block] in the state the engine is in at their turn. *)
Fixpoint accepted_blocks
    (mm : MiningManager) (submissions : list (Block * string)) : list Block :=
  match submissions with
  | [] => []
  | bm :: rest =>
      (if _validate_block mm (fst bm) then [fst bm] else [])
      ++ accepted_blocks (state_after (submit_block mm (fst bm) (snd bm))) rest
  end.

(** No submission of the run raises. *)
Fixpoint run_completes
    (mm : MiningManager) (submissions : list (Block * string)) : bool :=
  match submissions with
  | [] => true
  | bm :: rest =>
      negb (raised (submit_block mm (fst bm) (snd bm)))
      && run_completes (state_after (submit_block mm (fst bm) (snd bm))) rest
  end.

(** The chain tip recorded by the engine matches the last block of the
    chain, or is the genesis marker when the chain is empty. *)
Definition tip_consistent (mm : MiningManager) : Prop :=
  match last (mm_blocks mm) with
  | None => mm_last_block_hash mm = "genesis" /\ mm_last_block_time mm = 0
  | Some b =>
      mm_last_block_hash mm = b_hash b /\ mm_last_block_time mm = b_timestamp b
  end.

(** The validated part of the chain: distinct ids, and for every block a
    non-empty id and hash and a transaction count within the block size. *)
Definition chain_valid (mm : MiningManager) : Prop :=
  NoDup (map b_block_id (mm_blocks mm))
  /\ Forall (fun b =>
       b_block_id b <> "" /\ b_hash b <> ""
       /\ (b_transaction_count b <= cfg_blocksize (mm_config mm))%Z)
     (mm_blocks mm).

(** Four blocks of 600 seconds, all built by [miner_0]. *)
Definition four_submissions : list (Block * string) :=
  map (fun i => (example_block 600 i, "miner_0")) (seq 1 4).

Definition set_block_counter (mm : MiningManager) (c : N) : MiningManager :=
  {| mm_config := mm_config mm;
     mm_mining_stats := mm_mining_stats mm;
     mm_miners := mm_miners mm;
     mm_blocks := mm_blocks mm;
     mm_current_difficulty := mm_current_difficulty mm;
     mm_block_reward := mm_block_reward mm;
     mm_halving_blocks := mm_halving_blocks mm;
     mm_simulated_time := mm_simulated_time mm;
     mm_last_block_time := mm_last_block_time mm;
     mm_last_block_hash := mm_last_block_hash mm;
     mm_transaction_pool := mm_transaction_pool mm;
     mm_block_counter := c |}.

(** [MiningManager.get_next_block_id]: the id and the engine with its
    counter advanced. *)
Definition get_next_block_id (mm : MiningManager) : string * MiningManager :=
  let c := (mm_block_counter mm + 1)%N in
  ("block_" +:+ pretty c, set_block_counter mm c).

(** [n] calls of [get_next_block_id] in a row. *)
Fixpoint next_block_ids (n : nat) (mm : MiningManager)
    : list string * MiningManager :=
  match n with
  | O => ([], mm)
  | S n' =>
      let '(block_id, mm1) := get_next_block_id mm in
      let '(ids, mm2) := next_block_ids n' mm1 in
      (block_id :: ids, mm2)
  end.

(** [MiningManager.get_transaction_by_id]: the first transaction of the
    pool with that id. *)
Definition get_transaction_by_id (mm : MiningManager) (id : string)
    : option Transaction :=
  List.find (fun transaction => String.eqb (tx_id transaction) id)
            (mm_transaction_pool mm).

(** [Miner._calculate_expected_mining_time]; [variance] is the draw of
    [random.uniform(0.8, 1.2)]. *)
Definition _calculate_expected_mining_time
    (mm : MiningManager) (variance : Q) : Q :=
  let target_block_time := cfg_blocktime (mm_config mm) in
  let base_time :=
    match mm_blocks mm with
    | [] => target_block_time
    | _ :: _ => target_block_time
    end in
  let expected_time := base_time * variance in
  py_max 1 (py_min expected_time (target_block_time * 2)).

Definition HEADER_SIZE : Z := 1024.
Definition TRANSACTION_SIZE : Z := 256.

(** [Miner._create_block].  [calculate_hash] stands for
    [Block.calculate_hash], the SHA-256 digest of the block id, timestamp,
    previous hash and miner id, which is not computed here.  The result is
    the block, the transaction objects attached to it as
    [block.transaction_objects], and the engine after the pool and the
    counter were used. *)
Definition _create_block
    (calculate_hash : string -> Q -> string -> string -> string)
    (miner : Miner) (mm : MiningManager) (current_sim_time mining_time : Q)
    : Block * list Transaction * MiningManager :=
  let '(transactions, mm1) := get_transactions_for_block mm in
  let header_size := HEADER_SIZE in
  let tx_size := (Z.of_nat (length transactions) * TRANSACTION_SIZE)%Z in
  let block_size := (header_size + tx_size)%Z in
  let time_since_last := mining_time in
  let '(block_id, mm2) := get_next_block_id mm1 in
  let transaction_ids := map tx_id transactions in
  let timestamp := current_sim_time + mining_time in
  ({| b_block_id := block_id;
      b_timestamp := timestamp;
      b_time_since_last := time_since_last;
      b_transaction_count := Z.of_nat (length transactions);
      b_size := block_size;
      b_transactions := transaction_ids;
      b_miner_reward := mm_block_reward mm2;
      b_previous_hash := mm_last_block_hash mm2;
      b_miner_id := m_miner_id miner;
      b_difficulty := mm_current_difficulty mm2;
      b_hash :=
        calculate_hash block_id timestamp (mm_last_block_hash mm2)
          (m_miner_id miner) |},
   transactions, mm2).

(** [self.blocks_mined += 1] in [mine_block]. *)
Definition count_mined_block (m : Miner) : Miner :=
  {| m_miner_id := m_miner_id m;
     m_hashrate := m_hashrate m;
     m_blocks_mined := (m_blocks_mined m + 1)%N;
     m_total_mining_time := m_total_mining_time m;
     m_running := m_running m;
     m_actual_hashrate := m_actual_hashrate m |}.

(** [Miner.mine_block], called on the miner at position [i] of
    [mining_manager.miners]; [variance] is the draw of the expected mining
    time.  The [except] clause turns an exception into [None]. *)
Definition mine_block
    (calculate_hash : string -> Q -> string -> string -> string)
    (i : nat) (mm : MiningManager) (variance : Q)
    : option Block * MiningManager :=
  match mm_miners mm !! i with
  | None => (None, mm)
  | Some miner =>
      let expected_mining_time := _calculate_expected_mining_time mm variance in
      let current_sim_time := mm_simulated_time mm in
      let '(block, _, mm1) :=
        _create_block calculate_hash miner mm current_sim_time
          expected_mining_time in
      match submit_block mm1 block (m_miner_id miner) with
      | Returned true mm2 =>
          (Some block,
           set_miner_stats mm2 (alter count_mined_block i (mm_miners mm2))
             (mm_mining_stats mm2))
      | Returned false mm2 => (None, mm2)
      | Raised _ mm2 => (None, mm2)
      end
  end.

(** The chain as the miners of the engine leave it: every block id was
    handed out by the counter, and every block took some time. *)
Definition chain_mined (mm : MiningManager) : Prop :=
  Forall (fun b =>
    (exists k, (k <= mm_block_counter mm)%N
               /\ b_block_id b = "block_" +:+ pretty k)
    /\ 0 < b_time_since_last b)
  (mm_blocks mm).

(** A stand-in digest for the examples: never empty. *)
Definition example_digest (block_id : string) (timestamp : Q)
    (previous_hash miner_id : string) : string :=
  "sha256_" +:+ block_id.

(** The positions of the running miners in [mining_manager.miners],
    counted from [i]: [[m for m in self.miners if m.running]]. *)
Fixpoint active_miners_from (i : nat) (miners : list Miner) : list nat :=
  match miners with
  | [] => []
  | m :: rest =>
      if m_running m then i :: active_miners_from (S i) rest
      else active_miners_from (S i) rest
  end.

(** [MiningManager.mine_next_block].  [draw] is the value of
    [random.random()], [choice] the position [random.choice] picks in the
    list of running miners and [variance] the draw of the mining time. *)
Definition mine_next_block
    (calculate_hash : string -> Q -> string -> string -> string)
    (mm : MiningManager) (draw : Q) (choice : nat) (variance : Q)
    : option Block * MiningManager :=
  let current_sim_time := mm_simulated_time mm in
  let time_since_last :=
    match mm_blocks mm with
    | [] => cfg_blocktime (mm_config mm)
    | _ :: _ => current_sim_time - mm_last_block_time mm
    end in
  let target_block_time := cfg_blocktime (mm_config mm) in
  let attempt :=
    let active_miners := active_miners_from 0 (mm_miners mm) in
    match active_miners !! choice with
    | None => (None, mm)
    | Some i => mine_block calculate_hash i mm variance
    end in
  if Qle_bool target_block_time time_since_last then
    if Qlt_bool draw (9 # 10) then attempt else (None, mm)
  else
    if Qlt_bool draw (1 # 100) then attempt else (None, mm).

(** A fresh engine whose miner has been started. *)
Definition started_engine : MiningManager :=
  set_miner_stats queue_engine
    (map (fun m =>
            {| m_miner_id := m_miner_id m; m_hashrate := m_hashrate m;
               m_blocks_mined := m_blocks_mined m;
               m_total_mining_time := m_total_mining_time m;
               m_running := true;
               m_actual_hashrate := m_actual_hashrate m |})
         (mm_miners queue_engine))
    (mm_mining_stats queue_engine).

(** ** network.py: the topology *)

Definition set_neighbors (nd : BlockchainNode) (neighbors : list nat)
    : BlockchainNode :=
  {| n_node_id := n_node_id nd;
     n_stored_blocks := n_stored_blocks nd;
     n_neighbors := neighbors;
     n_unconfirmed_transactions := n_unconfirmed_transactions nd |}.

Definition set_nodes (net : NetworkManager) (nodes : list BlockchainNode)
    : NetworkManager :=
  {| nm_node_count := nm_node_count net;
     nm_neighbor_count := nm_neighbor_count net;
     nm_network_stats := nm_network_stats net;
     nm_nodes := nodes |}.

(** [BlockchainNode.add_neighbor], called on the node at index [i] with
    the node at index [k]. *)
Definition add_neighbor (net : NetworkManager) (i k : nat) : NetworkManager :=
  match nm_nodes net !! i with
  | None => net
  | Some nd =>
      if decide (k ∈ n_neighbors nd) then net
      else if decide (k = i) then net
      else set_nodes net
             (<[i := set_neighbors nd (n_neighbors nd ++ [k])]> (nm_nodes net))
  end.

(** [list.remove]: the first occurrence goes. *)
Fixpoint remove_first (k : nat) (l : list nat) : list nat :=
  match l with
  | [] => []
  | x :: rest => if decide (x = k) then rest else x :: remove_first k rest
  end.

(** [BlockchainNode.remove_neighbor] *)
Definition remove_neighbor (net : NetworkManager) (i k : nat) : NetworkManager :=
  match nm_nodes net !! i with
  | None => net
  | Some nd =>
      if decide (k ∈ n_neighbors nd)
      then set_nodes net
             (<[i := set_neighbors nd (remove_first k (n_neighbors nd))]>
                (nm_nodes net))
      else net
  end.

(** The neighbours of the node at index [i]. *)
Definition neighbors_of (net : NetworkManager) (i : nat) : list nat :=
  match nm_nodes net !! i with
  | None => []
  | Some nd => n_neighbors nd
  end.

(** A sound topology: no node is its own neighbour, no neighbour is listed
    twice, every neighbour is a node of the network and lists the node in
    return. *)
Definition topology_ok (net : NetworkManager) : Prop :=
  forall i, (i < length (nm_nodes net))%nat ->
    NoDup (neighbors_of net i)
    /\ (i ∉ neighbors_of net i)
    /\ forall k, k ∈ neighbors_of net i ->
         (k < length (nm_nodes net))%nat /\ i ∈ neighbors_of net k.

(** The two calls of the loop body of [_connect_nodes]. *)
Definition connect (net : NetworkManager) (i k : nat) : NetworkManager :=
  add_neighbor (add_neighbor net i k) k i.

(** The candidates of node [i]: every other node not yet a neighbour. *)
Definition available_neighbors (net : NetworkManager) (i : nat) : list nat :=
  filter (fun k => k <> i /\ k ∉ neighbors_of net i)
         (seq 0 (length (nm_nodes net))).

(** What [random.sample(population, n)] gives for [n] within the size of
    a population without repetitions: [n] distinct members of it.  The
    first argument only tells the draws of the nodes apart. *)
Definition is_sample (sample : nat -> list nat -> nat -> list nat) : Prop :=
  forall i population n,
    NoDup population -> (n <= length population)%nat ->
    NoDup (sample i population n)
    /\ length (sample i population n) = n
    /\ forall k, k ∈ sample i population n -> k ∈ population.

(** The body of the loop of [NetworkManager._connect_nodes] for the node
    at position [i]; [sample i available n] is the list
    [random.sample(available, n)] drawn for it. *)
Definition connect_node
    (sample : nat -> list nat -> nat -> list nat) (net : NetworkManager)
    (i : nat) : NetworkManager :=
  let available := available_neighbors net i in
  let num_neighbors :=
    Z.min (nm_neighbor_count net) (Z.of_nat (length available)) in
  if (0 <? num_neighbors)%Z
  then fold_left (fun net k => connect net i k)
                 (sample i available (Z.to_nat num_neighbors)) net
  else net.

(** [NetworkManager._connect_nodes]. *)
Definition _connect_nodes
    (sample : nat -> list nat -> nat -> list nat) (net : NetworkManager)
    : NetworkManager :=
  fold_left (connect_node sample) (seq 0 (length (nm_nodes net))) net.

(** [BlockchainNode.__init__]: no block, no neighbour, no transaction.  The
    latency, bandwidth and loss rate drawn there are read by
    [get_network_stats] only and are left out. *)
Definition new_node (node_id : string) : BlockchainNode :=
  {| n_node_id := node_id; n_stored_blocks := ∅; n_neighbors := [];
     n_unconfirmed_transactions := [] |}.

(** [NetworkManager.__init__] with [_create_network]: the nodes
    [node_0 .. node_(node_count-1)], then [_connect_nodes]. *)
Definition _create_network
    (sample : nat -> list nat -> nat -> list nat)
    (node_count neighbor_count : Z) (network_stats : NetworkStats)
    : NetworkManager :=
  _connect_nodes sample
    {| nm_node_count := node_count;
       nm_neighbor_count := neighbor_count;
       nm_network_stats := network_stats;
       nm_nodes :=
         map (fun i : nat => new_node ("node_" +:+ pretty i))
             (seq 0 (Z.to_nat node_count)) |}.

(** A draw that takes the first [n] members of the population. *)
Definition first_sample (i : nat) (population : list nat) (n : nat)
    : list nat :=
  take n population.

(** ** models.py: statistics over a run *)

(** A run of [update_mining_stats] calls, one per triple of a miner, a
    mining time and a difficulty. *)
Definition record_minings
    (st : MiningStats) (updates : list (string * Q * Q)) : MiningStats :=
  fold_left
    (fun st u => update_mining_stats st (fst (fst u)) (snd (fst u)) (snd u))
    updates st.

Definition sum_Q (l : list Q) : Q := fold_right Qplus 0 l.

Definition sum_Z (l : list Z) : Z := fold_right Z.add 0%Z l.

(** The number of blocks of a run that [miner_id] mined. *)
Definition mined_by (miner_id : string) (updates : list (string * Q * Q))
    : nat :=
  length (filter (fun u => fst (fst u) = miner_id) updates).

(** ** network.py: transactions and the report *)

(** [BlockchainNode.add_transaction] *)
Definition node_add_transaction (nd : BlockchainNode) (transaction : Transaction)
    : BlockchainNode :=
  {| n_node_id := n_node_id nd;
     n_stored_blocks := n_stored_blocks nd;
     n_neighbors := n_neighbors nd;
     n_unconfirmed_transactions :=
       n_unconfirmed_transactions nd ++ [transaction] |}.

(** The loop of [BlockchainNode.get_transactions]: it runs while the pool
    is not empty and [count < max_count]. *)
Fixpoint pop_while
    (pool : list Transaction) (count max_count : Z)
    (transactions : list Transaction)
    : list Transaction * list Transaction :=
  match pool with
  | [] => (transactions, pool)
  | tx :: rest =>
      if (count <? max_count)%Z
      then pop_while rest (count + 1)%Z max_count (transactions ++ [tx])
      else (transactions, pool)
  end.

(** [BlockchainNode.get_transactions] *)
Definition node_get_transactions (nd : BlockchainNode) (max_count : Z)
    : list Transaction * BlockchainNode :=
  let '(transactions, pool) :=
    pop_while (n_unconfirmed_transactions nd) 0 max_count [] in
  (transactions,
   {| n_node_id := n_node_id nd;
      n_stored_blocks := n_stored_blocks nd;
      n_neighbors := n_neighbors nd;
      n_unconfirmed_transactions := pool |}).

(** [NetworkManager.broadcast_transaction] *)
Definition broadcast_transaction
    (net : NetworkManager) (transaction : Transaction) : NetworkManager :=
  set_nodes net
    (map (fun nd => node_add_transaction nd transaction) (nm_nodes net)).

Definition get_neighbor_count (nd : BlockchainNode) : Z :=
  Z.of_nat (length (n_neighbors nd)).

Definition get_stored_block_count (nd : BlockchainNode) : Z :=
  Z.of_nat (size (n_stored_blocks nd)).

Definition node_get_pending_transaction_count (nd : BlockchainNode) : Z :=
  Z.of_nat (length (n_unconfirmed_transactions nd)).

(** The dictionary of [NetworkManager.get_network_stats], without the two
    nested entries ['network_stats'] and ['node_stats']. *)
Record NetworkReport : Type := mkNetworkReport {
  nr_node_count : Z;
  nr_total_connections : Z;
  nr_total_blocks_stored : Z;
  nr_total_pending_transactions : Z;
  nr_average_neighbors : Q
}.

(** [NetworkManager.get_network_stats]; [sum] over integers is [sum_Z]. *)
Definition get_network_stats (net : NetworkManager) : NetworkReport :=
  let total_connections :=
    (sum_Z (map get_neighbor_count (nm_nodes net)) / 2)%Z in
  let total_blocks_stored :=
    sum_Z (map get_stored_block_count (nm_nodes net)) in
  let total_pending_transactions :=
    sum_Z (map node_get_pending_transaction_count (nm_nodes net)) in
  let avg_neighbors :=
    match nm_nodes net with
    | [] => 0
    | _ :: _ =>
        inject_Z total_connections
        / inject_Z (Z.of_nat (length (nm_nodes net)))
    end in
  let io_per_block := nm_node_count net in
  let cumulative_io := (total_blocks_stored * io_per_block)%Z in
  {| nr_node_count := Z.of_nat (length (nm_nodes net));
     nr_total_connections := cumulative_io;
     nr_total_blocks_stored := total_blocks_stored;
     nr_total_pending_transactions := total_pending_transactions;
     nr_average_neighbors := avg_neighbors |}.

(** A run of [broadcast_block] calls, one per pair of the node drawn and
    the block. *)
Definition broadcast_blocks
    (net : NetworkManager) (broadcasts : list (nat * Block)) : NetworkManager :=
  fold_left (fun net cb => broadcast_block net (fst cb) (snd cb))
            broadcasts net.

(** ** wallet.py: balances *)

(** [Wallet(wallet_id, balance)]: the counters and totals at their
    defaults. *)
Definition new_wallet (wallet_id : string) (balance : Q) : Wallet :=
  {| w_wallet_id := wallet_id; w_balance := balance;
     w_transactions_sent := 0; w_transactions_received := 0;
     w_total_sent := 0; w_total_received := 0; w_total_fees := 0 |}.

(** [WalletManager.get_wallet_balance] *)
Definition get_wallet_balance (wm : WalletManager) (wallet_id : string) : Q :=
  match wm_wallets wm !! wallet_id with
  | Some w => w_balance w
  | None => 0
  end.

(** [WalletManager.add_mining_reward] *)
Definition add_mining_reward
    (wm : WalletManager) (miner_id : string) (amount : Q) : WalletManager :=
  match wm_wallets wm !! miner_id with
  | Some w =>
      set_wallets wm (<[miner_id := add_balance w amount]> (wm_wallets wm))
  | None =>
      set_wallets wm (<[miner_id := new_wallet miner_id amount]> (wm_wallets wm))
  end.

(** A run of [add_mining_reward] calls. *)
Definition add_mining_rewards
    (wm : WalletManager) (rewards : list (string * Q)) : WalletManager :=
  fold_left (fun wm r => add_mining_reward wm (fst r) (snd r)) rewards wm.

(** The rewards of a run that went to [miner_id]. *)
Definition rewards_of (miner_id : string) (rewards : list (string * Q))
    : list Q :=
  map snd (filter (fun r => fst r = miner_id) rewards).

(** [WalletManager.simulate_wallet_creation] *)
Definition simulate_wallet_creation
    (wm : WalletManager) (wallet_id : string) (initial_balance : Q)
    : WalletManager :=
  match wm_wallets wm !! wallet_id with
  | None =>
      set_wallets wm
        (<[wallet_id := new_wallet wallet_id initial_balance]> (wm_wallets wm))
  | Some _ => wm
  end.

(** [WalletManager.simulate_wallet_destruction] *)
Definition simulate_wallet_destruction
    (wm : WalletManager) (wallet_id : string) : WalletManager :=
  match wm_wallets wm !! wallet_id with
  | Some _ => set_wallets wm (delete wallet_id (wm_wallets wm))
  | None => wm
  end.

(** [WalletManager.transfer_balance].  [from_w] and [to_w] are the objects
    of the dictionary: when both names are the same wallet, the credit
    lands on the wallet that was just debited, hence the second lookup. *)
Definition transfer_balance
    (wm : WalletManager) (from_wallet to_wallet : string) (amount : Q)
    : bool * WalletManager :=
  match wm_wallets wm !! from_wallet, wm_wallets wm !! to_wallet with
  | Some from_w, Some _ =>
      if Qle_bool amount (w_balance from_w) then
        let wallets1 :=
          <[from_wallet := snd (subtract_balance from_w amount 0)]>
            (wm_wallets wm) in
        match wallets1 !! to_wallet with
        | Some to_w =>
            (true,
             set_wallets wm (<[to_wallet := add_balance to_w amount]> wallets1))
        | None => (true, set_wallets wm wallets1)
        end
      else (false, wm)
  | _, _ => (false, wm)
  end.

(** The loop of [_on_block_mined] over the transactions of a block. *)
Definition process_confirmed_transactions
    (wm : WalletManager) (transactions : list Transaction) : WalletManager :=
  fold_left (fun wm tx => fst (process_confirmed_transaction wm tx))
            transactions wm.

(** The amounts of the transactions addressed to [wallet_id]. *)
Definition amounts_to (wallet_id : string) (transactions : list Transaction)
    : list Q :=
  map tx_amount (filter (fun tx => tx_recipient tx = wallet_id) transactions).

(** ** wallet.py: wallets and transactions of a run *)

(** [f"wallet_{i}"] *)
Definition wallet_name (i : Z) : string := "wallet_" +:+ pretty i.

(** The balance [_create_wallets] gives wallet [i]: a draw of
    [random.uniform(10.0, 100.0)] for the first half, nothing for the
    others. *)
Definition initial_balance_of
    (uniform : Z -> Q) (wallet_count i : Z) : Q :=
  if (i <? wallet_count / 2)%Z then uniform i else 0.

(** The body of the loop of [_create_wallets]. *)
Definition create_wallet
    (uniform : Z -> Q) (wm : WalletManager) (i : Z) : WalletManager :=
  let wallet_id := wallet_name i in
  let initial_balance := initial_balance_of uniform (wm_wallet_count wm) i in
  set_wallets wm
    (<[wallet_id := new_wallet wallet_id initial_balance]> (wm_wallets wm)).

(** [WalletManager._create_wallets]; [uniform i] is the draw for wallet
    [i]. *)
Definition _create_wallets (uniform : Z -> Q) (wm : WalletManager)
    : WalletManager :=
  fold_left (create_wallet uniform) (seqZ 0 (wm_wallet_count wm)) wm.

(** [WalletManager.__init__] *)
Definition WalletManager_init
    (uniform : Z -> Q) (wallet_count transaction_count : Z) (interval : Q)
    : WalletManager :=
  _create_wallets uniform
    {| wm_wallet_count := wallet_count;
       wm_transaction_count := transaction_count;
       wm_interval := interval;
       wm_wallets := ∅;
       wm_running := false;
       wm_fee_calculator := FeeCalculator_init;
       wm_network_congestion := 0;
       wm_block_utilization := 1 # 2 |}.

Definition set_wm_running (wm : WalletManager) (running : bool)
    : WalletManager :=
  {| wm_wallet_count := wm_wallet_count wm;
     wm_transaction_count := wm_transaction_count wm;
     wm_interval := wm_interval wm;
     wm_wallets := wm_wallets wm;
     wm_running := running;
     wm_fee_calculator := wm_fee_calculator wm;
     wm_network_congestion := wm_network_congestion wm;
     wm_block_utilization := wm_block_utilization wm |}.

(** The transaction that the loop of [start_transaction_generation]
    builds at index [i]; [now i] is the reading of [time.time()]. *)
Definition generated_transaction
    (now : Z -> Q) (wm : WalletManager) (i : Z) : Transaction :=
  let wallet_idx := (i / wm_transaction_count wm)%Z in
  let wallet_id := wallet_name wallet_idx in
  let recipient_id :=
    wallet_name ((wallet_idx + 1) mod Z.of_nat (size (wm_wallets wm)))%Z in
  {| tx_id := "tx_" +:+ pretty i;
     tx_sender := wallet_id;
     tx_recipient := recipient_id;
     tx_amount := 1;
     tx_fee := 1 # 100;
     tx_timestamp := now i;
     tx_status_of := pending;
     tx_priority := "normal";
     tx_network_congestion := 0 |}.

(** [WalletManager.start_transaction_generation]: the transactions handed
    to the callback, in order, and the manager afterwards.  The callback
    does not stop the generation. *)
Definition start_transaction_generation
    (now : Z -> Q) (wm : WalletManager) : list Transaction * WalletManager :=
  if wm_running wm then ([], wm)
  else
    let wm1 := set_wm_running wm true in
    if (wm_transaction_count wm <=? 0)%Z then ([], wm1)
    else
      let total_transactions :=
        (Z.of_nat (size (wm_wallets wm)) * wm_transaction_count wm)%Z in
      (map (generated_transaction now wm) (seqZ 0 total_transactions), wm1).

(** ** simulator.py: the callbacks *)

(** [BlockchainSimulator._on_transaction_created] *)
Definition _on_transaction_created
    (s : MiningManager * NetworkManager) (transaction : Transaction)
    : MiningManager * NetworkManager :=
  (add_transaction (fst s) transaction,
   broadcast_transaction (snd s) transaction).

(** The transaction part of [BlockchainSimulator.start]: the generation
    with [_on_transaction_created] as callback. *)
Definition generate_all_transactions
    (now : Z -> Q) (wm : WalletManager) (mm : MiningManager)
    (net : NetworkManager)
    : WalletManager * MiningManager * NetworkManager :=
  let '(transactions, wm1) := start_transaction_generation now wm in
  let '(mm1, net1) := fold_left _on_transaction_created transactions (mm, net) in
  (wm1, mm1, net1).

(** ** Network conditions *)

(** [WalletManager.update_network_conditions]: the manager keeps the
    clamped values and hands the ones it was given to its calculator. *)
Definition wm_update_network_conditions
    (wm : WalletManager) (congestion block_utilization : Q) : WalletManager :=
  {| wm_wallet_count := wm_wallet_count wm;
     wm_transaction_count := wm_transaction_count wm;
     wm_interval := wm_interval wm;
     wm_wallets := wm_wallets wm;
     wm_running := wm_running wm;
     wm_fee_calculator :=
       update_network_conditions (wm_fee_calculator wm) congestion
         block_utilization;
     wm_network_congestion := py_max 0 (py_min 1 congestion);
     wm_block_utilization := py_max 0 (py_min 1 block_utilization) |}.

(** [blocks[-10:]] *)
Definition recent_blocks (blocks : list Block) : list Block :=
  skipn (length blocks - 10) blocks.

(** [BlockchainSimulator._update_network_conditions]: the congestion and
    the block utilization it stores on the simulator, and the wallet
    manager it updates with them. *)
Definition _update_network_conditions
    (config : SimulationConfig) (mm : MiningManager) (wm : WalletManager)
    : Q * Q * WalletManager :=
  let pending_tx_count := get_pending_transaction_count mm in
  let max_tx_per_block := cfg_blocksize config in
  let network_congestion :=
    if (0 <? max_tx_per_block)%Z
    then py_min 1 (inject_Z pending_tx_count / inject_Z (max_tx_per_block * 2))
    else 0 in
  let recent := recent_blocks (mm_blocks mm) in
  let block_utilization :=
    match recent with
    | [] => 1 # 2
    | _ :: _ =>
        let avg_tx_count :=
          inject_Z (sum_Z (map b_transaction_count recent))
          / inject_Z (Z.of_nat (length recent)) in
        if (0 <? max_tx_per_block)%Z
        then py_min 1 (avg_tx_count / inject_Z max_tx_per_block)
        else 1 # 2
    end in
  (network_congestion, block_utilization,
   wm_update_network_conditions wm network_congestion block_utilization).

(** [FeeCalculator.get_fee_estimate]: the entries of the dictionary in the
    order of insertion; the keys are what the format
    [f'{congestion*100:.0f}%_congestion'] gives for the five levels. *)
Definition get_fee_estimate
    (fc : FeeCalculator) (amount : Q) (priority : string)
    : list (string * Q) :=
  map (fun kc => (fst kc, calculate_fee fc amount priority (snd kc)))
      [("0%_congestion", 0); ("25%_congestion", 1 # 4);
       ("50%_congestion", 1 # 2); ("75%_congestion", 3 # 4);
       ("100%_congestion", 1)].

(** ** config.py: the configuration of a run *)

(** The command-line arguments read by [SimulationConfig.from_args];
    [--difficulty] and [--blocks] have no default and may be absent. *)
Record Args : Type := mkArgs {
  args_nodes : Z;
  args_neighbors : Z;
  args_miners : Z;
  args_hashrate : Q;
  args_blocktime : Q;
  args_difficulty : option Q;
  args_reward : Q;
  args_halving : Z;
  args_wallets : Z;
  args_transactions : Z;
  args_interval : Q;
  args_blocksize : Z;
  args_blocks : option Z;
  args_years : Q;
  args_print : Z;
  args_debug : bool
}.

(** [int(x)] on a float: truncation towards zero. *)
Definition py_int (x : Q) : Z :=
  if Qle_bool 0 x then Qfloor x else Qceiling x.

(** Truthiness of an [Optional[float]]: [None] and [0.0] are falsy. *)
Definition truthy_float (o : option Q) : bool :=
  match o with
  | None => false
  | Some x => negb (Qeq_bool x 0)
  end.

(** The configuration [cls(...)] builds from the arguments, the
    difficulty and the block target. *)
Definition config_of_args
    (args : Args) (difficulty : Q) (blocks : option Z) : SimulationConfig :=
  {| cfg_nodes := args_nodes args;
     cfg_neighbors := args_neighbors args;
     cfg_miners := args_miners args;
     cfg_hashrate := args_hashrate args;
     cfg_blocktime := args_blocktime args;
     cfg_difficulty := difficulty;
     cfg_reward := args_reward args;
     cfg_halving := Some (args_halving args);
     cfg_wallets := args_wallets args;
     cfg_transactions := args_transactions args;
     cfg_interval := args_interval args;
     cfg_blocksize := args_blocksize args;
     cfg_blocks := blocks;
     cfg_years := args_years args;
     cfg_print_interval := args_print args;
     cfg_debug := args_debug args |}.

(** The block target is derived from the duration: [args.years] is truthy
    and [args.blocks] is not. *)
Definition derives_blocks (args : Args) : bool :=
  negb (Qeq_bool (args_years args) 0) && negb (truthy_int (args_blocks args)).

(** [SimulationConfig.from_args], with Python's float operations.  The
    quotient [seconds_per_year / args.blocktime] raises on a block time of
    zero, [int] raises on an infinite product, and the conversion of
    [args.miners] to a float raises on an integer beyond the floats.  A
    default difficulty beyond the largest float is an infinity in Python
    and has no value here. *)
Definition from_args (args : Args) : outcome SimulationConfig unit :=
  let finish (blocks : option Z) : outcome SimulationConfig unit :=
    if truthy_float (args_difficulty args)
    then Returned
           (config_of_args args (default 0 (args_difficulty args)) blocks) tt
    else if overflows (inject_Z (args_miners args))
    then Raised OverflowError tt
    else Returned
           (config_of_args args
              (float_mul
                 (float_mul (args_blocktime args)
                    (float_of_int (args_miners args)))
                 (args_hashrate args))
              blocks) tt in
  if derives_blocks args
  then
    let seconds_per_year := (365 * 24 * 60 * 60)%Z in
    if Qeq_bool (args_blocktime args) 0 then Raised ZeroDivisionError tt
    else
      let blocks_per_year :=
        float_div (float_of_int seconds_per_year) (args_blocktime args) in
      if overflows (float_of_int seconds_per_year / args_blocktime args)
         || overflows (blocks_per_year * args_years args)
      then Raised OverflowError tt
      else finish (Some (py_int (float_mul blocks_per_year (args_years args))))
  else finish (args_blocks args).

(** The default command line with [--blocktime 1.5 --years 0.7]. *)
Definition example_args : Args :=
  {| args_nodes := 10; args_neighbors := 3; args_miners := 5;
     args_hashrate := 1000; args_blocktime := 3 # 2;
     args_difficulty := None; args_reward := 50; args_halving := 210000;
     args_wallets := 0; args_transactions := 0; args_interval := 1;
     args_blocksize := 4096; args_blocks := None;
     args_years := round64 (7 # 10); args_print := 144;
     args_debug := false |}.

(** ** network.py: partitions *)

(** The two calls of the inner loop body of
    [simulate_network_partition]. *)
Definition disconnect (net : NetworkManager) (p o : nat) : NetworkManager :=
  remove_neighbor (remove_neighbor net p o) o p.

(** The loops of [simulate_network_partition]. *)
Definition cut_links
    (net : NetworkManager) (partition_nodes other_nodes : list nat)
    : NetworkManager :=
  fold_left
    (fun net p => fold_left (fun net o => disconnect net p o) other_nodes net)
    partition_nodes net.

Definition ValueError : string := "ValueError".

(** [NetworkManager.simulate_network_partition]; [draw population n] is
    the list [random.sample(self.nodes, partition_size)], which raises on a
    negative size. *)
Definition simulate_network_partition
    (draw : list nat -> nat -> list nat) (net : NetworkManager)
    (partition_size : Z) : outcome unit NetworkManager :=
  if (Z.of_nat (length (nm_nodes net)) <=? partition_size)%Z
  then Returned tt net
  else if (partition_size <? 0)%Z then Raised ValueError net
  else
    let nodes := seq 0 (length (nm_nodes net)) in
    let partition_nodes := draw nodes (Z.to_nat partition_size) in
    let other_nodes := filter (fun n => n ∉ partition_nodes) nodes in
    Returned tt (cut_links net partition_nodes other_nodes).

(** [NetworkManager.heal_network_partition] *)
Definition heal_network_partition
    (sample : nat -> list nat -> nat -> list nat) (net : NetworkManager)
    : NetworkManager :=
  _connect_nodes sample net.

(** * Theorems *)

(** ** Comparisons and clamping *)

Lemma Qlt_bool_true (x y : Q) : Qlt_bool x y = true <-> x < y.
Proof.
  unfold Qlt_bool. rewrite negb_true_iff.
  destruct (Qle_bool y x) eqn:E.
  - apply Qle_bool_iff in E. split; [discriminate | intros H; lra].
  - split; [intros _ | reflexivity].
    apply Qnot_le_lt. intros H. apply Qle_bool_iff in H. congruence.
Qed.

Lemma Qlt_bool_false (x y : Q) : Qlt_bool x y = false <-> y <= x.
Proof.
  destruct (Qlt_bool x y) eqn:E.
  - apply Qlt_bool_true in E. split; [discriminate | intros H; lra].
  - split; [intros _ | reflexivity].
    apply Qnot_lt_le. intros H. apply Qlt_bool_true in H. congruence.
Qed.

Lemma py_min_spec (a b : Q) :
  (b < a /\ py_min a b = b) \/ (a <= b /\ py_min a b = a).
Proof.
  unfold py_min. destruct (Qlt_bool b a) eqn:E.
  - left. apply Qlt_bool_true in E. auto.
  - right. apply Qlt_bool_false in E. auto.
Qed.

Lemma py_max_spec (a b : Q) :
  (a < b /\ py_max a b = b) \/ (b <= a /\ py_max a b = a).
Proof.
  unfold py_max. destruct (Qlt_bool a b) eqn:E.
  - left. apply Qlt_bool_true in E. auto.
  - right. apply Qlt_bool_false in E. auto.
Qed.

Ltac py_cases :=
  repeat match goal with
         | |- context [py_min ?a ?b] =>
             let H := fresh "Hmin" in
             let E := fresh "Emin" in
             destruct (py_min_spec a b) as [[H E] | [H E]]; rewrite E in *
         | |- context [py_max ?a ?b] =>
             let H := fresh "Hmax" in
             let E := fresh "Emax" in
             destruct (py_max_spec a b) as [[H E] | [H E]]; rewrite E in *
         end.

(** [max(lo, min(hi, x))] and [max(lo, min(x, hi))] land in [[lo, hi]]. *)
Lemma clamp_hi_first (lo hi x : Q) :
  lo <= hi -> lo <= py_max lo (py_min hi x) /\ py_max lo (py_min hi x) <= hi.
Proof. intros H. py_cases; split; lra. Qed.

Lemma clamp_x_first (lo hi x : Q) :
  lo <= hi -> lo <= py_max lo (py_min x hi) /\ py_max lo (py_min x hi) <= hi.
Proof. intros H. py_cases; split; lra. Qed.

Lemma py_clamp_is_clamp (lo hi x : Q) :
  py_max lo (py_min x hi) == clamp x lo hi.
Proof.
  unfold clamp.
  destruct (Q.max_spec lo (Qmin x hi)) as [[H1 E1] | [H1 E1]];
    destruct (Q.min_spec x hi) as [[H2 E2] | [H2 E2]];
    rewrite E1; rewrite ?E2 in *; py_cases; lra.
Qed.

(** ** Python floats *)

Lemma round64_compat (x y : Q) : x == y -> round64 x = round64 y.
Proof.
  intros H. unfold round64. rewrite (Qred_complete x y H). reflexivity.
Qed.

Lemma pow2_positive (k : Z) : 0 < pow2 k.
Proof.
  unfold pow2. destruct (Z.leb_spec 0 k) as [Hk | Hk].
  - change 0 with (inject_Z 0). rewrite <- Zlt_Qlt.
    apply Z.pow_pos_nonneg; lia.
  - reflexivity.
Qed.

Lemma round_half_even_nonneg (num den : Z) :
  (0 <= num)%Z -> (0 < den)%Z -> (0 <= round_half_even num den)%Z.
Proof.
  intros Hn Hd. unfold round_half_even.
  pose proof (Z.div_pos num den Hn Hd) as Hfl.
  destruct (2 * (num mod den) ?= den)%Z; [destruct (Z.even _) | |]; lia.
Qed.

Lemma round64_nonneg (x : Q) : 0 <= x -> 0 <= round64 x.
Proof.
  intros Hx. unfold round64.
  assert (Hr : 0 <= Qred x) by (rewrite Qred_correct; exact Hx).
  destruct (Qred x) as [n d]. cbn [Qnum Qden].
  assert (Hn : (0 <= n)%Z) by (unfold Qle in Hr; cbn in Hr; lia).
  destruct (Z.eqb_spec (Z.abs n) 0) as [_ | Hne]; [apply Qle_refl |].
  assert (Hpos : (0 < n)%Z) by lia.
  rewrite Z.abs_eq by exact Hn. rewrite Z.sgn_pos by exact Hpos.
  rewrite Z.mul_1_l.
  apply Qmult_le_0_compat; [| apply Qlt_le_weak, pow2_positive].
  change 0 with (inject_Z 0). rewrite <- Zle_Qle.
  destruct (0 <=? _)%Z eqn:Hq.
  - apply round_half_even_nonneg; [lia |].
    apply Z.mul_pos_pos; [lia |]. apply Z.pow_pos_nonneg; [lia |].
    apply Z.leb_le. exact Hq.
  - apply round_half_even_nonneg; [| lia].
    apply Z.mul_nonneg_nonneg; [lia |]. apply Z.pow_nonneg. lia.
Qed.

Lemma float_of_int_nonneg (k : Z) : (0 <= k)%Z -> 0 <= float_of_int k.
Proof.
  intros Hk. apply round64_nonneg. change 0 with (inject_Z 0).
  rewrite <- Zle_Qle. exact Hk.
Qed.

(** ** models.py: wallets *)

(** C10.  With Python's float operations, for a wallet with a non-negative
    balance and a non-negative amount and fee: when the balance is at
    least the sum [amount + fee] as the code computes it,
    [subtract_balance] returns [True], deducts that sum from the balance,
    counts one more sent transaction and adds [amount] and [fee] to the
    sent totals (as long as a total stays finite), and leaves the other
    fields alone; when the balance is below the sum, the call returns
    [False] and the wallet is unchanged.  Either way the balance stays
    non-negative.  Where the sum and the difference are finite floats, the
    new balance is the old one less [amount + fee] exactly. *)
Theorem subtract_balance_spec (w : Wallet) (amount fee : Q) :
  0 <= w_balance w -> 0 <= amount -> 0 <= fee ->
  (float_add amount fee <= w_balance w ->
     fst (F64.subtract_balance w amount fee) = true
     /\ w_balance (snd (F64.subtract_balance w amount fee))
        = float_sub (w_balance w) (float_add amount fee)
     /\ w_transactions_sent (snd (F64.subtract_balance w amount fee))
        = (w_transactions_sent w + 1)%N
     /\ (overflows (w_total_sent w + amount) = false ->
         w_total_sent (snd (F64.subtract_balance w amount fee))
         = float_add (w_total_sent w) amount)
     /\ (overflows (w_total_fees w + fee) = false ->
         w_total_fees (snd (F64.subtract_balance w amount fee))
         = float_add (w_total_fees w) fee)
     /\ w_wallet_id (snd (F64.subtract_balance w amount fee)) = w_wallet_id w
     /\ w_transactions_received (snd (F64.subtract_balance w amount fee))
        = w_transactions_received w
     /\ w_total_received (snd (F64.subtract_balance w amount fee))
        = w_total_received w)
  /\ (w_balance w < float_add amount fee ->
      F64.subtract_balance w amount fee = (false, w))
  /\ 0 <= w_balance (snd (F64.subtract_balance w amount fee))
  /\ (representable (amount + fee) ->
      representable (w_balance w - (amount + fee)) ->
      amount + fee <= w_balance w ->
      fst (F64.subtract_balance w amount fee) = true
      /\ w_balance (snd (F64.subtract_balance w amount fee))
         == w_balance w - (amount + fee)).
Proof.
  intros Hb Ha Hf. unfold F64.subtract_balance.
  split; [| split; [| split]].
  - intros H. apply Qle_bool_iff in H. rewrite H. cbn [fst snd].
    cbn [w_balance w_transactions_sent w_total_sent w_total_fees w_wallet_id
         w_transactions_received w_total_received].
    repeat split; reflexivity.
  - intros H. destruct (Qle_bool _ _) eqn:E; [| reflexivity].
    apply Qle_bool_iff in E. lra.
  - destruct (Qle_bool _ _) eqn:E; cbn [snd w_balance]; [| exact Hb].
    apply Qle_bool_iff in E. apply round64_nonneg. lra.
  - intros [Hsum _] [Hdiff _] Hle. unfold float_add in *.
    assert (E : Qle_bool (round64 (amount + fee)) (w_balance w) = true)
      by (apply Qle_bool_iff; rewrite Hsum; exact Hle).
    rewrite E. cbn [fst snd w_balance]. split; [reflexivity |].
    unfold float_sub.
    rewrite (round64_compat (w_balance w - round64 (amount + fee))
               (w_balance w - (amount + fee))) by (rewrite Hsum; reflexivity).
    exact Hdiff.
Qed.

Lemma subtract_balance_spec_witness :
  (0 <= w_balance wallet_with_three_tenths
   /\ 0 <= round64 (1 # 10) /\ 0 <= round64 (2 # 10)
   /\ F64.subtract_balance wallet_with_three_tenths
        (round64 (1 # 10)) (round64 (2 # 10))
      = (false, wallet_with_three_tenths))
  /\ (0 <= w_balance wallet_with_one /\ 0 <= 1 /\ 0 <= pow2 (-53)
      /\ fst (F64.subtract_balance wallet_with_one 1 (pow2 (-53))) = true).
Proof.
  assert (Hb : 0 <= w_balance wallet_with_three_tenths)
    by (vm_compute; discriminate).
  assert (Ha : 0 <= round64 (1 # 10)) by (vm_compute; discriminate).
  assert (Hf : 0 <= round64 (2 # 10)) by (vm_compute; discriminate).
  assert (Hb1 : 0 <= w_balance wallet_with_one) by (vm_compute; discriminate).
  assert (Ha1 : 0 <= 1) by (vm_compute; discriminate).
  assert (Hf1 : 0 <= pow2 (-53)) by (vm_compute; discriminate).
  split.
  - split; [exact Hb | split; [exact Ha | split; [exact Hf |]]].
    apply (proj1 (proj2 (subtract_balance_spec wallet_with_three_tenths
                           (round64 (1 # 10)) (round64 (2 # 10)) Hb Ha Hf))).
    vm_compute. reflexivity.
  - split; [exact Hb1 | split; [exact Ha1 | split; [exact Hf1 |]]].
    apply (proj1 (subtract_balance_spec wallet_with_one 1 (pow2 (-53))
                    Hb1 Ha1 Hf1)).
    vm_compute. discriminate.
Defined.

(** ** wallet.py: confirmation *)

Lemma process_confirmed_transaction_wallets (wm : WalletManager) (tx : Transaction) (w : Wallet) :
  wm_wallets wm !! tx_recipient tx = Some w ->
  wm_wallets (fst (process_confirmed_transaction wm tx)) =
    <[tx_recipient tx := add_balance w (tx_amount tx)]> (wm_wallets wm).
Proof. intros H. unfold process_confirmed_transaction. rewrite H. reflexivity. Qed.




(** ** network.py: storing and broadcasting a block *)

Lemma store_block_held
    (net : NetworkManager) (i : nat) (block : Block) (nd : BlockchainNode) :
  nm_nodes net !! i = Some nd ->
  b_block_id block ∈ n_stored_blocks nd ->
  store_block net i block = (false, net).
Proof.
  intros Hnd Hin. unfold store_block. rewrite Hnd.
  destruct (decide (b_block_id block ∈ n_stored_blocks nd)); [reflexivity | contradiction].
Qed.

Lemma store_block_new
    (net : NetworkManager) (i : nat) (block : Block) (nd : BlockchainNode) :
  nm_nodes net !! i = Some nd ->
  b_block_id block ∉ n_stored_blocks nd ->
  store_block net i block =
    (true,
     {| nm_node_count := nm_node_count net;
        nm_neighbor_count := nm_neighbor_count net;
        nm_network_stats :=
          _broadcast_block (n_neighbors nd) block (nm_network_stats net);
        nm_nodes :=
          <[i := set_stored_blocks nd ({[b_block_id block]} ∪ n_stored_blocks nd)]>
            (nm_nodes net) |}).
Proof.
  intros Hnd Hin. unfold store_block. rewrite Hnd.
  destruct (decide (b_block_id block ∈ n_stored_blocks nd)); [contradiction | reflexivity].
Qed.

Lemma broadcast_block_store
    (net : NetworkManager) (i : nat) (block : Block) (nd : BlockchainNode) :
  nm_nodes net !! i = Some nd ->
  broadcast_block net i block = snd (store_block net i block).
Proof.
  intros Hnd. unfold broadcast_block.
  destruct (nm_nodes net); [discriminate Hnd | reflexivity].
Qed.

(** The counters after the loop of [_broadcast_block]: one update per
    neighbour. *)
Lemma _broadcast_block_counters
    (neighbors : list nat) (block : Block) (st : NetworkStats) :
  let st' := _broadcast_block neighbors block st in
  ns_total_io_requests st' =
    (ns_total_io_requests st + N.of_nat (length neighbors))%N
  /\ ns_total_blocks_propagated st' =
    (ns_total_blocks_propagated st + N.of_nat (length neighbors))%N
  /\ ns_total_network_data st' =
    (ns_total_network_data st + b_size block * Z.of_nat (length neighbors))%Z.
Proof.
  revert st. induction neighbors as [| k rest IH]; intros st.
  - simpl. repeat split; lia.
  - cbn [_broadcast_block length].
    destruct (IH (update_propagation_stats st (b_size block) (1 # 10)))
      as (Hio & Hbp & Hdata).
    cbn zeta in *. rewrite Hio, Hbp, Hdata. simpl.
    repeat split; lia.
Qed.

(** C7.  Storing a block on a node that already holds it returns [False]
    and changes nothing: neither the stored-block set of the node (or of any
    other node) nor the propagation statistics (data volume, I/O count,
    mean propagation time); a broadcast whose origin already holds the
    block is likewise a no-op. *)
Theorem store_block_already_stored
    (net : NetworkManager) (i : nat) (block : Block) (nd : BlockchainNode) :
  nm_nodes net !! i = Some nd ->
  b_block_id block ∈ n_stored_blocks nd ->
  fst (store_block net i block) = false
  /\ snd (store_block net i block) = net
  /\ nm_nodes (snd (store_block net i block)) !! i = Some nd
  /\ nm_network_stats (snd (store_block net i block)) = nm_network_stats net
  /\ broadcast_block net i block = net.
Proof.
  intros Hnd Hin.
  rewrite (broadcast_block_store net i block nd Hnd).
  rewrite (store_block_held net i block nd Hnd Hin). simpl. auto.
Qed.

Lemma node_0_after_broadcast :
  nm_nodes two_node_network_after_broadcast !! 0%nat =
    Some (set_stored_blocks node_0 ({["block_1"]} ∪ ∅)).
Proof.
  unfold two_node_network_after_broadcast.
  rewrite (broadcast_block_store two_node_network 0 _ node_0 eq_refl).
  rewrite (store_block_new two_node_network 0 _ node_0 eq_refl);
    [reflexivity | simpl; set_solver].
Qed.

Lemma store_block_already_stored_witness :
  nm_nodes two_node_network_after_broadcast !! 0%nat =
    Some (set_stored_blocks node_0 ({["block_1"]} ∪ ∅))
  /\ ("block_1" ∈ ({["block_1"]} ∪ ∅ : gset string))
  /\ store_block two_node_network_after_broadcast 0 (example_block 600 1)
     = (false, two_node_network_after_broadcast).
Proof.
  assert (Hin : b_block_id (example_block 600 1)
                ∈ ({["block_1"]} ∪ ∅ : gset string)) by (simpl; set_solver).
  destruct (store_block_already_stored two_node_network_after_broadcast 0
              (example_block 600 1) _ node_0_after_broadcast Hin)
    as (Hret & Hnet & _).
  split; [exact node_0_after_broadcast | split; [exact Hin |]].
  destruct (store_block two_node_network_after_broadcast 0 (example_block 600 1))
    as [r net'].
  simpl in Hret, Hnet. subst. reflexivity.
Defined.

(** C1, as amended.  A broadcast stores the block on the chosen origin when
    the origin does not hold it yet, and updates the shared propagation
    statistics once for each neighbour of the origin; no other node of the
    network is changed: the block is not handed on to the neighbours. *)
Theorem broadcast_block_origin_only
    (net : NetworkManager) (origin : nat) (block : Block) (nd : BlockchainNode) :
  nm_nodes net !! origin = Some nd ->
  b_block_id block ∉ n_stored_blocks nd ->
  let net' := broadcast_block net origin block in
  holds net' origin (b_block_id block)
  /\ nm_nodes net' !! origin =
       Some (set_stored_blocks nd ({[b_block_id block]} ∪ n_stored_blocks nd))
  /\ (forall j, j <> origin -> nm_nodes net' !! j = nm_nodes net !! j)
  /\ nm_network_stats net' =
       _broadcast_block (n_neighbors nd) block (nm_network_stats net)
  /\ ns_total_io_requests (nm_network_stats net') =
       (ns_total_io_requests (nm_network_stats net)
        + N.of_nat (length (n_neighbors nd)))%N
  /\ ns_total_network_data (nm_network_stats net') =
       (ns_total_network_data (nm_network_stats net)
        + b_size block * Z.of_nat (length (n_neighbors nd)))%Z.
Proof.
  intros Hnd Hnew net'. subst net'.
  rewrite (broadcast_block_store net origin block nd Hnd).
  rewrite (store_block_new net origin block nd Hnd Hnew). cbn [snd].
  assert (Hlt : (origin < length (nm_nodes net))%nat)
    by (eapply lookup_lt_Some; eassumption).
  assert (Hget :
    nm_nodes
      {| nm_node_count := nm_node_count net;
         nm_neighbor_count := nm_neighbor_count net;
         nm_network_stats :=
           _broadcast_block (n_neighbors nd) block (nm_network_stats net);
         nm_nodes :=
           <[origin := set_stored_blocks nd
                         ({[b_block_id block]} ∪ n_stored_blocks nd)]>
             (nm_nodes net) |} !! origin
    = Some (set_stored_blocks nd ({[b_block_id block]} ∪ n_stored_blocks nd))).
  { cbn [nm_nodes]. apply list_lookup_insert_eq. exact Hlt. }
  destruct (_broadcast_block_counters (n_neighbors nd) block (nm_network_stats net))
    as (Hio & _ & Hdata).
  repeat split.
  - eexists. split; [exact Hget |]. cbn [set_stored_blocks n_stored_blocks].
    set_solver.
  - exact Hget.
  - intros j Hj. cbn [nm_nodes]. apply list_lookup_insert_ne. congruence.
  - exact Hio.
  - exact Hdata.
Qed.

Lemma broadcast_block_origin_only_witness :
  nm_nodes two_node_network !! 0%nat = Some node_0
  /\ (b_block_id (example_block 600 1) ∉ n_stored_blocks node_0)
  /\ nm_nodes two_node_network_after_broadcast !! 1%nat = Some node_1
  /\ ns_total_io_requests (nm_network_stats two_node_network_after_broadcast)
     = 1%N.
Proof.
  assert (Hnd : nm_nodes two_node_network !! 0%nat = Some node_0) by reflexivity.
  assert (Hnew : b_block_id (example_block 600 1) ∉ n_stored_blocks node_0)
    by (simpl; set_solver).
  destruct (broadcast_block_origin_only two_node_network 0
              (example_block 600 1) node_0 Hnd Hnew)
    as (_ & _ & Hothers & _ & Hio & _).
  split; [exact Hnd | split; [exact Hnew | split]].
  - exact (Hothers 1%nat (fun H => O_S 0 (eq_sym H))).
  - exact Hio.
Defined.

(** C1, as stated, fails: on two mutually linked nodes the block stays on
    the origin, although the other node can be reached from it. *)
Lemma flood_as_specified_fails :
  ~ flood_as_specified two_node_network 0 (example_block 600 1).
Proof.
  intros Hflood.
  assert (Hreach : forall j, (j < length (nm_nodes two_node_network))%nat ->
                             reachable two_node_network 0 j).
  { intros j Hj. simpl in Hj.
    destruct j as [| [| j]]; [constructor | | lia].
    apply (reachable_step two_node_network 0 0 1 node_0);
      [constructor | reflexivity | simpl; auto | simpl; lia]. }
  destruct (Hflood Hreach 1%nat) as (nd & Hnd & Hin); [simpl; lia |].
  assert (Hother : nm_nodes (broadcast_block two_node_network 0 (example_block 600 1))
                     !! 1%nat = Some node_1).
  { rewrite (broadcast_block_store two_node_network 0 _ node_0 eq_refl).
    rewrite (store_block_new two_node_network 0 _ node_0 eq_refl);
      [reflexivity | simpl; set_solver]. }
  rewrite Hother in Hnd. injection Hnd as <-.
  simpl in Hin. set_solver.
Qed.

(** ** mining.py: the transaction pool *)

(** The loop pops the first [n] transactions, in order, and appends them
    to what was collected so far. *)
Lemma pop_transactions_take_drop
    (n : nat) (pool transactions : list Transaction) :
  pop_transactions n pool transactions =
    (transactions ++ take n pool, drop n pool).
Proof.
  revert pool transactions.
  induction n as [| n IH]; intros pool transactions.
  - simpl. rewrite take_0, drop_0, app_nil_r. reflexivity.
  - destruct pool as [| tx rest]; cbn [pop_transactions].
    + rewrite IH. rewrite !take_nil, !drop_nil. reflexivity.
    + rewrite IH. cbn [take drop]. rewrite <- app_assoc. reflexivity.
Qed.

Lemma get_transactions_for_block_take_drop (mm : MiningManager) :
  let n := Z.to_nat (Z.min (cfg_blocksize (mm_config mm))
                           (Z.of_nat (length (mm_transaction_pool mm)))) in
  get_transactions_for_block mm =
    (take n (mm_transaction_pool mm),
     set_transaction_pool mm (drop n (mm_transaction_pool mm))).
Proof.
  intros n. unfold get_transactions_for_block. fold n.
  rewrite pop_transactions_take_drop. reflexivity.
Qed.

(** C6.  The pool is a FIFO queue.  [add_transaction] appends at the tail
    and touches nothing else.  [get_transactions_for_block] returns the
    first [min(blocksize, len(pool))] transactions in insertion order and
    leaves the rest in the pool: at most [blocksize] of them, all of them
    when the pool is shorter, none when the pool is empty.  After
    enqueuing [a] then [b] on an empty pool, dequeuing with a block size of
    one yields [a] and leaves [b]. *)
Theorem transaction_pool_fifo (mm : MiningManager) (a b : Transaction) :
  mm_transaction_pool (add_transaction mm a) = mm_transaction_pool mm ++ [a]
  /\ (let n := Z.to_nat (Z.min (cfg_blocksize (mm_config mm))
                               (Z.of_nat (length (mm_transaction_pool mm)))) in
      fst (get_transactions_for_block mm) = take n (mm_transaction_pool mm)
      /\ mm_transaction_pool (snd (get_transactions_for_block mm))
         = drop n (mm_transaction_pool mm)
      /\ fst (get_transactions_for_block mm)
           ++ mm_transaction_pool (snd (get_transactions_for_block mm))
         = mm_transaction_pool mm)
  /\ ((0 <= cfg_blocksize (mm_config mm))%Z ->
      (Z.of_nat (length (fst (get_transactions_for_block mm)))
       <= cfg_blocksize (mm_config mm))%Z)
  /\ ((Z.of_nat (length (mm_transaction_pool mm)) <= cfg_blocksize (mm_config mm))%Z ->
      get_transactions_for_block mm =
        (mm_transaction_pool mm, set_transaction_pool mm []))
  /\ (mm_transaction_pool mm = [] -> fst (get_transactions_for_block mm) = [])
  /\ (mm_transaction_pool mm = [] -> cfg_blocksize (mm_config mm) = 1%Z ->
      get_transactions_for_block (add_transaction (add_transaction mm a) b) =
        ([a], set_transaction_pool mm [b])).
Proof.
  split; [reflexivity |].
  rewrite get_transactions_for_block_take_drop. cbn [fst snd].
  split; [| split; [| split; [| split]]].
  - cbn zeta. repeat split; try reflexivity.
    cbn [mm_transaction_pool set_transaction_pool]. apply take_drop.
  - intros Hsize. rewrite length_take. lia.
  - intros Hlen.
    replace (Z.to_nat _) with (length (mm_transaction_pool mm)) by lia.
    rewrite firstn_all, drop_all. reflexivity.
  - intros Hempty. rewrite Hempty. apply take_nil.
  - intros Hempty Hsize.
    rewrite get_transactions_for_block_take_drop.
    cbn [add_transaction set_transaction_pool mm_transaction_pool mm_config].
    rewrite Hempty, Hsize. reflexivity.
Qed.

Lemma transaction_pool_fifo_witness :
  mm_transaction_pool queue_engine = []
  /\ cfg_blocksize (mm_config queue_engine) = 1%Z
  /\ get_transactions_for_block
       (add_transaction (add_transaction queue_engine transfer_0_to_1)
          self_transfer)
     = ([transfer_0_to_1], set_transaction_pool queue_engine [self_transfer]).
Proof.
  assert (Hpool : mm_transaction_pool queue_engine = []) by reflexivity.
  assert (Hsize : cfg_blocksize (mm_config queue_engine) = 1%Z) by reflexivity.
  destruct (transaction_pool_fifo queue_engine transfer_0_to_1 self_transfer)
    as (_ & _ & _ & _ & _ & Hfifo).
  split; [exact Hpool | split; [exact Hsize | exact (Hfifo Hpool Hsize)]].
Defined.

(** ** simulator.py: termination *)

Lemma workload_processed_iff (sim : BlockchainSimulator) :
  (0 <? cfg_wallets (sim_config sim))%Z
  && (get_pending_transaction_count (sim_mining_manager sim) =? 0)%Z
  && (0 <? sim_blocks_mined sim)%Z
  && (0 <? cfg_wallets (sim_config sim) * cfg_transactions (sim_config sim))%Z
  = true
  <-> workload_processed sim.
Proof.
  unfold workload_processed, get_pending_transaction_count.
  rewrite !andb_true_iff, !Z.ltb_lt, Z.eqb_eq.
  destruct (mm_transaction_pool (sim_mining_manager sim)) as [| tx pool].
  - simpl. intuition.
  - cbn [length]. split.
    + intros [[[_ H] _] _]. lia.
    + intros (_ & _ & H & _). discriminate H.
Qed.

Lemma target_reached_iff (sim : BlockchainSimulator) :
  truthy_int (cfg_blocks (sim_config sim))
  && (default 0%Z (cfg_blocks (sim_config sim)) <=? sim_blocks_mined sim)%Z
  = true
  <-> target_reached sim.
Proof.
  unfold target_reached, truthy_int.
  destruct (cfg_blocks (sim_config sim)) as [target |]; cbn [default].
  - rewrite andb_true_iff, negb_true_iff, Z.eqb_neq, Z.leb_le. split.
    + intros [Hne Hle]. exists target. auto.
    + intros (t & Ht & Hne & Hle). injection Ht as <-. auto.
  - split; [discriminate |]. intros (t & Ht & _). discriminate Ht.
Qed.

Lemma _should_terminate_iff (sim : BlockchainSimulator) :
  _should_terminate sim = true <-> workload_processed sim \/ target_reached sim.
Proof.
  rewrite <- workload_processed_iff, <- target_reached_iff.
  unfold _should_terminate.
  destruct (_ && _ && _ && _); [intuition |].
  destruct (_ && _); intuition discriminate.
Qed.

(** As long as the check fails, the body returns and the run flag stays
    set, the loop goes on. *)
Lemma _simulation_loop_runs
    (body : BlockchainSimulator -> outcome unit BlockchainSimulator)
    (fuel : nat) (sim : BlockchainSimulator) :
  sim_running sim = true ->
  (forall n, (n < fuel)%nat ->
     _should_terminate (iterations body n sim) = false
     /\ exists sim', body (iterations body n sim) = Returned tt sim'
                     /\ sim_running sim' = true) ->
  _simulation_loop body fuel sim = None.
Proof.
  revert sim. induction fuel as [| fuel IH]; intros sim Hrun Hsteps;
    [reflexivity |].
  cbn [_simulation_loop]. rewrite Hrun. cbn [negb].
  destruct (Hsteps 0%nat) as (Hcheck & sim' & Hbody & Hrun'); [lia |].
  cbn [iterations] in Hcheck, Hbody. rewrite Hcheck, Hbody, Hrun'. cbn [negb].
  apply IH; [exact Hrun' |].
  intros n Hn. specialize (Hsteps (S n)). cbn [iterations] in Hsteps.
  rewrite Hbody in Hsteps. apply Hsteps. lia.
Qed.

Lemma _simulation_loop_exit_terminated
    (body : BlockchainSimulator -> outcome unit BlockchainSimulator)
    (fuel : nat) (sim sim' : BlockchainSimulator) :
  _simulation_loop body fuel sim = Some (exit_terminated, sim') ->
  _should_terminate sim' = true.
Proof.
  revert sim. induction fuel as [| fuel IH]; intros sim; [discriminate |].
  cbn [_simulation_loop].
  destruct (negb (sim_running sim)); [discriminate |].
  destruct (_should_terminate sim) eqn:Hcheck.
  - intros H. injection H as <-. exact Hcheck.
  - destruct (body sim) as [[] sim1 | e sim1]; [| discriminate].
    destruct (negb (sim_running sim1)); [discriminate | apply IH].
Qed.

(** C8.  The termination check is true exactly when (i) a workload is
    configured (wallets and expected transaction count positive), the pool
    is empty and at least one block has been mined, or (ii) a block-count
    target is configured and the number of mined blocks has reached it.
    The loop leaves through its termination [break] only in a state where
    the check holds; when the check never holds, while every iteration
    completes and nothing clears the run flag, the loop is still running
    after any number of iterations. *)
Theorem termination_check
    (body : BlockchainSimulator -> outcome unit BlockchainSimulator)
    (sim : BlockchainSimulator) :
  (_should_terminate sim = true <-> workload_processed sim \/ target_reached sim)
  /\ (forall fuel sim',
        _simulation_loop body fuel sim = Some (exit_terminated, sim') ->
        workload_processed sim' \/ target_reached sim')
  /\ (sim_running sim = true ->
      (forall n, ~ (workload_processed (iterations body n sim)
                    \/ target_reached (iterations body n sim))) ->
      (forall n, exists sim', body (iterations body n sim) = Returned tt sim'
                              /\ sim_running sim' = true) ->
      forall fuel, _simulation_loop body fuel sim = None).
Proof.
  split; [apply _should_terminate_iff | split].
  - intros fuel sim' H. apply _should_terminate_iff.
    eapply _simulation_loop_exit_terminated; eassumption.
  - intros Hrun Hnever Hbody fuel.
    apply _simulation_loop_runs; [exact Hrun |].
    intros n _. split; [| apply Hbody].
    destruct (_should_terminate (iterations body n sim)) eqn:E;
      [| reflexivity].
    exfalso. apply (Hnever n). apply _should_terminate_iff. exact E.
Qed.

Lemma idle_iterations_frame (n : nat) (sim : BlockchainSimulator) :
  sim_config (iterations idle_iteration n sim) = sim_config sim
  /\ sim_running (iterations idle_iteration n sim) = sim_running sim
  /\ sim_blocks_mined (iterations idle_iteration n sim) = sim_blocks_mined sim
  /\ mm_transaction_pool (sim_mining_manager (iterations idle_iteration n sim))
     = mm_transaction_pool (sim_mining_manager sim).
Proof.
  revert sim. induction n as [| n IH]; intros sim; [simpl; auto |].
  cbn [iterations idle_iteration].
  destruct (IH {| sim_config := sim_config sim;
                  sim_mining_manager :=
                    advance_simulation_time (sim_mining_manager sim) 300;
                  sim_running := sim_running sim;
                  sim_blocks_mined := sim_blocks_mined sim;
                  sim_total_coins := sim_total_coins sim |})
    as (Hc & Hr & Hb & Hp).
  rewrite Hc, Hr, Hb, Hp. simpl. auto.
Qed.

Lemma termination_check_witness :
  sim_running unbounded_simulator = true
  /\ (forall n,
        ~ (workload_processed (iterations idle_iteration n unbounded_simulator)
           \/ target_reached (iterations idle_iteration n unbounded_simulator)))
  /\ (forall n, exists sim',
        idle_iteration (iterations idle_iteration n unbounded_simulator)
          = Returned tt sim'
        /\ sim_running sim' = true)
  /\ forall fuel,
       _simulation_loop idle_iteration fuel unbounded_simulator = None.
Proof.
  assert (Hrun : sim_running unbounded_simulator = true) by reflexivity.
  assert (Hnever : forall n,
    ~ (workload_processed (iterations idle_iteration n unbounded_simulator)
       \/ target_reached (iterations idle_iteration n unbounded_simulator))).
  { intros n.
    destruct (idle_iterations_frame n unbounded_simulator) as (Hc & _ & _ & _).
    unfold workload_processed, target_reached. rewrite Hc. simpl.
    intros [(H & _) | (t & H & _)]; [lia | discriminate H]. }
  assert (Hbody : forall n, exists sim',
    idle_iteration (iterations idle_iteration n unbounded_simulator)
      = Returned tt sim'
    /\ sim_running sim' = true).
  { intros n.
    destruct (idle_iterations_frame n unbounded_simulator) as (_ & Hr & _ & _).
    eexists. split; [reflexivity |]. simpl. rewrite Hr. reflexivity. }
  destruct (termination_check idle_iteration unbounded_simulator)
    as (_ & _ & Hloop).
  split; [exact Hrun | split; [exact Hnever | split; [exact Hbody |]]].
  exact (Hloop Hrun Hnever Hbody).
Defined.

(** ** wallet.py: the fee model *)

Lemma priority_multipliers_lookup (priority : string) :
  priority_multipliers !! priority = priorityMultiplier priority.
Proof.
  unfold priority_multipliers, priorityMultiplier.
  destruct (String.eqb_spec priority "low") as [-> | Hlow];
    [reflexivity | rewrite lookup_insert_ne by congruence].
  destruct (String.eqb_spec priority "normal") as [-> | Hnormal];
    [reflexivity | rewrite lookup_insert_ne by congruence].
  destruct (String.eqb_spec priority "high") as [-> | Hhigh];
    [reflexivity | rewrite lookup_insert_ne by congruence].
  destruct (String.eqb_spec priority "urgent") as [-> | Hurgent];
    [reflexivity | rewrite lookup_insert_ne by congruence].
  apply lookup_empty.
Qed.

Lemma fee_calculator_after_constants (updates : list (Q * Q)) :
  fc_base_fee_rate (fee_calculator_after updates) = TRANSACTION_CONFIG_fee_rate
  /\ fc_min_fee (fee_calculator_after updates) = TRANSACTION_CONFIG_min_fee
  /\ fc_max_fee (fee_calculator_after updates) = TRANSACTION_CONFIG_max_fee.
Proof.
  unfold fee_calculator_after.
  assert (H : forall fc,
    fc_base_fee_rate
      (fold_left (fun fc cu => update_network_conditions fc (fst cu) (snd cu))
                 updates fc) = fc_base_fee_rate fc
    /\ fc_min_fee
      (fold_left (fun fc cu => update_network_conditions fc (fst cu) (snd cu))
                 updates fc) = fc_min_fee fc
    /\ fc_max_fee
      (fold_left (fun fc cu => update_network_conditions fc (fst cu) (snd cu))
                 updates fc) = fc_max_fee fc).
  { induction updates as [| cu rest IH]; intros fc; [simpl; auto |].
    cbn [fold_left].
    destruct (IH (update_network_conditions fc (fst cu) (snd cu)))
      as (H1 & H2 & H3).
    rewrite H1, H2, H3. simpl. auto. }
  apply (H FeeCalculator_init).
Qed.

Lemma clamp_compat (x y lo hi : Q) : x == y -> clamp x lo hi == clamp y lo hi.
Proof.
  intros E. unfold clamp.
  destruct (Q.max_spec lo (Qmin x hi)) as [[H1 E1] | [H1 E1]];
    destruct (Q.max_spec lo (Qmin y hi)) as [[H2 E2] | [H2 E2]];
    destruct (Q.min_spec x hi) as [[H3 E3] | [H3 E3]];
    destruct (Q.min_spec y hi) as [[H4 E4] | [H4 E4]];
    rewrite E1, E2; rewrite ?E3, ?E4 in *; lra.
Qed.

(** The clamped fee does not decrease when the multiplier grows from
    [0.5] to [5]: a negative product is lifted to the minimum either way. *)
Lemma clamped_fee_monotone (base congestion_mult utilization_factor lo hi : Q) :
  0 <= lo ->
  py_max lo (py_min (base * (1 # 2) * congestion_mult * utilization_factor) hi)
  <= py_max lo (py_min (base * 5 * congestion_mult * utilization_factor) hi).
Proof.
  intros Hlo.
  assert (El : base * (1 # 2) * congestion_mult * utilization_factor
               == (1 # 2) * (base * congestion_mult * utilization_factor))
    by ring.
  assert (Eu : base * 5 * congestion_mult * utilization_factor
               == 5 * (base * congestion_mult * utilization_factor))
    by ring.
  revert El Eu.
  generalize (base * (1 # 2) * congestion_mult * utilization_factor).
  generalize (base * 5 * congestion_mult * utilization_factor).
  generalize (base * congestion_mult * utilization_factor).
  intros p fu fl El Eu.
  py_cases; lra.
Qed.


(** ** mining.py: validation and submission *)

Lemma truthy_str_false (s : string) : truthy_str s = false <-> s = "".
Proof. destruct s; simpl; split; congruence. Qed.

Lemma existsb_block_id (chain : list Block) (bid : string) :
  existsb (fun b => String.eqb (b_block_id b) bid) chain = true
  <-> In bid (map b_block_id chain).
Proof.
  rewrite existsb_exists, in_map_iff. split.
  - intros (b & Hin & Heq). apply String.eqb_eq in Heq. eauto.
  - intros (b & Heq & Hin). exists b. split; [exact Hin |].
    apply String.eqb_eq. exact Heq.
Qed.

(** Validation fails exactly for the three reasons of the source. *)
Lemma _validate_block_false_iff (mm : MiningManager) (block : Block) :
  _validate_block mm block = false
  <-> (b_block_id block = "" \/ b_hash block = "")
      \/ In (b_block_id block) (map b_block_id (mm_blocks mm))
      \/ (cfg_blocksize (mm_config mm) < b_transaction_count block)%Z.
Proof.
  unfold _validate_block.
  rewrite <- !truthy_str_false, <- existsb_block_id, <- Z.ltb_lt.
  destruct (truthy_str (b_block_id block)), (truthy_str (b_hash block)),
    (existsb _ (mm_blocks mm)), (_ <? _)%Z; simpl; intuition congruence.
Qed.

Lemma record_miner_stats_frame
    (mm : MiningManager) (block : Block) (miner_id : string) :
  let mm' := record_miner_stats mm block miner_id in
  mm_config mm' = mm_config mm
  /\ mm_blocks mm' = mm_blocks mm
  /\ mm_current_difficulty mm' = mm_current_difficulty mm
  /\ mm_block_reward mm' = mm_block_reward mm
  /\ mm_halving_blocks mm' = mm_halving_blocks mm
  /\ mm_last_block_time mm' = mm_last_block_time mm
  /\ mm_last_block_hash mm' = mm_last_block_hash mm.
Proof.
  unfold record_miner_stats.
  destruct (_get_miner_by_id (mm_miners mm) miner_id); simpl; auto 10.
Qed.

Lemma _adjust_difficulty_frame (mm : MiningManager) :
  let mm' := state_after (_adjust_difficulty mm) in
  mm_config mm' = mm_config mm
  /\ mm_blocks mm' = mm_blocks mm
  /\ mm_block_reward mm' = mm_block_reward mm
  /\ mm_halving_blocks mm' = mm_halving_blocks mm
  /\ mm_last_block_time mm' = mm_last_block_time mm
  /\ mm_last_block_hash mm' = mm_last_block_hash mm.
Proof.
  unfold _adjust_difficulty.
  destruct (_ <? _)%Z; [simpl; auto 10 |].
  destruct (Qeq_bool _ 0); simpl; auto 10.
Qed.

(** A rejected block: [False], and the engine is untouched. *)
Lemma submit_block_rejected
    (mm : MiningManager) (block : Block) (miner_id : string) :
  _validate_block mm block = false ->
  submit_block mm block miner_id = Returned false mm.
Proof. intros H. unfold submit_block. rewrite H. reflexivity. Qed.

Lemma _adjust_difficulty_raises (mm s : MiningManager) (e : string) :
  _adjust_difficulty mm = Raised e s -> e = ZeroDivisionError /\ s = mm.
Proof.
  unfold _adjust_difficulty.
  destruct (_ <? _)%Z; [discriminate |].
  destruct (Qeq_bool _ 0); [| discriminate].
  intros H. injection H as <- <-. auto.
Qed.

(** An accepted block is appended exactly once and becomes the chain tip,
    whether the call then returns [True] or raises in the adjustment. *)
Lemma submit_block_accepted
    (mm : MiningManager) (block : Block) (miner_id : string) :
  _validate_block mm block = true ->
  let mm' := state_after (submit_block mm block miner_id) in
  mm_blocks mm' = mm_blocks mm ++ [block]
  /\ mm_last_block_time mm' = b_timestamp block
  /\ mm_last_block_hash mm' = b_hash block
  /\ mm_config mm' = mm_config mm
  /\ mm_halving_blocks mm' = mm_halving_blocks mm
  /\ (submit_block mm block miner_id = Returned true mm'
      \/ submit_block mm block miner_id = Raised ZeroDivisionError mm').
Proof.
  intros Hvalid. unfold submit_block. rewrite Hvalid. cbn [negb].
  set (mm2 := record_miner_stats (set_chain_tip mm block) block miner_id).
  destruct (record_miner_stats_frame (set_chain_tip mm block) block miner_id)
    as (Hc & Hb & _ & _ & Hh & Ht & Hs).
  fold mm2 in Hc, Hb, Hh, Ht, Hs. cbn [set_chain_tip mm_config mm_blocks
    mm_halving_blocks mm_last_block_time mm_last_block_hash] in Hc, Hb, Hh, Ht, Hs.
  destruct (_adjust_difficulty_frame mm2) as (Hc' & Hb' & _ & Hh' & Ht' & Hs').
  cbn zeta in Hc', Hb', Hh', Ht', Hs'.
  pose proof (_adjust_difficulty_raises mm2) as Hraise.
  destruct ((_ mod DIFFICULTY_ADJUSTMENT_BLOCKS =? 0)%Z && _).
  - destruct (_adjust_difficulty mm2) as [[] mm3 | e mm3];
      cbn [state_after] in Hc', Hb', Hh', Ht', Hs'.
    + destruct (_ && _ && _); cbn [state_after _halve_reward set_block_reward
        mm_blocks mm_last_block_time mm_last_block_hash mm_config
        mm_halving_blocks]; rewrite Hc', Hb', Hh', Ht', Hs'; auto 10.
    + destruct (Hraise mm3 e eq_refl) as [-> _]. cbn [state_after].
      rewrite Hc', Hb', Hh', Ht', Hs'. auto 10.
  - destruct (_ && _ && _); cbn [state_after _halve_reward set_block_reward
      mm_blocks mm_last_block_time mm_last_block_hash mm_config
      mm_halving_blocks]; auto 10.
Qed.

(** The call returns [False] exactly when validation fails, and then the
    engine is the one it was. *)
Lemma submit_block_false_iff
    (mm mm' : MiningManager) (block : Block) (miner_id : string) :
  submit_block mm block miner_id = Returned false mm'
  <-> _validate_block mm block = false /\ mm' = mm.
Proof.
  split.
  - destruct (_validate_block mm block) eqn:Hvalid.
    + destruct (submit_block_accepted mm block miner_id Hvalid)
        as (_ & _ & _ & _ & _ & [H | H]); rewrite H; discriminate.
    + rewrite (submit_block_rejected mm block miner_id Hvalid).
      intros H. injection H as <-. auto.
  - intros [Hvalid ->]. apply submit_block_rejected. exact Hvalid.
Qed.

(** What a call that returns [True] did. *)
Lemma submit_block_returned_true
    (mm mm' : MiningManager) (block : Block) (miner_id : string) :
  submit_block mm block miner_id = Returned true mm' ->
  let mm2 := record_miner_stats (set_chain_tip mm block) block miner_id in
  let len := Z.of_nat (length (mm_blocks mm ++ [block])) in
  _validate_block mm block = true
  /\ exists mm3,
      (if (len mod DIFFICULTY_ADJUSTMENT_BLOCKS =? 0)%Z && (0 <? len)%Z
       then _adjust_difficulty mm2 else Returned tt mm2) = Returned tt mm3
      /\ mm' = (if truthy_int (mm_halving_blocks mm3)
                   && (len mod default 0%Z (mm_halving_blocks mm3) =? 0)%Z
                   && (0 <? len)%Z
                then _halve_reward mm3 else mm3).
Proof.
  intros H mm2 len.
  destruct (_validate_block mm block) eqn:Hvalid;
    [| rewrite (submit_block_rejected mm block miner_id Hvalid) in H;
       discriminate H].
  split; [reflexivity |].
  unfold submit_block in H. rewrite Hvalid in H. cbn [negb] in H.
  fold mm2 in H.
  destruct (record_miner_stats_frame (set_chain_tip mm block) block miner_id)
    as (_ & Hb & _).
  fold mm2 in Hb. cbn [set_chain_tip mm_blocks] in Hb. rewrite Hb in H.
  fold len in H.
  destruct (if (len mod DIFFICULTY_ADJUSTMENT_BLOCKS =? 0)%Z && (0 <? len)%Z
            then _adjust_difficulty mm2 else Returned tt mm2)
    as [[] mm3 | e mm3]; [| discriminate H].
  exists mm3. split; [reflexivity |]. injection H as <-. reflexivity.
Qed.

(** ** mining.py: difficulty adjustment *)

Lemma clamped_step_ratio (lo hi d c : Q) :
  0 <= lo -> lo <= d -> d <= hi -> 67 # 100 <= c -> c <= 3 # 2 ->
  (67 # 100) * d <= py_max lo (py_min hi (d * c))
  /\ py_max lo (py_min hi (d * c)) <= (3 # 2) * d.
Proof.
  intros Hlo Hd1 Hd2 Hc1 Hc2.
  assert (H1 : (67 # 100) * d <= d * c).
  { assert (H : 0 <= d * (c - (67 # 100))) by (apply Qmult_le_0_compat; lra).
    assert (E : d * (c - (67 # 100)) == d * c - (67 # 100) * d) by ring.
    lra. }
  assert (H2 : d * c <= (3 # 2) * d).
  { assert (H : 0 <= d * ((3 # 2) - c)) by (apply Qmult_le_0_compat; lra).
    assert (E : d * ((3 # 2) - c) == (3 # 2) * d - d * c) by ring.
    lra. }
  revert H1 H2. generalize (d * c). intros x H1 H2.
  py_cases; split; lra.
Qed.

(** The length test of [_adjust_difficulty] never fires from
    [submit_block]. *)
Lemma adjustment_due_length (len : Z) :
  ((len mod DIFFICULTY_ADJUSTMENT_BLOCKS =? 0)%Z && (0 <? len)%Z) = true ->
  (len <? DIFFICULTY_ADJUSTMENT_BLOCKS)%Z = false.
Proof.
  rewrite andb_true_iff, Z.eqb_eq, Z.ltb_lt, Z.ltb_ge.
  unfold DIFFICULTY_ADJUSTMENT_BLOCKS. intros [Hmod Hpos].
  destruct (Z_lt_le_dec len 2016) as [Hlt | Hge]; [| exact Hge].
  rewrite Z.mod_small in Hmod by lia. lia.
Qed.

(** An adjustment that completes: the new difficulty is the old one times
    a factor in [[0.67, 1.5]], clamped to [[0.1, 5]] times the baseline. *)
Lemma _adjust_difficulty_returned (mm mm' : MiningManager) :
  (Z.of_nat (length (mm_blocks mm)) <? DIFFICULTY_ADJUSTMENT_BLOCKS)%Z = false ->
  _adjust_difficulty mm = Returned tt mm' ->
  exists change,
    67 # 100 <= change /\ change <= 3 # 2
    /\ mm' = set_current_difficulty mm
               (py_max (base_difficulty (mm_config mm) * (1 # 10))
                  (py_min (base_difficulty (mm_config mm) * 5)
                     (mm_current_difficulty mm * change))).
Proof.
  intros Hlen. unfold _adjust_difficulty. rewrite Hlen.
  destruct (Qeq_bool _ 0); [discriminate |].
  intros H. injection H as <-.
  eexists. split; [| split; [| reflexivity]];
    apply clamp_hi_first; unfold Qle; simpl; lia.
Qed.

(** Whatever the outcome of a submission, a difficulty within the bounds
    stays within them, and the configuration is kept. *)
Lemma difficulty_bounds_preserved
    (mm : MiningManager) (block : Block) (miner_id : string) :
  0 <= base_difficulty (mm_config mm) ->
  difficulty_within_bounds (mm_config mm) (mm_current_difficulty mm) ->
  mm_config (state_after (submit_block mm block miner_id)) = mm_config mm
  /\ difficulty_within_bounds (mm_config mm)
       (mm_current_difficulty (state_after (submit_block mm block miner_id))).
Proof.
  intros Hbase Hin.
  destruct (_validate_block mm block) eqn:Hvalid;
    [| rewrite (submit_block_rejected mm block miner_id Hvalid); auto].
  destruct (submit_block_accepted mm block miner_id Hvalid)
    as (_ & _ & _ & Hconfig & _).
  split; [exact Hconfig |]. clear Hconfig.
  unfold submit_block. rewrite Hvalid. cbn [negb].
  destruct (record_miner_stats_frame (set_chain_tip mm block) block miner_id)
    as (Hc2 & _ & Hd2 & _).
  set (mm2 := record_miner_stats (set_chain_tip mm block) block miner_id) in *.
  cbn [set_chain_tip mm_config mm_current_difficulty] in Hc2, Hd2.
  assert (Hhalve : forall (c : bool) (s : MiningManager),
    mm_current_difficulty (if c then _halve_reward s else s)
    = mm_current_difficulty s) by (intros [] ?; reflexivity).
  destruct ((_ mod DIFFICULTY_ADJUSTMENT_BLOCKS =? 0)%Z && _) eqn:Hdue.
  - pose proof (adjustment_due_length _ Hdue) as Hlen.
    destruct (_adjust_difficulty mm2) as [[] mm3 | e mm3] eqn:Hadj.
    + destruct (_adjust_difficulty_returned mm2 mm3 Hlen Hadj)
        as (change & _ & _ & ->).
      cbn [state_after]. rewrite Hhalve.
      cbn [set_current_difficulty mm_current_difficulty]. rewrite Hc2.
      apply clamp_hi_first. lra.
    + apply _adjust_difficulty_raises in Hadj as [_ ->].
      cbn [state_after]. rewrite Hd2. exact Hin.
  - cbn [state_after]. rewrite Hhalve, Hd2. exact Hin.
Qed.

(** The bounds are an invariant of every run of submissions. *)
Lemma submit_all_within_bounds
    (blocks : list Block) (mm : MiningManager) (miner_id : string) :
  0 <= base_difficulty (mm_config mm) ->
  difficulty_within_bounds (mm_config mm) (mm_current_difficulty mm) ->
  mm_config (submit_all mm blocks miner_id) = mm_config mm
  /\ difficulty_within_bounds (mm_config mm)
       (mm_current_difficulty (submit_all mm blocks miner_id)).
Proof.
  revert mm. induction blocks as [| block rest IH]; intros mm Hbase Hin;
    [simpl; auto |].
  cbn [submit_all fold_left].
  destruct (difficulty_bounds_preserved mm block miner_id Hbase Hin)
    as [Hconfig Hin'].
  fold (submit_all (state_after (submit_block mm block miner_id)) rest miner_id).
  rewrite <- Hconfig in Hbase, Hin'.
  destruct (IH _ Hbase Hin') as [Hc Hd].
  rewrite Hconfig in Hc, Hd. auto.
Qed.


Lemma returned_true_state (o : outcome bool MiningManager) :
  returned_true o = true -> o = Returned true (state_after o).
Proof.
  destruct o as [[|] s | e s]; try discriminate. reflexivity.
Qed.

Lemma steady_engine_returns :
  returned_true
    (submit_block steady_engine (example_block 600 2016) "miner_0") = true.
Proof. vm_compute. reflexivity. Qed.

Lemma steady_engine_submission :
  submit_block steady_engine (example_block 600 2016) "miner_0"
  = Returned true steady_engine_adjusted.
Proof. exact (returned_true_state _ steady_engine_returns). Qed.

Lemma steady_engine_baseline :
  0 <= base_difficulty (mm_config steady_engine).
Proof. vm_compute. discriminate. Qed.

Lemma steady_engine_length :
  (Z.of_nat (length (mm_blocks steady_engine_adjusted))
   mod DIFFICULTY_ADJUSTMENT_BLOCKS = 0)%Z.
Proof. vm_compute. reflexivity. Qed.

Lemma steady_engine_within_bounds :
  difficulty_within_bounds (mm_config steady_engine)
    (mm_current_difficulty steady_engine).
Proof. split; vm_compute; discriminate. Qed.


(** The engine of the counterexample is reached from a fresh engine by
    2015 submissions. *)
Lemma overshoot_engine_reached :
  engine_after 60000 None 600 2015 = overshoot_engine.
Proof. vm_compute. reflexivity. Qed.

Lemma overshoot_engine_returns :
  returned_true
    (submit_block overshoot_engine (example_block 600 2016) "miner_0") = true.
Proof. vm_compute. reflexivity. Qed.

(** The run is a real one: the 2016th submission returns [True]. *)
Lemma overshoot_engine_submission :
  submit_block overshoot_engine (example_block 600 2016) "miner_0"
  = Returned true overshoot_engine_adjusted.
Proof. exact (returned_true_state _ overshoot_engine_returns). Qed.

Lemma overshoot_engine_difficulty :
  length (mm_blocks overshoot_engine_adjusted) = 2016%nat
  /\ mm_current_difficulty overshoot_engine = 60000
  /\ mm_current_difficulty overshoot_engine_adjusted = 3000.
Proof. vm_compute. repeat split. Qed.

Lemma overshoot_engine_length :
  (Z.of_nat (length (mm_blocks overshoot_engine_adjusted))
   mod DIFFICULTY_ADJUSTMENT_BLOCKS = 0)%Z.
Proof. vm_compute. reflexivity. Qed.


(** ** mining.py: the reward schedule *)

(** A submission that returns [True] halves the reward exactly when a
    non-zero halving interval divides the new chain length. *)
Lemma submit_block_reward
    (mm mm' : MiningManager) (block : Block) (miner_id : string) :
  submit_block mm block miner_id = Returned true mm' ->
  let len := Z.of_nat (length (mm_blocks mm')) in
  mm_block_reward mm' =
    if truthy_int (mm_halving_blocks mm)
       && (len mod default 0%Z (mm_halving_blocks mm) =? 0)%Z
       && (0 <? len)%Z
    then mm_block_reward mm / 2
    else mm_block_reward mm.
Proof.
  intros Hsubmit len.
  destruct (submit_block_returned_true mm mm' block miner_id Hsubmit)
    as (Hvalid & mm3 & Hadj & Hmm').
  pose proof (submit_block_accepted mm block miner_id Hvalid) as Hacc.
  rewrite Hsubmit in Hacc. cbn [state_after] in Hacc.
  destruct Hacc as (Hblocks & _).
  destruct (record_miner_stats_frame (set_chain_tip mm block) block miner_id)
    as (_ & _ & _ & Hr2 & Hh2 & _).
  set (mm2 := record_miner_stats (set_chain_tip mm block) block miner_id) in *.
  cbn [set_chain_tip mm_block_reward mm_halving_blocks] in Hr2, Hh2.
  assert (Hframe : mm_block_reward mm3 = mm_block_reward mm
                   /\ mm_halving_blocks mm3 = mm_halving_blocks mm).
  { destruct (_adjust_difficulty_frame mm2) as (_ & _ & Hr3 & Hh3 & _).
    cbn zeta in Hr3, Hh3.
    destruct (_ && _) in Hadj.
    - rewrite Hadj in Hr3, Hh3. cbn [state_after] in Hr3, Hh3.
      rewrite Hr3, Hh3. auto.
    - injection Hadj as <-. auto. }
  destruct Hframe as [Hr3 Hh3].
  subst len. rewrite Hblocks. rewrite Hmm', Hh3. clear Hmm'.
  destruct (_ && _ && _); cbn [_halve_reward set_block_reward mm_block_reward];
    rewrite Hr3; reflexivity.
Qed.

(** Without a halving interval no submission changes the reward, whatever
    its outcome. *)
Lemma submit_block_static_reward
    (mm : MiningManager) (block : Block) (miner_id : string) :
  truthy_int (mm_halving_blocks mm) = false ->
  mm_block_reward (state_after (submit_block mm block miner_id))
  = mm_block_reward mm.
Proof.
  intros Hstatic.
  destruct (submit_block mm block miner_id) as [[|] mm' | e mm'] eqn:Hsubmit;
    cbn [state_after].
  - rewrite (submit_block_reward mm mm' block miner_id Hsubmit), Hstatic.
    reflexivity.
  - apply submit_block_false_iff in Hsubmit as [_ ->]. reflexivity.
  - unfold submit_block in Hsubmit.
    destruct (negb (_validate_block mm block)); [discriminate |].
    destruct (record_miner_stats_frame (set_chain_tip mm block) block miner_id)
      as (_ & _ & _ & Hr2 & _).
    set (mm2 := record_miner_stats (set_chain_tip mm block) block miner_id) in *.
    cbn [set_chain_tip mm_block_reward] in Hr2.
    destruct (_ && _) in Hsubmit.
    + destruct (_adjust_difficulty mm2) as [[] mm3 | e3 mm3] eqn:Hadj;
        [discriminate |].
      injection Hsubmit as <- <-.
      apply _adjust_difficulty_raises in Hadj as [_ ->]. exact Hr2.
    + discriminate.
Qed.

(** * The rest of the engine: properties *)

(** ** mining.py: invariants of the chain *)

Lemma submit_block_chain
    (mm : MiningManager) (block : Block) (miner_id : string) :
  (_validate_block mm block = false
   /\ state_after (submit_block mm block miner_id) = mm)
  \/ (_validate_block mm block = true
      /\ mm_blocks (state_after (submit_block mm block miner_id))
         = mm_blocks mm ++ [block]
      /\ mm_last_block_time (state_after (submit_block mm block miner_id))
         = b_timestamp block
      /\ mm_last_block_hash (state_after (submit_block mm block miner_id))
         = b_hash block
      /\ mm_config (state_after (submit_block mm block miner_id)) = mm_config mm
      /\ mm_halving_blocks (state_after (submit_block mm block miner_id))
         = mm_halving_blocks mm).
Proof.
  destruct (_validate_block mm block) eqn:Hvalid.
  - right. split; [reflexivity |].
    destruct (submit_block_accepted mm block miner_id Hvalid)
      as (H1 & H2 & H3 & H4 & H5 & _). auto.
  - left. rewrite (submit_block_rejected mm block miner_id Hvalid). auto.
Qed.

Lemma _validate_block_true (mm : MiningManager) (block : Block) :
  _validate_block mm block = true ->
  b_block_id block <> "" /\ b_hash block <> ""
  /\ ~ In (b_block_id block) (map b_block_id (mm_blocks mm))
  /\ (b_transaction_count block <= cfg_blocksize (mm_config mm))%Z.
Proof.
  intros Hvalid.
  assert (H : ~ (_validate_block mm block = false)) by congruence.
  rewrite _validate_block_false_iff in H.
  repeat split; try (intros E; apply H; auto; fail).
  destruct (Z_le_gt_dec (b_transaction_count block) (cfg_blocksize (mm_config mm)));
    [assumption | exfalso; apply H; right; right; lia].
Qed.

Lemma submit_block_chain_valid
    (mm : MiningManager) (block : Block) (miner_id : string) :
  chain_valid mm -> chain_valid (state_after (submit_block mm block miner_id)).
Proof.
  intros [Hnodup Hall].
  destruct (submit_block_chain mm block miner_id)
    as [[_ ->] | (Hvalid & Hblocks & _ & _ & Hconfig & _)]; [split; assumption |].
  destruct (_validate_block_true mm block Hvalid) as (Hid & Hhash & Hfresh & Hcount).
  unfold chain_valid. rewrite Hblocks, Hconfig, map_app. split.
  - apply NoDup_app. split; [exact Hnodup | split].
    + intros x Hx Hx'. apply list_elem_of_singleton in Hx'. subst x.
      apply Hfresh. apply list_elem_of_In. exact Hx.
    + apply NoDup_singleton.
  - apply Forall_app. split; [exact Hall |].
    apply Forall_singleton. auto.
Qed.

Lemma submit_sequence_config
    (submissions : list (Block * string)) (mm : MiningManager) :
  mm_config (submit_sequence mm submissions) = mm_config mm
  /\ mm_halving_blocks (submit_sequence mm submissions) = mm_halving_blocks mm.
Proof.
  revert mm. induction submissions as [| [b m] rest IH]; intros mm; [auto |].
  cbn [submit_sequence fold_left fst snd].
  fold (submit_sequence (state_after (submit_block mm b m)) rest).
  destruct (IH (state_after (submit_block mm b m))) as [Hc Hh].
  rewrite Hc, Hh.
  destruct (submit_block_chain mm b m)
    as [[_ ->] | (_ & _ & _ & _ & Hconfig & Hhalving)]; auto.
Qed.

(** X1.  In every state the engine reaches from its initial state, whatever
    blocks are submitted and whatever the outcomes, the block ids of the
    chain are pairwise distinct and every block of the chain has a
    non-empty id, a non-empty hash and at most [blocksize] transactions. *)
Theorem chain_always_valid
    (config : SimulationConfig) (mining_stats : MiningStats)
    (variance : nat -> Q) (submissions : list (Block * string)) :
  let mm := submit_sequence (MiningManager_init config mining_stats variance)
              submissions in
  NoDup (map b_block_id (mm_blocks mm))
  /\ Forall (fun b =>
       b_block_id b <> "" /\ b_hash b <> ""
       /\ (b_transaction_count b <= cfg_blocksize config)%Z)
     (mm_blocks mm).
Proof.
  intros mm.
  assert (H : forall subs s, chain_valid s -> chain_valid (submit_sequence s subs)).
  { induction subs as [| [b m] rest IH]; intros s Hs; [exact Hs |].
    cbn [submit_sequence fold_left fst snd]. apply IH.
    apply submit_block_chain_valid. exact Hs. }
  destruct (H submissions (MiningManager_init config mining_stats variance))
    as [Hnodup Hall].
  { split; [apply NoDup_nil_2 | apply Forall_nil_2]. }
  fold mm in Hnodup, Hall. split; [exact Hnodup |].
  destruct (submit_sequence_config submissions
              (MiningManager_init config mining_stats variance)) as [Hc _].
  fold mm in Hc. rewrite Hc in Hall. exact Hall.
Qed.

(** X2.  The chain is append-only, and it is extended by exactly the
    blocks that pass validation at their turn: after a run of submissions
    the chain is the former chain followed by the accepted blocks in the
    order of their submission, nothing is removed or reordered, and a
    submitted block is left out exactly when its call returned [False]. *)
Theorem chain_append_only
    (mm : MiningManager) (submissions : list (Block * string)) :
  mm_blocks (submit_sequence mm submissions)
    = mm_blocks mm ++ accepted_blocks mm submissions
  /\ accepted_blocks mm submissions `sublist_of` map fst submissions
  /\ (forall block miner_id,
        (accepted_blocks mm [(block, miner_id)] = []
         <-> submit_block mm block miner_id = Returned false mm)
        /\ (accepted_blocks mm [(block, miner_id)] = [block]
            <-> _validate_block mm block = true)).
Proof.
  split; [| split].
  - revert mm. induction submissions as [| [b m] rest IH]; intros mm.
    + cbn. rewrite app_nil_r. reflexivity.
    + unfold submit_sequence in *. cbn [fold_left accepted_blocks fst snd].
      rewrite IH.
      destruct (submit_block_chain mm b m) as [[Hv ->] | (Hv & Hb & _)];
        rewrite Hv.
      * reflexivity.
      * rewrite Hb, <- app_assoc. reflexivity.
  - revert mm. induction submissions as [| [b m] rest IH]; intros mm.
    + cbn. constructor.
    + cbn [accepted_blocks map fst snd].
      destruct (_validate_block mm b).
      * cbn [app]. apply sublist_skip. apply IH.
      * cbn [app]. apply sublist_cons. apply IH.
  - intros block miner_id. cbn [accepted_blocks fst snd]. rewrite app_nil_r.
    destruct (_validate_block mm block) eqn:Hv.
    + split; split; try discriminate; try reflexivity.
      intros H. apply submit_block_false_iff in H.
      destruct H as [H _]. congruence.
    + split; split; try discriminate; try reflexivity.
      intros _. apply submit_block_rejected. exact Hv.
Qed.

Lemma submit_block_tip
    (mm : MiningManager) (block : Block) (miner_id : string) :
  tip_consistent mm -> tip_consistent (state_after (submit_block mm block miner_id)).
Proof.
  intros Htip.
  destruct (submit_block_chain mm block miner_id)
    as [[_ ->] | (_ & Hblocks & Htime & Hhash & _)]; [exact Htip |].
  unfold tip_consistent. rewrite Hblocks, last_snoc. auto.
Qed.

(** X3.  In every state reached from the initial one, the recorded chain
    tip is the hash and timestamp of the last block of the chain, and the
    genesis marker with time zero while the chain is empty. *)
Theorem chain_tip_tracks_last_block
    (config : SimulationConfig) (mining_stats : MiningStats)
    (variance : nat -> Q) (submissions : list (Block * string)) :
  tip_consistent
    (submit_sequence (MiningManager_init config mining_stats variance)
       submissions).
Proof.
  assert (H : forall subs s, tip_consistent s -> tip_consistent (submit_sequence s subs)).
  { induction subs as [| [b m] rest IH]; intros s Hs; [exact Hs |].
    cbn [submit_sequence fold_left fst snd]. apply IH.
    apply submit_block_tip. exact Hs. }
  apply H. unfold tip_consistent. simpl. auto.
Qed.

(** ** mining.py: the reward over a whole run *)

Lemma div_succ_multiple (n h : Z) :
  (0 <= n)%Z -> (0 < h)%Z -> ((n + 1) mod h = 0)%Z ->
  ((n + 1) / h = n / h + 1)%Z.
Proof. intros Hn Hh Hmod. Z.div_mod_to_equations. nia. Qed.

Lemma div_succ_not_multiple (n h : Z) :
  (0 <= n)%Z -> (0 < h)%Z -> ((n + 1) mod h <> 0)%Z ->
  ((n + 1) / h = n / h)%Z.
Proof. intros Hn Hh Hmod. Z.div_mod_to_equations. nia. Qed.

Lemma half_power_succ (k : Z) :
  (0 <= k)%Z -> (1 # 2) ^ (k + 1) == (1 # 2) ^ k * (1 # 2).
Proof.
  intros Hk. rewrite Qpower_plus by (intros H; discriminate H). reflexivity.
Qed.

Lemma submit_block_reward_step
    (mm : MiningManager) (block : Block) (miner_id : string) (h : Z) (r0 : Q) :
  mm_halving_blocks mm = Some h -> (0 < h)%Z ->
  raised (submit_block mm block miner_id) = false ->
  mm_block_reward mm
    == r0 * (1 # 2) ^ (Z.of_nat (length (mm_blocks mm)) / h) ->
  mm_block_reward (state_after (submit_block mm block miner_id))
    == r0 * (1 # 2)
            ^ (Z.of_nat (length (mm_blocks
                 (state_after (submit_block mm block miner_id)))) / h).
Proof.
  intros Hh Hpos Hraised Hinv.
  destruct (submit_block mm block miner_id) as [[|] mm' | e mm'] eqn:Hsubmit;
    [| | discriminate Hraised]; cbn [state_after].
  - pose proof (submit_block_reward mm mm' block miner_id Hsubmit) as Hr.
    cbv zeta in Hr.
    destruct (submit_block_returned_true mm mm' block miner_id Hsubmit)
      as (Hvalid & _).
    pose proof (submit_block_accepted mm block miner_id Hvalid) as Hacc.
    rewrite Hsubmit in Hacc. cbn [state_after] in Hacc.
    destruct Hacc as (Hblocks & _).
    rewrite Hr, Hh, Hblocks, length_app. cbn [length truthy_int default].
    replace (Z.of_nat (length (mm_blocks mm) + 1))
      with (Z.of_nat (length (mm_blocks mm)) + 1)%Z by lia.
    set (n := Z.of_nat (length (mm_blocks mm))) in *.
    assert (Hn : (0 <= n)%Z) by lia.
    assert (Hdiv : (0 <= n / h)%Z) by (apply Z.div_pos; lia).
    replace (h =? 0)%Z with false by (symmetry; apply Z.eqb_neq; lia).
    replace (0 <? n + 1)%Z with true by (symmetry; apply Z.ltb_lt; lia).
    cbn [negb andb]. unfold id.
    destruct ((n + 1) mod h =? 0)%Z eqn:Hmod; cbn [andb].
    + apply Z.eqb_eq in Hmod.
      rewrite (div_succ_multiple n h Hn Hpos Hmod), half_power_succ by exact Hdiv.
      revert Hinv. generalize (mm_block_reward mm).
      generalize ((1 # 2) ^ (n / h)). intros p x Hinv.
      assert (E : x / 2 == x * (1 # 2)) by field.
      rewrite E, Hinv. ring.
    + apply Z.eqb_neq in Hmod.
      rewrite (div_succ_not_multiple n h Hn Hpos Hmod). exact Hinv.
  - apply submit_block_false_iff in Hsubmit as [_ ->]. exact Hinv.
Qed.



(** ** mining.py: block identifiers *)

Lemma next_block_ids_spec (n : nat) (mm : MiningManager) :
  fst (next_block_ids n mm)
    = map (fun k => "block_" +:+ pretty (mm_block_counter mm + N.of_nat k)%N)
          (seq 1 n)
  /\ mm_block_counter (snd (next_block_ids n mm))
     = (mm_block_counter mm + N.of_nat n)%N.
Proof.
  revert mm. induction n as [| n IH]; intros mm.
  - simpl. split; [reflexivity | lia].
  - cbn [next_block_ids get_next_block_id].
    destruct (next_block_ids n (set_block_counter mm (mm_block_counter mm + 1)))
      as [ids mm2] eqn:Hrec.
    destruct (IH (set_block_counter mm (mm_block_counter mm + 1))) as [Hids Hc].
    rewrite Hrec in Hids, Hc. cbn [fst snd] in *.
    cbn [set_block_counter mm_block_counter] in Hids, Hc.
    split; [| rewrite Hc, Nat2N.inj_succ; lia].
    cbn [seq map]. change (N.of_nat 1) with 1%N. f_equal.
    rewrite Hids, <- (seq_shift n 1), map_map.
    apply map_ext. intros k. do 2 f_equal. rewrite Nat2N.inj_succ. lia.
Qed.

(** X5.  Any number of successive calls of [get_next_block_id] return
    pairwise distinct ids, [block_(c+1)], [block_(c+2)], ... for a counter
    that stood at [c], and advance the counter by the number of calls. *)
Theorem next_block_ids_unique (n : nat) (mm : MiningManager) :
  NoDup (fst (next_block_ids n mm))
  /\ fst (next_block_ids n mm)
     = map (fun k => "block_" +:+ pretty (mm_block_counter mm + N.of_nat k)%N)
           (seq 1 n)
  /\ mm_block_counter (snd (next_block_ids n mm))
     = (mm_block_counter mm + N.of_nat n)%N.
Proof.
  destruct (next_block_ids_spec n mm) as [Hids Hc].
  split; [| split; assumption].
  rewrite Hids. apply NoDup_fmap_2; [| apply NoDup_seq].
  intros j k Hjk. apply (inj (String.append "block_")) in Hjk.
  apply (inj pretty) in Hjk. lia.
Qed.

(** ** mining.py: looking a transaction up in the pool *)

Lemma find_tx_none (pool : list Transaction) (id : string) :
  List.find (fun t => String.eqb (tx_id t) id) pool = None
  <-> ~ In id (map tx_id pool).
Proof.
  induction pool as [| t rest IH]; [simpl; tauto |].
  cbn [List.find map In].
  destruct (String.eqb_spec (tx_id t) id) as [-> | Hne].
  - split; [discriminate | intros H; exfalso; apply H; auto].
  - rewrite IH. tauto.
Qed.

(** X6.  [get_transaction_by_id] finds nothing exactly when no pending
    transaction has the id; what it finds is in the pool under that id; a
    transaction enqueued under an id not yet in the pool is found under its
    id, and enqueuing never changes the answer for an id that was found
    before. *)
Theorem get_transaction_by_id_spec
    (mm : MiningManager) (id : string) (tx : Transaction) :
  (get_transaction_by_id mm id = None <-> ~ In id (map tx_id (mm_transaction_pool mm)))
  /\ (forall t, get_transaction_by_id mm id = Some t ->
        In t (mm_transaction_pool mm) /\ tx_id t = id)
  /\ (~ In (tx_id tx) (map tx_id (mm_transaction_pool mm)) ->
        get_transaction_by_id (add_transaction mm tx) (tx_id tx) = Some tx)
  /\ (forall t, get_transaction_by_id mm id = Some t ->
        get_transaction_by_id (add_transaction mm tx) id = Some t).
Proof.
  unfold get_transaction_by_id.
  cbn [add_transaction set_transaction_pool mm_transaction_pool].
  split; [apply find_tx_none | split; [| split]].
  - intros t Hfind. apply find_some in Hfind as [Hin Heq].
    apply String.eqb_eq in Heq. auto.
  - intros Hfresh. apply find_tx_none in Hfresh.
    induction (mm_transaction_pool mm) as [| t rest IH].
    + cbn [app List.find]. rewrite String.eqb_refl. reflexivity.
    + cbn [app List.find] in Hfresh |- *.
      destruct (String.eqb (tx_id t) (tx_id tx)); [discriminate | auto].
  - intros t. induction (mm_transaction_pool mm) as [| t0 rest IH];
      [discriminate |].
    cbn [app List.find].
    destruct (String.eqb (tx_id t0) id); [auto | exact IH].
Qed.

(** ** mining.py: the time a block takes *)


Lemma get_transaction_by_id_spec_witness :
  ~ In (tx_id transfer_0_to_1) (map tx_id (mm_transaction_pool queue_engine))
  /\ get_transaction_by_id (add_transaction queue_engine transfer_0_to_1) "tx_0"
     = Some transfer_0_to_1.
Proof.
  assert (Hfresh : ~ In (tx_id transfer_0_to_1)
                     (map tx_id (mm_transaction_pool queue_engine)))
    by (simpl; tauto).
  destruct (get_transaction_by_id_spec queue_engine "tx_0" transfer_0_to_1)
    as (_ & _ & Hfound & _).
  split; [exact Hfresh | exact (Hfound Hfresh)].
Defined.


(** ** mining.py: building and mining a block *)

Lemma submit_block_frame
    (mm : MiningManager) (block : Block) (miner_id : string) :
  let mm' := state_after (submit_block mm block miner_id) in
  mm_block_counter mm' = mm_block_counter mm
  /\ mm_transaction_pool mm' = mm_transaction_pool mm
  /\ mm_simulated_time mm' = mm_simulated_time mm
  /\ length (mm_miners mm') = length (mm_miners mm).
Proof.
  unfold submit_block.
  destruct (negb (_validate_block mm block)); [simpl; auto |].
  set (mm2 := record_miner_stats (set_chain_tip mm block) block miner_id).
  assert (H2 : mm_block_counter mm2 = mm_block_counter mm
               /\ mm_transaction_pool mm2 = mm_transaction_pool mm
               /\ mm_simulated_time mm2 = mm_simulated_time mm
               /\ length (mm_miners mm2) = length (mm_miners mm)).
  { subst mm2. unfold record_miner_stats.
    destruct (_get_miner_by_id _ miner_id); simpl; auto.
    rewrite length_alter. auto. }
  assert (Hadj :
    mm_block_counter (state_after (_adjust_difficulty mm2)) = mm_block_counter mm
    /\ mm_transaction_pool (state_after (_adjust_difficulty mm2))
       = mm_transaction_pool mm
    /\ mm_simulated_time (state_after (_adjust_difficulty mm2))
       = mm_simulated_time mm
    /\ length (mm_miners (state_after (_adjust_difficulty mm2)))
       = length (mm_miners mm)).
  { unfold _adjust_difficulty.
    destruct (_ <? _)%Z; [exact H2 |].
    destruct (Qeq_bool _ 0); exact H2. }
  destruct ((_ mod DIFFICULTY_ADJUSTMENT_BLOCKS =? 0)%Z && _).
  - destruct (_adjust_difficulty mm2) as [[] mm3 | e mm3];
      cbn [state_after] in Hadj |- *; [| exact Hadj].
    destruct (_ && _ && _);
      cbn [_halve_reward set_block_reward mm_block_counter
             mm_transaction_pool mm_simulated_time mm_miners]; exact Hadj.
  - cbn [state_after].
    destruct (_ && _ && _);
      cbn [_halve_reward set_block_reward mm_block_counter
             mm_transaction_pool mm_simulated_time mm_miners]; exact H2.
Qed.

Lemma fold_left_Qplus_positive (data : list Q) (a : Q) :
  Forall (fun x => 0 < x) data ->
  a <= fold_left Qplus data a
  /\ (data <> [] -> a < fold_left Qplus data a).
Proof.
  revert a. induction data as [| x rest IH]; intros a Hall.
  - simpl. split; [lra | congruence].
  - apply Forall_cons in Hall as [Hx Hrest]. cbn [fold_left].
    destruct (IH (a + x) Hrest) as [Hle _].
    split; [lra | intros _; lra].
Qed.

Lemma statistics_mean_positive (data : list Q) :
  Forall (fun x => 0 < x) data -> data <> [] -> 0 < statistics_mean data.
Proof.
  intros Hall Hne. unfold statistics_mean.
  destruct (fold_left_Qplus_positive data 0 Hall) as [_ Hpos].
  specialize (Hpos Hne).
  apply Qlt_shift_div_l.
  - destruct data; [congruence |]. unfold Qlt. simpl. lia.
  - lra.
Qed.

(** On a chain whose blocks all took some time the adjustment does not
    raise. *)
Lemma _adjust_difficulty_returns (mm : MiningManager) :
  Forall (fun b => 0 < b_time_since_last b) (mm_blocks mm) ->
  exists mm', _adjust_difficulty mm = Returned tt mm'.
Proof.
  intros Hall. unfold _adjust_difficulty.
  destruct (_ <? _)%Z eqn:Hlen; [eauto |].
  apply Z.ltb_ge in Hlen. unfold DIFFICULTY_ADJUSTMENT_BLOCKS in *.
  set (recent := skipn _ (mm_blocks mm)).
  assert (Hpos : 0 < statistics_mean (map b_time_since_last recent)).
  { apply statistics_mean_positive.
    - apply Forall_fmap. apply Forall_drop. exact Hall.
    - intros E. apply (f_equal (@length Q)) in E.
      rewrite length_map in E. subst recent.
      rewrite length_drop in E. simpl in E. lia. }
  destruct (Qeq_bool _ 0) eqn:E; [| eauto].
  apply Qeq_bool_iff in E. lra.
Qed.

Lemma submit_block_returns_true
    (mm : MiningManager) (block : Block) (miner_id : string) :
  _validate_block mm block = true ->
  Forall (fun b => 0 < b_time_since_last b) (mm_blocks mm ++ [block]) ->
  exists mm', submit_block mm block miner_id = Returned true mm'.
Proof.
  intros Hvalid Hall. unfold submit_block. rewrite Hvalid. cbn [negb].
  destruct (record_miner_stats_frame (set_chain_tip mm block) block miner_id)
    as (_ & Hb & _).
  set (mm2 := record_miner_stats (set_chain_tip mm block) block miner_id) in *.
  cbn [set_chain_tip mm_blocks] in Hb.
  destruct (_adjust_difficulty_returns mm2) as [mm3 Hadj];
    [rewrite Hb; exact Hall |].
  rewrite Hadj. destruct (_ && _); eauto.
Qed.

(** ** mining.py: submission, on the chains the miners build *)

(** C3.  On a chain whose blocks, like the one submitted, took some time
    (a miner's block takes at least one second), [submit_block] returns
    [False] exactly when the block fails validation, that is when its id or
    its hash is missing, its id is already in the chain or its transaction
    count exceeds the block size, and the engine is then unchanged;
    otherwise it returns [True], the block is appended once and is the new
    chain tip, and the chain is again one whose blocks took some time.  The
    call never raises. *)
Theorem submit_block_validates
    (mm : MiningManager) (block : Block) (miner_id : string) :
  Forall (fun b => 0 < b_time_since_last b) (mm_blocks mm ++ [block]) ->
  (_validate_block mm block = false
   <-> (b_block_id block = "" \/ b_hash block = "")
       \/ In (b_block_id block) (map b_block_id (mm_blocks mm))
       \/ (cfg_blocksize (mm_config mm) < b_transaction_count block)%Z)
  /\ (_validate_block mm block = false
      <-> submit_block mm block miner_id = Returned false mm)
  /\ (forall mm', submit_block mm block miner_id = Returned false mm' ->
        mm' = mm)
  /\ (_validate_block mm block = true
      <-> exists mm', submit_block mm block miner_id = Returned true mm')
  /\ (forall mm', submit_block mm block miner_id = Returned true mm' ->
        mm_blocks mm' = mm_blocks mm ++ [block]
        /\ mm_last_block_time mm' = b_timestamp block
        /\ mm_last_block_hash mm' = b_hash block
        /\ Forall (fun b => 0 < b_time_since_last b) (mm_blocks mm'))
  /\ raised (submit_block mm block miner_id) = false.
Proof.
  intros Hall.
  assert (Htrue : _validate_block mm block = true ->
                  exists mm', submit_block mm block miner_id = Returned true mm').
  { intros Hvalid. apply submit_block_returns_true; assumption. }
  split; [apply _validate_block_false_iff |].
  split; [| split; [| split; [| split]]].
  - split.
    + apply submit_block_rejected.
    + intros H. apply (submit_block_false_iff mm mm block miner_id). exact H.
  - intros mm' H. apply submit_block_false_iff in H. tauto.
  - split; [exact Htrue |]. intros [mm' H].
    apply submit_block_returned_true in H. cbv zeta in H. tauto.
  - intros mm' H.
    pose proof (submit_block_returned_true _ _ _ _ H) as Hv.
    cbv zeta in Hv. destruct Hv as [Hvalid _].
    pose proof (submit_block_accepted mm block miner_id Hvalid) as Hacc.
    rewrite H in Hacc. cbn [state_after] in Hacc.
    destruct Hacc as (Hb & Ht & Hh & _).
    rewrite Hb. auto.
  - destruct (_validate_block mm block) eqn:Hvalid.
    + destruct (Htrue eq_refl) as [mm' ->]. reflexivity.
    + rewrite (submit_block_rejected mm block miner_id Hvalid). reflexivity.
Qed.

Lemma submit_block_validates_witness :
  Forall (fun b => 0 < b_time_since_last b)
    (mm_blocks queue_engine ++ [example_block 600 1])
  /\ raised (submit_block queue_engine (example_block 600 1) "miner_0") = false.
Proof.
  assert (H : Forall (fun b => 0 < b_time_since_last b)
                (mm_blocks queue_engine ++ [example_block 600 1])).
  { apply Forall_singleton. reflexivity. }
  split; [exact H |].
  apply (submit_block_validates queue_engine (example_block 600 1) "miner_0" H).
Defined.

(** ** mining.py: the reward schedule, on the chains the miners build *)

(** C4.  With a halving interval [h] other than zero, on a chain whose
    blocks took some time, a block that passes validation is appended and
    the reward becomes its half exactly when [h] divides the new chain
    length (the half being a finite float, as it is for every float
    reward above the subnormal range); a rejected block leaves the reward
    as it is.
    Under a 210000-block schedule the reward 50 becomes 25 with the
    210000th block.  Without a halving interval no submission changes the
    reward. *)
Theorem block_reward_halving
    (mm : MiningManager) (block : Block) (miner_id : string) :
  (forall h,
     mm_halving_blocks mm = Some h -> h <> 0%Z ->
     representable (mm_block_reward mm / 2) ->
     Forall (fun b => 0 < b_time_since_last b) (mm_blocks mm ++ [block]) ->
     _validate_block mm block = true ->
     exists mm',
       submit_block mm block miner_id = Returned true mm'
       /\ Z.of_nat (length (mm_blocks mm'))
          = (Z.of_nat (length (mm_blocks mm)) + 1)%Z
       /\ mm_block_reward mm'
          = if (Z.of_nat (length (mm_blocks mm')) mod h =? 0)%Z
            then mm_block_reward mm / 2
            else mm_block_reward mm)
  /\ (_validate_block mm block = false ->
      mm_block_reward (state_after (submit_block mm block miner_id))
      = mm_block_reward mm)
  /\ (mm_halving_blocks mm = Some 210000%Z ->
      Z.of_nat (length (mm_blocks mm)) = 209999%Z ->
      mm_block_reward mm == 50 ->
      Forall (fun b => 0 < b_time_since_last b) (mm_blocks mm ++ [block]) ->
      _validate_block mm block = true ->
      mm_block_reward (state_after (submit_block mm block miner_id)) == 25)
  /\ (truthy_int (mm_halving_blocks mm) = false ->
      mm_block_reward (state_after (submit_block mm block miner_id))
      = mm_block_reward mm).
Proof.
  assert (Hstep : forall h,
     mm_halving_blocks mm = Some h -> h <> 0%Z ->
     Forall (fun b => 0 < b_time_since_last b) (mm_blocks mm ++ [block]) ->
     _validate_block mm block = true ->
     exists mm',
       submit_block mm block miner_id = Returned true mm'
       /\ Z.of_nat (length (mm_blocks mm'))
          = (Z.of_nat (length (mm_blocks mm)) + 1)%Z
       /\ mm_block_reward mm'
          = if (Z.of_nat (length (mm_blocks mm')) mod h =? 0)%Z
            then mm_block_reward mm / 2
            else mm_block_reward mm).
  { intros h Hh Hne Hall Hvalid.
    destruct (submit_block_returns_true mm block miner_id Hvalid Hall)
      as [mm' Hsubmit].
    exists mm'. split; [exact Hsubmit |].
    pose proof (submit_block_accepted mm block miner_id Hvalid) as Hacc.
    rewrite Hsubmit in Hacc. cbn [state_after] in Hacc.
    destruct Hacc as (Hb & _).
    assert (Hlen : Z.of_nat (length (mm_blocks mm'))
                   = (Z.of_nat (length (mm_blocks mm)) + 1)%Z).
    { rewrite Hb, length_app. cbn [length]. lia. }
    split; [exact Hlen |].
    rewrite (submit_block_reward mm mm' block miner_id Hsubmit). cbv zeta.
    rewrite Hh. cbn [truthy_int default].
    destruct (Z.eqb_spec h 0) as [E | _]; [contradiction |]. cbn [negb andb].
    destruct (Z.ltb_spec 0 (Z.of_nat (length (mm_blocks mm')))) as [_ | Hle];
      [| lia].
    rewrite andb_true_r. reflexivity. }
  split; [| split; [| split]].
  - intros h Hh Hne _ Hall Hvalid. apply Hstep; assumption.
  - intros Hinvalid.
    rewrite (submit_block_rejected mm block miner_id Hinvalid). reflexivity.
  - intros Hh Hlen Hr Hall Hvalid.
    destruct (Hstep 210000%Z Hh ltac:(discriminate) Hall Hvalid)
      as (mm' & Hsubmit & Hlen' & Hreward).
    rewrite Hsubmit. cbn [state_after]. rewrite Hreward, Hlen', Hlen.
    change ((209999 + 1) mod 210000 =? 0)%Z with true.
    cbv iota. rewrite Hr. reflexivity.
  - apply submit_block_static_reward.
Qed.

Lemma block_reward_halving_witness :
  (mm_halving_blocks halving_engine = Some 1%Z
   /\ 1%Z <> 0%Z
   /\ representable (mm_block_reward halving_engine / 2)
   /\ Forall (fun b => 0 < b_time_since_last b)
        (mm_blocks halving_engine ++ [example_block 600 1])
   /\ _validate_block halving_engine (example_block 600 1) = true
   /\ exists mm',
        submit_block halving_engine (example_block 600 1) "miner_0"
        = Returned true mm'
        /\ mm_block_reward mm' = 50 / 2)
  /\ (mm_halving_blocks default_halving_engine = Some 210000%Z
      /\ exists mm',
           submit_block default_halving_engine (example_block 600 1) "miner_0"
           = Returned true mm'
           /\ mm_block_reward mm' = 50).
Proof.
  assert (H1 : mm_halving_blocks halving_engine = Some 1%Z) by reflexivity.
  assert (H2 : 1%Z <> 0%Z) by discriminate.
  assert (H3 : Forall (fun b => 0 < b_time_since_last b)
                 (mm_blocks halving_engine ++ [example_block 600 1]))
    by (apply Forall_singleton; reflexivity).
  assert (H4 : _validate_block halving_engine (example_block 600 1) = true)
    by reflexivity.
  assert (H5 : representable (mm_block_reward halving_engine / 2))
    by (split; vm_compute; reflexivity).
  assert (G1 : mm_halving_blocks default_halving_engine = Some 210000%Z)
    by reflexivity.
  assert (G2 : 210000%Z <> 0%Z) by discriminate.
  assert (G3 : Forall (fun b => 0 < b_time_since_last b)
                 (mm_blocks default_halving_engine ++ [example_block 600 1]))
    by (apply Forall_singleton; reflexivity).
  assert (G4 : _validate_block default_halving_engine (example_block 600 1)
               = true) by reflexivity.
  assert (G5 : representable (mm_block_reward default_halving_engine / 2))
    by (split; vm_compute; reflexivity).
  split.
  - split; [exact H1 | split; [exact H2 | split; [exact H5 |]]].
    split; [exact H3 | split; [exact H4 |]].
    destruct (proj1 (block_reward_halving halving_engine (example_block 600 1)
                       "miner_0") 1%Z H1 H2 H5 H3 H4)
      as (mm' & Hsubmit & Hlen & Hreward).
    exists mm'. split; [exact Hsubmit |].
    rewrite Hreward, Hlen. reflexivity.
  - split; [exact G1 |].
    destruct (proj1 (block_reward_halving default_halving_engine
                       (example_block 600 1) "miner_0")
                210000%Z G1 G2 G5 G3 G4)
      as (mm' & Hsubmit & Hlen & Hreward).
    exists mm'. split; [exact Hsubmit |].
    rewrite Hreward, Hlen. reflexivity.
Defined.

(** ** mining.py: building a block *)

Lemma _create_block_eq
    (calculate_hash : string -> Q -> string -> string -> string)
    (miner : Miner) (mm : MiningManager) (current_sim_time mining_time : Q) :
  let n := Z.to_nat (Z.min (cfg_blocksize (mm_config mm))
                           (Z.of_nat (length (mm_transaction_pool mm)))) in
  let transactions := take n (mm_transaction_pool mm) in
  let block_id := "block_" +:+ pretty (mm_block_counter mm + 1)%N in
  _create_block calculate_hash miner mm current_sim_time mining_time =
    ({| b_block_id := block_id;
        b_timestamp := current_sim_time + mining_time;
        b_time_since_last := mining_time;
        b_transaction_count := Z.of_nat (length transactions);
        b_size := (HEADER_SIZE
                   + Z.of_nat (length transactions) * TRANSACTION_SIZE)%Z;
        b_transactions := map tx_id transactions;
        b_miner_reward := mm_block_reward mm;
        b_previous_hash := mm_last_block_hash mm;
        b_miner_id := m_miner_id miner;
        b_difficulty := mm_current_difficulty mm;
        b_hash :=
          calculate_hash block_id (current_sim_time + mining_time)
            (mm_last_block_hash mm) (m_miner_id miner) |},
     transactions,
     set_block_counter
       (set_transaction_pool mm (drop n (mm_transaction_pool mm)))
       (mm_block_counter mm + 1)).
Proof.
  intros n transactions block_id. unfold _create_block.
  rewrite get_transactions_for_block_take_drop. reflexivity.
Qed.

Lemma expected_mining_time_at_least_one (mm : MiningManager) (variance : Q) :
  1 <= _calculate_expected_mining_time mm variance.
Proof. unfold _calculate_expected_mining_time. py_cases; lra. Qed.

Lemma block_id_fresh (mm : MiningManager) :
  chain_mined mm ->
  ~ In ("block_" +:+ pretty (mm_block_counter mm + 1)%N)
       (map b_block_id (mm_blocks mm)).
Proof.
  intros Hchain Hin. apply in_map_iff in Hin as (b & Hid & Hb).
  unfold chain_mined in Hchain. rewrite Forall_forall in Hchain.
  destruct (Hchain b) as [(k & Hk & Hbk) _]; [apply list_elem_of_In; exact Hb |].
  rewrite Hbk in Hid. apply (inj (String.append "block_")) in Hid.
  apply (inj pretty) in Hid. lia.
Qed.

(** X8.  On an engine whose chain was built by its miners (ids handed out
    by the counter, positive block times), with a non-negative block size
    and a digest that is never empty, [mine_block] always succeeds: the
    block it builds takes the next id, the first
    [min(blocksize, len(pool))] pending transactions in order and the
    current chain tip as its previous hash, has a size of
    [1024 + 256 * transaction_count] and a block time of at least one
    second; it is accepted, appended to the chain, and the chain is again
    one built by the miners. *)
Theorem mine_block_succeeds
    (calculate_hash : string -> Q -> string -> string -> string)
    (i : nat) (mm : MiningManager) (variance : Q) (miner : Miner) :
  (forall id ts ph mid, calculate_hash id ts ph mid <> "") ->
  mm_miners mm !! i = Some miner ->
  (0 <= cfg_blocksize (mm_config mm))%Z ->
  chain_mined mm ->
  let n := Z.to_nat (Z.min (cfg_blocksize (mm_config mm))
                           (Z.of_nat (length (mm_transaction_pool mm)))) in
  exists block mm',
    mine_block calculate_hash i mm variance = (Some block, mm')
    /\ mm_blocks mm' = mm_blocks mm ++ [block]
    /\ b_block_id block = "block_" +:+ pretty (mm_block_counter mm + 1)%N
    /\ mm_block_counter mm' = (mm_block_counter mm + 1)%N
    /\ b_transactions block = map tx_id (take n (mm_transaction_pool mm))
    /\ mm_transaction_pool mm' = drop n (mm_transaction_pool mm)
    /\ b_transaction_count block = Z.of_nat (length (b_transactions block))
    /\ (b_transaction_count block <= cfg_blocksize (mm_config mm))%Z
    /\ b_size block = (1024 + 256 * b_transaction_count block)%Z
    /\ 1 <= b_time_since_last block
    /\ b_previous_hash block = mm_last_block_hash mm
    /\ b_miner_id block = m_miner_id miner
    /\ chain_mined mm'.
Proof.
  intros Hhash Hminer Hsize Hchain n.
  unfold mine_block. rewrite Hminer.
  rewrite _create_block_eq. cbv zeta. fold n.
  set (transactions := take n (mm_transaction_pool mm)).
  set (mm1 := set_block_counter
                (set_transaction_pool mm (drop n (mm_transaction_pool mm)))
                (mm_block_counter mm + 1)).
  set (block := mkBlock _ _ _ _ _ _ _ _ _ _ _).
  pose proof (expected_mining_time_at_least_one mm variance) as Htime.
  assert (Hcount : (b_transaction_count block <= cfg_blocksize (mm_config mm))%Z).
  { subst block transactions. cbn [b_transaction_count].
    rewrite length_take. lia. }
  assert (Hvalid : _validate_block mm1 block = true).
  { destruct (_validate_block mm1 block) eqn:E; [reflexivity | exfalso].
    apply _validate_block_false_iff in E.
    destruct E as [[E | E] | [E | E]].
    - discriminate E.
    - apply (Hhash _ _ _ _ E).
    - apply (block_id_fresh mm Hchain). exact E.
    - cbn [mm1 set_block_counter set_transaction_pool mm_config] in E. lia. }
  assert (Hall : Forall (fun b => 0 < b_time_since_last b)
                   (mm_blocks mm1 ++ [block])).
  { apply Forall_app. split.
    - unfold chain_mined in Hchain. eapply Forall_impl; [exact Hchain |].
      intros b [_ Hb]. exact Hb.
    - apply Forall_singleton. cbn [block b_time_since_last]. lra. }
  destruct (submit_block_returns_true mm1 block (m_miner_id miner) Hvalid Hall)
    as [mm2 Hsubmit].
  rewrite Hsubmit.
  pose proof (submit_block_accepted mm1 block (m_miner_id miner) Hvalid) as Hacc.
  pose proof (submit_block_frame mm1 block (m_miner_id miner)) as Hframe.
  rewrite Hsubmit in Hacc, Hframe. cbn [state_after] in Hacc, Hframe.
  destruct Hacc as (Hblocks & _). destruct Hframe as (Hcounter & Hpool & _).
  eexists. eexists. split; [reflexivity |].
  cbn [set_miner_stats mm_blocks mm_block_counter mm_transaction_pool].
  rewrite Hblocks, Hcounter, Hpool.
  cbn [mm1 set_block_counter set_transaction_pool mm_blocks mm_block_counter
         mm_transaction_pool].
  repeat split; try reflexivity.
  - cbn [block b_transaction_count b_transactions]. rewrite length_map.
    reflexivity.
  - exact Hcount.
  - cbn [block b_size b_transaction_count]. unfold HEADER_SIZE, TRANSACTION_SIZE.
    lia.
  - exact Htime.
  - unfold chain_mined.
    cbn [set_miner_stats mm_blocks mm_block_counter].
    rewrite Hblocks, Hcounter.
    cbn [mm1 set_block_counter set_transaction_pool mm_blocks mm_block_counter].
    apply Forall_app. split.
    + unfold chain_mined in Hchain. eapply Forall_impl; [exact Hchain |].
      intros b [(k & Hk & Hid) Hb]. split; [| exact Hb].
      exists k. split; [lia | exact Hid].
    + apply Forall_singleton. split.
      * exists (mm_block_counter mm + 1)%N. split; [lia | reflexivity].
      * cbn [block b_time_since_last]. lra.
Qed.

Lemma example_digest_not_empty (id : string) (ts : Q) (ph mid : string) :
  example_digest id ts ph mid <> "".
Proof. unfold example_digest. intros H. discriminate H. Qed.

Lemma mine_block_succeeds_witness :
  (forall id ts ph mid, example_digest id ts ph mid <> "")
  /\ (0 <= cfg_blocksize (mm_config queue_engine))%Z
  /\ chain_mined queue_engine
  /\ exists block mm',
       mine_block example_digest 0 queue_engine 1 = (Some block, mm')
       /\ mm_blocks mm' = [block]
       /\ b_block_id block = "block_1".
Proof.
  assert (Hsize : (0 <= cfg_blocksize (mm_config queue_engine))%Z)
    by (vm_compute; discriminate).
  assert (Hchain : chain_mined queue_engine) by (apply Forall_nil_2).
  assert (Hminer : exists miner, mm_miners queue_engine !! 0%nat = Some miner)
    by (eexists; reflexivity).
  destruct Hminer as [miner Hminer].
  destruct (mine_block_succeeds example_digest 0 queue_engine 1 miner
              example_digest_not_empty Hminer Hsize Hchain)
    as (block & mm' & Hmine & Hblocks & Hid & _).
  split; [exact example_digest_not_empty | split; [exact Hsize | split; [exact Hchain |]]].
  exists block, mm'. split; [exact Hmine | split; [exact Hblocks | exact Hid]].
Defined.

(** ** mining.py: the mining attempt *)



(** ** network.py: neighbours *)

Lemma add_neighbor_length (net : NetworkManager) (i k : nat) :
  length (nm_nodes (add_neighbor net i k)) = length (nm_nodes net).
Proof.
  unfold add_neighbor. destruct (nm_nodes net !! i); [| reflexivity].
  repeat case_decide; try reflexivity. cbn [set_nodes nm_nodes].
  apply length_insert.
Qed.

Lemma neighbors_of_add_neighbor (net : NetworkManager) (i k j : nat) :
  neighbors_of (add_neighbor net i k) j =
    if decide (j = i /\ (i < length (nm_nodes net))%nat
               /\ (k ∉ neighbors_of net i) /\ k <> i)
    then neighbors_of net i ++ [k]
    else neighbors_of net j.
Proof.
  unfold add_neighbor, neighbors_of.
  destruct (nm_nodes net !! i) as [nd |] eqn:Hnd.
  - apply lookup_lt_Some in Hnd as Hlt.
    destruct (decide (k ∈ n_neighbors nd)) as [Hin | Hin].
    + rewrite decide_False by tauto. reflexivity.
    + destruct (decide (k = i)) as [-> | Hki].
      * rewrite decide_False by tauto. reflexivity.
      * cbn [set_nodes nm_nodes].
        destruct (decide (j = i)) as [-> | Hji].
        -- rewrite list_lookup_insert_eq by exact Hlt.
           rewrite decide_True by tauto. reflexivity.
        -- rewrite list_lookup_insert_ne by congruence.
           rewrite decide_False by tauto. reflexivity.
  - apply lookup_ge_None in Hnd.
    rewrite decide_False by (intros (_ & H & _); lia). reflexivity.
Qed.

Lemma remove_first_not_in (k : nat) (l : list nat) :
  (k ∉ l) -> remove_first k (l ++ [k]) = l.
Proof.
  induction l as [| x rest IH]; intros Hk; cbn [app remove_first].
  - rewrite decide_True by reflexivity. reflexivity.
  - apply not_elem_of_cons in Hk as [Hne Hk].
    rewrite decide_False by congruence. rewrite IH by exact Hk. reflexivity.
Qed.

Lemma remove_first_elem (k x : nat) (l : list nat) :
  NoDup l -> (x ∈ remove_first k l <-> x ∈ l /\ x <> k).
Proof.
  induction l as [| y rest IH]; intros Hnd; cbn [remove_first].
  - split; [intros H; inversion H | intros [H _]; inversion H].
  - apply NoDup_cons in Hnd as [Hy Hrest].
    destruct (decide (y = k)) as [-> | Hne].
    + rewrite elem_of_cons. split.
      * intros Hx. split; [right; exact Hx | intros ->; contradiction].
      * intros [[-> | Hx] Hxk]; [congruence | exact Hx].
    + rewrite !elem_of_cons, (IH Hrest). split.
      * intros [-> | [H1 H2]]; split; auto.
      * intros [[-> | H1] H2]; auto.
Qed.

Lemma set_nodes_twice (net : NetworkManager) (a b : list BlockchainNode) :
  set_nodes (set_nodes net a) b = set_nodes net b.
Proof. reflexivity. Qed.

Lemma set_neighbors_back (nd : BlockchainNode) (l : list nat) :
  set_neighbors (set_neighbors nd l) (n_neighbors nd) = nd.
Proof. destruct nd. reflexivity. Qed.

Lemma set_nodes_same (net : NetworkManager) :
  set_nodes net (nm_nodes net) = net.
Proof. destruct net. reflexivity. Qed.

(** X10.  [add_neighbor] never lists a node as its own neighbour and never
    lists a neighbour twice: neighbour lists without duplicates and
    without self-loops stay so; the new neighbour is listed afterwards when
    it is another node; and adding the same neighbour a second time changes
    nothing. *)
Theorem add_neighbor_sound (net : NetworkManager) (i k : nat) :
  (forall j, NoDup (neighbors_of net j) ->
             NoDup (neighbors_of (add_neighbor net i k) j))
  /\ (forall j, (j ∉ neighbors_of net j) ->
                j ∉ neighbors_of (add_neighbor net i k) j)
  /\ ((i < length (nm_nodes net))%nat -> k <> i ->
      k ∈ neighbors_of (add_neighbor net i k) i)
  /\ add_neighbor (add_neighbor net i k) i k = add_neighbor net i k.
Proof.
  split; [| split; [| split]].
  - intros j Hnd. rewrite neighbors_of_add_neighbor.
    case_decide as H; [| exact Hnd]. destruct H as (-> & _ & Hk & _).
    apply NoDup_app. split; [exact Hnd | split; [| apply NoDup_singleton]].
    intros x Hx Hx'. apply list_elem_of_singleton in Hx'. subst x. tauto.
  - intros j Hj. rewrite neighbors_of_add_neighbor.
    case_decide as H; [| exact Hj]. destruct H as (-> & _ & _ & Hne).
    rewrite elem_of_app, list_elem_of_singleton. intros [H | H]; [tauto | congruence].
  - intros Hi Hne. rewrite neighbors_of_add_neighbor.
    case_decide as H.
    + rewrite elem_of_app, list_elem_of_singleton. auto.
    + destruct (decide (k ∈ neighbors_of net i)); [assumption | tauto].
  - unfold add_neighbor at 1.
    destruct (nm_nodes (add_neighbor net i k) !! i) as [nd' |] eqn:Hnd';
      [| reflexivity].
    destruct (decide (k ∈ n_neighbors nd')) as [Hin | Hin]; [reflexivity |].
    destruct (decide (k = i)) as [Hki | Hki]; [reflexivity | exfalso].
    apply Hin.
    assert (Hi : (i < length (nm_nodes net))%nat).
    { apply lookup_lt_Some in Hnd'. rewrite add_neighbor_length in Hnd'. lia. }
    assert (Hn : neighbors_of (add_neighbor net i k) i = n_neighbors nd')
      by (unfold neighbors_of; rewrite Hnd'; reflexivity).
    rewrite <- Hn, neighbors_of_add_neighbor.
    case_decide as H.
    + rewrite elem_of_app, list_elem_of_singleton. auto.
    + destruct (decide (k ∈ neighbors_of net i)); [assumption | tauto].
Qed.

(** X11.  Removing a neighbour that was just added gives the network
    back: when [k] was not a neighbour of [i], [remove_neighbor] after
    [add_neighbor] is the identity.  On a duplicate-free list
    [remove_neighbor] leaves no trace of the neighbour and keeps all the
    others. *)
Theorem remove_neighbor_add_neighbor (net : NetworkManager) (i k : nat) :
  ((k ∉ neighbors_of net i) ->
   remove_neighbor (add_neighbor net i k) i k = net)
  /\ (NoDup (neighbors_of net i) ->
      (k ∉ neighbors_of (remove_neighbor net i k) i)
      /\ forall x, x ∈ neighbors_of (remove_neighbor net i k) i
                   <-> x ∈ neighbors_of net i /\ x <> k).
Proof.
  split.
  - intros Hk. unfold add_neighbor, neighbors_of in *.
    destruct (nm_nodes net !! i) as [nd |] eqn:Hnd.
    + apply lookup_lt_Some in Hnd as Hlt.
      rewrite decide_False by exact Hk.
      destruct (decide (k = i)) as [-> | Hki].
      * unfold remove_neighbor. rewrite Hnd.
        rewrite decide_False by exact Hk. reflexivity.
      * unfold remove_neighbor. cbn [set_nodes nm_nodes].
        rewrite list_lookup_insert_eq by exact Hlt.
        cbn [set_neighbors n_neighbors].
        rewrite decide_True by (rewrite elem_of_app, list_elem_of_singleton; auto).
        cbn [set_nodes nm_nodes nm_node_count nm_neighbor_count nm_network_stats].
        rewrite list_insert_insert_eq, remove_first_not_in by exact Hk.
        rewrite set_nodes_twice, set_neighbors_back.
        rewrite list_insert_id by exact Hnd.
        apply set_nodes_same.
    + unfold remove_neighbor. rewrite Hnd. reflexivity.
  - intros Hnd. unfold remove_neighbor, neighbors_of in *.
    destruct (nm_nodes net !! i) as [nd |] eqn:Hlook.
    + apply lookup_lt_Some in Hlook as Hlt.
      destruct (decide (k ∈ n_neighbors nd)) as [Hin | Hin].
      * cbn [set_nodes nm_nodes]. rewrite list_lookup_insert_eq by exact Hlt.
        cbn [set_neighbors n_neighbors].
        split; [| intros x; apply remove_first_elem; exact Hnd].
        rewrite (remove_first_elem k k _ Hnd). tauto.
      * rewrite Hlook. split; [exact Hin |].
        intros x. split; [| tauto]. intros Hx. split; [exact Hx | congruence].
    + rewrite Hlook. split; [apply not_elem_of_nil |].
      intros x. split; [intros H; inversion H | intros [H _]; inversion H].
Qed.

(** ** network.py: connecting the nodes *)

Lemma connect_length (net : NetworkManager) (i k : nat) :
  length (nm_nodes (connect net i k)) = length (nm_nodes net).
Proof. unfold connect. rewrite !add_neighbor_length. reflexivity. Qed.

Lemma neighbors_of_connect (net : NetworkManager) (i k j : nat) :
  topology_ok net ->
  (i < length (nm_nodes net))%nat -> (k < length (nm_nodes net))%nat ->
  neighbors_of (connect net i k) j =
    if decide (k <> i /\ k ∉ neighbors_of net i)
    then if decide (j = i) then neighbors_of net i ++ [k]
         else if decide (j = k) then neighbors_of net k ++ [i]
         else neighbors_of net j
    else neighbors_of net j.
Proof.
  intros Hok Hi Hk. unfold connect.
  rewrite neighbors_of_add_neighbor, add_neighbor_length.
  rewrite !neighbors_of_add_neighbor.
  destruct (Hok i Hi) as (_ & _ & Hsym_i).
  destruct (Hok k Hk) as (_ & _ & Hsym_k).
  destruct (decide (k = i)) as [-> | Hki].
  - rewrite !decide_False by tauto. reflexivity.
  - destruct (decide (k ∈ neighbors_of net i)) as [Hin | Hin].
    + assert (Hin' : i ∈ neighbors_of net k) by (apply Hsym_i; exact Hin).
      rewrite (decide_False (P := k <> i /\ _)) by tauto.
      rewrite (decide_False (P := k = i /\ _)) by tauto.
      rewrite (decide_False (P := j = i /\ _)) by tauto.
      rewrite decide_False by tauto. reflexivity.
    + assert (Hin' : i ∉ neighbors_of net k).
      { intros H. apply Hin. apply Hsym_k. exact H. }
      rewrite (decide_True (P := k <> i /\ _)) by tauto.
      rewrite (decide_False (P := k = i /\ _)) by tauto.
      destruct (decide (j = i)) as [-> | Hji].
      * rewrite (decide_False (P := i = k /\ _)) by (intros [? _]; congruence).
        rewrite decide_True by tauto. reflexivity.
      * rewrite (decide_False (P := j = i /\ _)) by tauto.
        destruct (decide (j = k)) as [-> | Hjk].
        -- rewrite decide_True by auto. reflexivity.
        -- rewrite decide_False by tauto. reflexivity.
Qed.

Lemma connect_topology_ok (net : NetworkManager) (i k : nat) :
  topology_ok net ->
  (i < length (nm_nodes net))%nat -> (k < length (nm_nodes net))%nat ->
  topology_ok (connect net i k).
Proof.
  intros Hok Hi Hk j. rewrite connect_length. intros Hj.
  pose proof (neighbors_of_connect net i k) as Hn.
  destruct (decide (k <> i /\ k ∉ neighbors_of net i)) as [[Hki Hin] | Hno].
  - destruct (Hok i Hi) as (Hnd_i & Hself_i & Hsym_i).
    destruct (Hok k Hk) as (Hnd_k & Hself_k & Hsym_k).
    destruct (Hok j Hj) as (Hnd_j & Hself_j & Hsym_j).
    assert (Hin' : i ∉ neighbors_of net k).
    { intros H. apply Hin. apply Hsym_k. exact H. }
    assert (Hmem : forall a b, b ∈ neighbors_of (connect net i k) a <->
              b ∈ neighbors_of net a \/ (a = i /\ b = k) \/ (a = k /\ b = i)).
    { intros a b. rewrite (Hn a Hok Hi Hk).
      destruct (decide (a = i)) as [-> | Hai].
      - rewrite elem_of_app, list_elem_of_singleton. split.
        + intros [H | ->]; auto.
        + intros [H | [[_ ->] | [-> ->]]]; auto.
      - destruct (decide (a = k)) as [-> | Hak].
        + rewrite elem_of_app, list_elem_of_singleton. split.
          * intros [H | ->]; auto.
          * intros [H | [[-> ->] | [_ ->]]]; auto.
        + split; [auto | intros [H | [[-> _] | [-> _]]]; [exact H | congruence ..]]. }
    split; [| split].
    + rewrite (Hn j Hok Hi Hk).
      destruct (decide (j = i)) as [-> | Hji].
      * apply NoDup_app. split; [exact Hnd_i | split; [| apply NoDup_singleton]].
        intros x Hx Hx'. apply list_elem_of_singleton in Hx'. subst x. tauto.
      * destruct (decide (j = k)) as [-> | Hjk]; [| exact Hnd_j].
        apply NoDup_app. split; [exact Hnd_k | split; [| apply NoDup_singleton]].
        intros x Hx Hx'. apply list_elem_of_singleton in Hx'. subst x. tauto.
    + rewrite Hmem. intros [H | [[-> H] | [-> H]]]; [tauto | congruence ..].
    + intros x. rewrite !Hmem.
      intros [H | [[-> ->] | [-> ->]]].
      * destruct (Hsym_j x H) as [Hx Hb]. auto.
      * auto.
      * auto.
  - assert (Hsame : forall a, neighbors_of (connect net i k) a = neighbors_of net a).
    { intros a. rewrite (Hn a Hok Hi Hk). reflexivity. }
    rewrite Hsame. destruct (Hok j Hj) as (Hnd_j & Hself_j & Hsym_j).
    split; [exact Hnd_j | split; [exact Hself_j |]].
    intros x Hx. rewrite Hsame. apply Hsym_j. exact Hx.
Qed.

Lemma connect_all_topology_ok (i : nat) (ks : list nat) (net : NetworkManager) :
  topology_ok net ->
  (i < length (nm_nodes net))%nat ->
  Forall (fun k => (k < length (nm_nodes net))%nat) ks ->
  topology_ok (fold_left (fun net k => connect net i k) ks net)
  /\ length (nm_nodes (fold_left (fun net k => connect net i k) ks net))
     = length (nm_nodes net)
  /\ nm_neighbor_count (fold_left (fun net k => connect net i k) ks net)
     = nm_neighbor_count net.
Proof.
  revert net. induction ks as [| k ks IH]; intros net Hok Hi Hks; cbn [fold_left].
  - auto.
  - apply Forall_cons in Hks as [Hk Hks].
    destruct (IH (connect net i k)) as (H1 & H2 & H3).
    + apply connect_topology_ok; assumption.
    + rewrite connect_length. exact Hi.
    + rewrite connect_length. exact Hks.
    + rewrite H2, H3, connect_length. split; [exact H1 | split; [reflexivity |]].
      unfold connect, add_neighbor.
      repeat (destruct (_ !! _); try reflexivity; repeat case_decide; try reflexivity).
Qed.

Lemma connect_all_degree (i : nat) (ks : list nat) (net : NetworkManager) :
  topology_ok net ->
  (i < length (nm_nodes net))%nat ->
  NoDup ks ->
  (forall k, k ∈ ks ->
     (k < length (nm_nodes net))%nat /\ k <> i /\ k ∉ neighbors_of net i) ->
  length (neighbors_of (fold_left (fun net k => connect net i k) ks net) i)
    = (length (neighbors_of net i) + length ks)%nat
  /\ forall j,
       (length (neighbors_of net j)
        <= length (neighbors_of
                     (fold_left (fun net k => connect net i k) ks net) j))%nat.
Proof.
  revert net. induction ks as [| k ks IH]; intros net Hok Hi Hnd Hks;
    cbn [fold_left length].
  - split; [lia | intros j; lia].
  - apply NoDup_cons in Hnd as [Hk Hnd].
    destruct (Hks k) as (Hklt & Hki & Hkin); [left |].
    pose proof (neighbors_of_connect net i k) as Hn.
    destruct (IH (connect net i k)) as [H1 H2].
    + apply connect_topology_ok; assumption.
    + rewrite connect_length. exact Hi.
    + exact Hnd.
    + intros k' Hk'. rewrite connect_length.
      destruct (Hks k') as (Ha & Hb & Hc); [right; exact Hk' |].
      split; [exact Ha | split; [exact Hb |]].
      rewrite (Hn i Hok Hi Hklt), decide_True, decide_True by tauto.
      rewrite elem_of_app, list_elem_of_singleton.
      intros [H | ->]; tauto.
    + split.
      * rewrite H1, (Hn i Hok Hi Hklt), decide_True, decide_True by tauto.
        rewrite length_app. cbn [length]. lia.
      * intros j. etransitivity; [| apply H2].
        rewrite (Hn j Hok Hi Hklt), decide_True by tauto.
        repeat case_decide; subst; rewrite ?length_app; lia.
Qed.

Lemma available_neighbors_length (net : NetworkManager) (i : nat) :
  topology_ok net ->
  (i < length (nm_nodes net))%nat ->
  (length (available_neighbors net i) + length (neighbors_of net i) + 1
   = length (nm_nodes net))%nat.
Proof.
  intros Hok Hi. destruct (Hok i Hi) as (Hnd & Hself & Hsym).
  unfold available_neighbors.
  set (P := fun k : nat => k <> i /\ k ∉ neighbors_of net i).
  pose proof (filter_app_complement P (seq 0 (length (nm_nodes net)))) as Hp.
  apply Permutation_length in Hp. rewrite length_app, length_seq in Hp.
  assert (Hc : filter (fun x => ~ P x) (seq 0 (length (nm_nodes net)))
               ≡ₚ i :: neighbors_of net i).
  { apply NoDup_Permutation.
    - apply NoDup_filter, NoDup_seq.
    - apply NoDup_cons. split; assumption.
    - intros x. rewrite list_elem_of_filter, elem_of_seq, elem_of_cons.
      unfold P. split.
      + intros [Hx _]. destruct (decide (x = i)); [auto |].
        destruct (decide (x ∈ neighbors_of net i)); [auto | tauto].
      + intros [-> | Hx]; [split; [tauto | lia] |].
        split; [tauto |]. destruct (Hsym x Hx). lia. }
  apply Permutation_length in Hc. cbn [length] in Hc. lia.
Qed.

Lemma connect_node_invariant
    (sample : nat -> list nat -> nat -> list nat) (net : NetworkManager)
    (i : nat) :
  is_sample sample ->
  topology_ok net ->
  (i < length (nm_nodes net))%nat ->
  topology_ok (connect_node sample net i)
  /\ length (nm_nodes (connect_node sample net i)) = length (nm_nodes net)
  /\ nm_neighbor_count (connect_node sample net i) = nm_neighbor_count net
  /\ (forall j, (length (neighbors_of net j)
                 <= length (neighbors_of (connect_node sample net i) j))%nat)
  /\ (Z.min (nm_neighbor_count net) (Z.of_nat (length (nm_nodes net)) - 1)
      <= Z.of_nat (length (neighbors_of (connect_node sample net i) i)))%Z.
Proof.
  intros Hs Hok Hi. unfold connect_node.
  pose proof (available_neighbors_length net i Hok Hi) as Hav.
  set (ks := sample i (available_neighbors net i)
               (Z.to_nat (Z.min (nm_neighbor_count net)
                  (Z.of_nat (length (available_neighbors net i)))))).
  destruct (Z.ltb_spec 0 (Z.min (nm_neighbor_count net)
             (Z.of_nat (length (available_neighbors net i))))) as [Hpos | Hle].
  - destruct (Hs i (available_neighbors net i)
                (Z.to_nat (Z.min (nm_neighbor_count net)
                   (Z.of_nat (length (available_neighbors net i))))))
      as (Hnd & Hlen & Hin).
    + apply NoDup_filter, NoDup_seq.
    + lia.
    + fold ks in Hnd, Hlen, Hin.
      assert (Hks : forall k, k ∈ ks ->
        (k < length (nm_nodes net))%nat /\ k <> i /\ k ∉ neighbors_of net i).
      { intros k Hk. apply Hin in Hk. unfold available_neighbors in Hk.
        apply list_elem_of_filter in Hk as [[H1 H2] H3].
        apply elem_of_seq in H3. split; [lia | tauto]. }
      destruct (connect_all_topology_ok i ks net Hok Hi) as (H1 & H2 & H3).
      { apply Forall_forall. intros k Hk. apply (Hks k Hk). }
      destruct (connect_all_degree i ks net Hok Hi Hnd Hks) as [H4 H5].
      split; [exact H1 | split; [exact H2 | split; [exact H3 | split; [exact H5 |]]]].
      rewrite H4, Hlen. lia.
  - split; [exact Hok | split; [reflexivity | split; [reflexivity |]]].
    split; [intros j; lia | lia].
Qed.

Lemma connect_nodes_invariant
    (sample : nat -> list nat -> nat -> list nat) (order : list nat)
    (net : NetworkManager) :
  is_sample sample ->
  topology_ok net ->
  Forall (fun i => (i < length (nm_nodes net))%nat) order ->
  topology_ok (fold_left (connect_node sample) order net)
  /\ length (nm_nodes (fold_left (connect_node sample) order net))
     = length (nm_nodes net)
  /\ (forall j, (length (neighbors_of net j)
                 <= length (neighbors_of
                              (fold_left (connect_node sample) order net) j))%nat)
  /\ (forall i, i ∈ order ->
       (Z.min (nm_neighbor_count net) (Z.of_nat (length (nm_nodes net)) - 1)
        <= Z.of_nat (length (neighbors_of
                               (fold_left (connect_node sample) order net) i)))%Z).
Proof.
  intros Hs. revert net.
  induction order as [| i order IH]; intros net Hok Hord; cbn [fold_left].
  - split; [exact Hok | split; [reflexivity | split; [intros; lia |]]].
    intros i Hi. inversion Hi.
  - apply Forall_cons in Hord as [Hi Hord].
    destruct (connect_node_invariant sample net i Hs Hok Hi)
      as (H1 & H2 & H3 & H4 & H5).
    destruct (IH (connect_node sample net i) H1) as (I1 & I2 & I3 & I4).
    { rewrite H2. exact Hord. }
    split; [exact I1 | split; [congruence | split]].
    + intros j. etransitivity; [apply H4 | apply I3].
    + intros i' Hi'. apply elem_of_cons in Hi' as [-> | Hi'].
      * specialize (I3 i). lia.
      * specialize (I4 i' Hi'). rewrite H2, H3 in I4. exact I4.
Qed.


Lemma first_sample_is_sample : is_sample first_sample.
Proof.
  intros i population n Hnd Hn. unfold first_sample.
  split; [| split].
  - exact (sublist_NoDup _ _ Hnd (sublist_take population n)).
  - apply length_take_le. exact Hn.
  - intros k Hk. eapply subseteq_take. exact Hk.
Qed.

Lemma new_nodes_topology_ok
    (node_count neighbor_count : Z) (stats : NetworkStats) (ids : list string) :
  topology_ok
    {| nm_node_count := node_count; nm_neighbor_count := neighbor_count;
       nm_network_stats := stats; nm_nodes := map new_node ids |}.
Proof.
  intros i Hi. unfold neighbors_of. cbn [nm_nodes] in *.
  rewrite list_lookup_fmap.
  destruct (ids !! i); cbn;
    (split; [apply NoDup_nil; exact I | split; [apply not_elem_of_nil |]]);
    intros k Hk; inversion Hk.
Qed.

Lemma _create_network_nodes
    (node_count neighbor_count : Z) (stats : NetworkStats) :
  {| nm_node_count := node_count; nm_neighbor_count := neighbor_count;
     nm_network_stats := stats;
     nm_nodes := map (fun i : nat => new_node ("node_" +:+ pretty i))
                     (seq 0 (Z.to_nat node_count)) |}
  = {| nm_node_count := node_count; nm_neighbor_count := neighbor_count;
       nm_network_stats := stats;
       nm_nodes := map new_node
                     (map (fun i : nat => "node_" +:+ pretty i)
                          (seq 0 (Z.to_nat node_count))) |}.
Proof. rewrite map_map. reflexivity. Qed.

(** X12.  [_connect_nodes] builds an undirected graph.  On a network whose
    links are mutual, without self-loops and without repeated neighbours,
    the links are still so afterwards, whatever [random.sample] draws, and
    no node is added or lost.  So the network that [NetworkManager] builds
    has [node_count] nodes linked in that way. *)
Theorem _connect_nodes_topology
    (sample : nat -> list nat -> nat -> list nat) :
  is_sample sample ->
  (forall net, topology_ok net ->
     topology_ok (_connect_nodes sample net)
     /\ length (nm_nodes (_connect_nodes sample net)) = length (nm_nodes net))
  /\ (forall node_count neighbor_count stats,
        topology_ok (_create_network sample node_count neighbor_count stats)
        /\ length (nm_nodes
                     (_create_network sample node_count neighbor_count stats))
           = Z.to_nat node_count).
Proof.
  intros Hs.
  assert (Hgen : forall net, topology_ok net ->
     topology_ok (_connect_nodes sample net)
     /\ length (nm_nodes (_connect_nodes sample net)) = length (nm_nodes net)).
  { intros net Hok. unfold _connect_nodes.
    destruct (connect_nodes_invariant sample (seq 0 (length (nm_nodes net))) net
                Hs Hok) as (H1 & H2 & _).
    - apply Forall_forall. intros i Hi. apply elem_of_seq in Hi. lia.
    - split; assumption. }
  split; [exact Hgen |].
  intros node_count neighbor_count stats. unfold _create_network.
  rewrite _create_network_nodes.
  destruct (Hgen _ (new_nodes_topology_ok node_count neighbor_count stats
                      (map (fun i : nat => "node_" +:+ pretty i)
                           (seq 0 (Z.to_nat node_count))))) as [H1 H2].
  split; [exact H1 |]. rewrite H2. cbn [nm_nodes].
  rewrite !length_map, length_seq. reflexivity.
Qed.

Lemma _connect_nodes_topology_witness :
  is_sample first_sample
  /\ topology_ok (_create_network first_sample 3 1 empty_network_stats)
  /\ length (nm_nodes (_create_network first_sample 3 1 empty_network_stats))
     = 3%nat.
Proof.
  split; [exact first_sample_is_sample |].
  exact (proj2 (_connect_nodes_topology first_sample first_sample_is_sample)
           3%Z 1%Z empty_network_stats).
Defined.

(** X13.  After [_connect_nodes] every node has at least [neighbor_count]
    neighbours, or all the other nodes when there are fewer than that: the
    configured number is a lower bound of a node's degree (the links other
    nodes draw come on top).  It holds in particular of every node of the
    network that [NetworkManager] builds. *)
Theorem _connect_nodes_degree
    (sample : nat -> list nat -> nat -> list nat) :
  is_sample sample ->
  (forall net i, topology_ok net ->
     (i < length (nm_nodes net))%nat ->
     (Z.min (nm_neighbor_count net) (Z.of_nat (length (nm_nodes net)) - 1)
      <= Z.of_nat (length (neighbors_of (_connect_nodes sample net) i)))%Z)
  /\ (forall node_count neighbor_count stats i,
        (Z.of_nat i < node_count)%Z ->
        (Z.min neighbor_count (node_count - 1)
         <= Z.of_nat
              (length (neighbors_of
                 (_create_network sample node_count neighbor_count stats) i)))%Z).
Proof.
  intros Hs.
  assert (Hgen : forall net i, topology_ok net ->
     (i < length (nm_nodes net))%nat ->
     (Z.min (nm_neighbor_count net) (Z.of_nat (length (nm_nodes net)) - 1)
      <= Z.of_nat (length (neighbors_of (_connect_nodes sample net) i)))%Z).
  { intros net i Hok Hi. unfold _connect_nodes.
    destruct (connect_nodes_invariant sample (seq 0 (length (nm_nodes net))) net
                Hs Hok) as (_ & _ & _ & H).
    - apply Forall_forall. intros j Hj. apply elem_of_seq in Hj. lia.
    - apply H. apply elem_of_seq. lia. }
  split; [exact Hgen |].
  intros node_count neighbor_count stats i Hi. unfold _create_network.
  rewrite _create_network_nodes.
  pose proof (Hgen _ i (new_nodes_topology_ok node_count neighbor_count stats
                      (map (fun i : nat => "node_" +:+ pretty i)
                           (seq 0 (Z.to_nat node_count))))) as H.
  cbn [nm_nodes nm_neighbor_count] in H.
  rewrite !length_map, length_seq in H.
  rewrite Z2Nat.id in H by lia. apply H. lia.
Qed.

Lemma _connect_nodes_degree_witness :
  is_sample first_sample
  /\ (Z.of_nat 2 < 3)%Z
  /\ (Z.min 1 (3 - 1)
      <= Z.of_nat (length (neighbors_of
           (_create_network first_sample 3 1 empty_network_stats) 2)))%Z.
Proof.
  split; [exact first_sample_is_sample |].
  split; [lia |].
  apply (proj2 (_connect_nodes_degree first_sample first_sample_is_sample)
           3%Z 1%Z empty_network_stats 2%nat).
  lia.
Defined.

(** ** models.py: the statistics are those of the run *)

Lemma sum_Z_cons (x : Z) (l : list Z) : sum_Z (x :: l) = (x + sum_Z l)%Z.
Proof. reflexivity. Qed.

Lemma float_mean_step_nonneg (average propagation_time : Q) (n : Z) :
  0 <= average -> 0 <= propagation_time -> (1 <= n)%Z ->
  0 <= float_div
         (float_add (float_mul average (float_of_int (n - 1))) propagation_time)
         (float_of_int n).
Proof.
  intros Ha Ht Hn. unfold float_div, float_add, float_mul.
  pose proof (float_of_int_nonneg (n - 1) ltac:(lia)) as Hk.
  pose proof (float_of_int_nonneg n ltac:(lia)) as Hn'.
  apply round64_nonneg. unfold Qdiv.
  apply Qmult_le_0_compat; [| apply Qinv_le_0_compat; exact Hn'].
  apply round64_nonneg.
  pose proof (round64_nonneg (average * float_of_int (n - 1))
                (Qmult_le_0_compat _ _ Ha Hk)) as H.
  lra.
Qed.

(** X14.  Starting from fresh statistics, after any number of
    [update_propagation_stats] calls both counters are the number of
    calls and the data volume is the sum of the block sizes, while the
    transaction counter, the latency and the loss rate are never touched.
    The average is the propagation time after one call, is never negative
    when no propagation time is, and is the running mean as the floats
    give it, not the exact mean: six propagations of [0.1] seconds, the
    delay [_broadcast_block] reports, leave 0.09999999999999999. *)
Theorem propagation_stats_of_run (updates : list (Z * Q)) :
  ns_total_blocks_propagated
    (F64.record_propagations empty_network_stats updates)
    = N.of_nat (length updates)
  /\ ns_total_io_requests (F64.record_propagations empty_network_stats updates)
    = N.of_nat (length updates)
  /\ ns_total_network_data (F64.record_propagations empty_network_stats updates)
    = sum_Z (map fst updates)
  /\ (ns_total_transactions_propagated
        (F64.record_propagations empty_network_stats updates) = 0%N
      /\ ns_network_latency
           (F64.record_propagations empty_network_stats updates) = 0
      /\ ns_packet_loss_rate
           (F64.record_propagations empty_network_stats updates) = 0)
  /\ (forall block_size propagation_time,
        ns_average_propagation_time
          (F64.record_propagations empty_network_stats
             [(block_size, propagation_time)])
        = propagation_time)
  /\ (Forall (fun u => 0 <= snd u) updates ->
      0 <= ns_average_propagation_time
             (F64.record_propagations empty_network_stats updates))
  /\ (ns_average_propagation_time
        (F64.record_propagations empty_network_stats
           (repeat (1024%Z, round64 (1 # 10)) 6))
      == 7205759403792793 # 72057594037927936
      /\ round64 (1 # 10) == 3602879701896397 # 36028797018963968).
Proof.
  assert (Hgen : forall updates st,
    ns_total_blocks_propagated (F64.record_propagations st updates)
      = (ns_total_blocks_propagated st + N.of_nat (length updates))%N
    /\ ns_total_io_requests (F64.record_propagations st updates)
      = (ns_total_io_requests st + N.of_nat (length updates))%N
    /\ ns_total_network_data (F64.record_propagations st updates)
      = (ns_total_network_data st + sum_Z (map fst updates))%Z
    /\ ns_total_transactions_propagated (F64.record_propagations st updates)
      = ns_total_transactions_propagated st
    /\ ns_network_latency (F64.record_propagations st updates)
      = ns_network_latency st
    /\ ns_packet_loss_rate (F64.record_propagations st updates)
      = ns_packet_loss_rate st
    /\ (0 <= ns_average_propagation_time st ->
        Forall (fun u => 0 <= snd u) updates ->
        0 <= ns_average_propagation_time (F64.record_propagations st updates))).
  { clear updates. intros updates.
    induction updates as [| [sz t] rest IH]; intros st.
    - cbn [F64.record_propagations fold_left length map].
      repeat split; try reflexivity; try (cbn; lia). intros H _. exact H.
    - destruct (IH (F64.update_propagation_stats st sz t))
        as (H1 & H2 & H3 & H4 & H5 & H6 & H7).
      unfold F64.record_propagations in *. cbn [fold_left fst snd].
      rewrite H1, H2, H3, H4, H5, H6.
      cbn [F64.update_propagation_stats ns_total_blocks_propagated
           ns_total_io_requests ns_total_network_data
           ns_total_transactions_propagated ns_network_latency
           ns_packet_loss_rate length map fst].
      rewrite sum_Z_cons, Nat2N.inj_succ.
      split; [lia | split; [lia | split; [lia |]]].
      split; [reflexivity | split; [reflexivity | split; [reflexivity |]]].
      intros Havg Hall. apply Forall_cons in Hall as [Ht Hall]. cbn [snd] in Ht.
      apply H7; [| exact Hall].
      cbn [F64.update_propagation_stats ns_average_propagation_time].
      destruct (_ =? 1)%N; [exact Ht |].
      apply float_mean_step_nonneg; [exact Havg | exact Ht | lia]. }
  destruct (Hgen updates empty_network_stats)
    as (H1 & H2 & H3 & H4 & H5 & H6 & H7).
  cbn [empty_network_stats ns_total_blocks_propagated ns_total_io_requests
       ns_total_network_data ns_total_transactions_propagated
       ns_network_latency ns_packet_loss_rate ns_average_propagation_time]
    in H1, H2, H3, H4, H5, H6, H7.
  rewrite N.add_0_l in H1, H2. rewrite Z.add_0_l in H3.
  split; [exact H1 | split; [exact H2 | split; [exact H3 |]]].
  split; [split; [exact H4 | split; [exact H5 | exact H6]] |].
  split; [intros sz t; reflexivity |].
  split; [apply H7; apply Qle_refl |].
  split; vm_compute; reflexivity.
Qed.

Lemma update_mining_stats_per_miner
    (st : MiningStats) (miner_id m : string) (mining_time difficulty : Q) :
  ms_blocks_per_miner (update_mining_stats st miner_id mining_time difficulty)
    !! m
  = if decide (m = miner_id)
    then Some (default 0%N (ms_blocks_per_miner st !! miner_id) + 1)%N
    else ms_blocks_per_miner st !! m.
Proof.
  unfold update_mining_stats. cbn [ms_blocks_per_miner].
  destruct (ms_blocks_per_miner st !! miner_id) as [c |] eqn:Hc.
  - rewrite Hc. destruct (decide (m = miner_id)) as [-> | Hne].
    + rewrite lookup_insert_eq. reflexivity.
    + rewrite lookup_insert_ne by congruence. reflexivity.
  - rewrite lookup_insert_eq. destruct (decide (m = miner_id)) as [-> | Hne].
    + rewrite lookup_insert_eq. reflexivity.
    + rewrite !lookup_insert_ne by congruence. reflexivity.
Qed.

Lemma record_minings_invariant
    (updates : list (string * Q * Q)) (st : MiningStats) (m : string) :
  ms_total_blocks_mined (record_minings st updates)
    = (ms_total_blocks_mined st + N.of_nat (length updates))%N
  /\ ms_total_mining_time (record_minings st updates)
     == ms_total_mining_time st + sum_Q (map (fun u => snd (fst u)) updates)
  /\ (updates <> [] ->
      ms_average_mining_time (record_minings st updates)
      = ms_total_mining_time (record_minings st updates)
        / inject_Z (Z.of_N (ms_total_blocks_mined (record_minings st updates))))
  /\ ms_blocks_per_miner (record_minings st updates) !! m
     = if decide (mined_by m updates = 0%nat)
       then ms_blocks_per_miner st !! m
       else Some (default 0%N (ms_blocks_per_miner st !! m)
                  + N.of_nat (mined_by m updates))%N.
Proof.
  revert st. induction updates as [| [[mid t] d] rest IH]; intros st.
  - cbn [record_minings fold_left length map sum_Q fold_right mined_by filter].
    split; [lia | split; [ring | split; [congruence | reflexivity]]].
  - destruct (IH (update_mining_stats st mid t d)) as (H1 & H2 & H3 & H4).
    unfold record_minings in *. cbn [fold_left fst snd].
    split; [| split; [| split]].
    + rewrite H1. cbn [length]. rewrite Nat2N.inj_succ.
      change (ms_total_blocks_mined (update_mining_stats st mid t d))
        with (ms_total_blocks_mined st + 1)%N. lia.
    + rewrite H2. cbn [map fst snd sum_Q fold_right].
      change (ms_total_mining_time (update_mining_stats st mid t d))
        with (ms_total_mining_time st + t).
      fold (sum_Q (map (fun u : string * Q * Q => snd (fst u)) rest)). ring.
    + intros _. destruct rest as [| u rest'].
      * reflexivity.
      * apply H3. discriminate.
    + rewrite H4, update_mining_stats_per_miner. clear H1 H2 H3 H4 IH.
      unfold mined_by.
      destruct (decide (m = mid)) as [-> | Hne].
      * rewrite filter_cons_True by reflexivity.
        cbn [length].
        rewrite (decide_False (P := S _ = 0%nat)) by lia.
        case_decide as Hz.
        -- rewrite Hz. reflexivity.
        -- cbn [default]. rewrite Nat2N.inj_succ. f_equal.
           rewrite N.add_succ_r, <- N.add_succ_l, <- N.add_1_r. reflexivity.
      * rewrite filter_cons_False by (cbn [fst]; congruence).
        reflexivity.
Qed.


(** ** network.py: what the report counts *)

Lemma sum_Z_insert {A : Type} (f : A -> Z) (l : list A) (i : nat) (x y : A) :
  l !! i = Some x ->
  sum_Z (map f (<[i := y]> l)) = (sum_Z (map f l) - f x + f y)%Z.
Proof.
  revert i. induction l as [| z l IH]; intros i Hx; [discriminate Hx |].
  destruct i as [| i].
  - injection Hx as ->. cbn [insert list_insert map]. rewrite !sum_Z_cons. lia.
  - change (<[S i := y]> (z :: l)) with (z :: <[i := y]> l).
    cbn [map]. rewrite !sum_Z_cons, (IH i Hx). lia.
Qed.

Lemma store_block_report
    (net : NetworkManager) (i : nat) (block : Block) (nd : BlockchainNode) :
  nm_nodes net !! i = Some nd ->
  get_network_stats (snd (store_block net i block))
  = if decide (b_block_id block ∈ n_stored_blocks nd)
    then get_network_stats net
    else {| nr_node_count := nr_node_count (get_network_stats net);
            nr_total_connections :=
              nr_total_connections (get_network_stats net) + nm_node_count net;
            nr_total_blocks_stored :=
              nr_total_blocks_stored (get_network_stats net) + 1;
            nr_total_pending_transactions :=
              nr_total_pending_transactions (get_network_stats net);
            nr_average_neighbors :=
              nr_average_neighbors (get_network_stats net) |}.
Proof.
  intros Hnd. destruct (decide (b_block_id block ∈ n_stored_blocks nd)) as [Hin | Hin].
  - rewrite (store_block_held net i block nd Hnd Hin). reflexivity.
  - rewrite (store_block_new net i block nd Hnd Hin). cbn [snd].
    unfold get_network_stats.
    cbn [nm_nodes nm_node_count nr_node_count nr_total_connections
         nr_total_blocks_stored nr_total_pending_transactions
         nr_average_neighbors].
    rewrite !(sum_Z_insert _ _ _ _ _ Hnd), length_insert.
    assert (E1 : get_neighbor_count
                   (set_stored_blocks nd ({[b_block_id block]} ∪ n_stored_blocks nd))
                 = get_neighbor_count nd) by reflexivity.
    assert (E2 : node_get_pending_transaction_count
                   (set_stored_blocks nd ({[b_block_id block]} ∪ n_stored_blocks nd))
                 = node_get_pending_transaction_count nd) by reflexivity.
    assert (E3 : get_stored_block_count
                   (set_stored_blocks nd ({[b_block_id block]} ∪ n_stored_blocks nd))
                 = (get_stored_block_count nd + 1)%Z).
    { unfold get_stored_block_count, set_stored_blocks. cbn [n_stored_blocks].
      rewrite size_union by set_solver. rewrite size_singleton. lia. }
    rewrite E1, E2, E3.
    replace (sum_Z (map get_neighbor_count (nm_nodes net))
             - get_neighbor_count nd + get_neighbor_count nd)%Z
      with (sum_Z (map get_neighbor_count (nm_nodes net))) by lia.
    replace (sum_Z (map node_get_pending_transaction_count (nm_nodes net))
             - node_get_pending_transaction_count nd
             + node_get_pending_transaction_count nd)%Z
      with (sum_Z (map node_get_pending_transaction_count (nm_nodes net)))
      by lia.
    replace (sum_Z (map get_stored_block_count (nm_nodes net))
             - get_stored_block_count nd + (get_stored_block_count nd + 1))%Z
      with (sum_Z (map get_stored_block_count (nm_nodes net)) + 1)%Z by lia.
    f_equal.
    + lia.
    + destruct (nm_nodes net) as [| n0 rest] eqn:Hn; [discriminate Hnd |].
      destruct i; reflexivity.
Qed.

Lemma broadcast_block_report_step
    (net : NetworkManager) (choice : nat) (block : Block) :
  nm_node_count (broadcast_block net choice block) = nm_node_count net
  /\ nr_node_count (get_network_stats (broadcast_block net choice block))
     = nr_node_count (get_network_stats net)
  /\ nr_total_pending_transactions
       (get_network_stats (broadcast_block net choice block))
     = nr_total_pending_transactions (get_network_stats net)
  /\ nr_average_neighbors (get_network_stats (broadcast_block net choice block))
     = nr_average_neighbors (get_network_stats net)
  /\ (nr_total_blocks_stored (get_network_stats net)
      <= nr_total_blocks_stored
           (get_network_stats (broadcast_block net choice block))
      <= nr_total_blocks_stored (get_network_stats net) + 1)%Z.
Proof.
  destruct (nm_nodes net !! choice) as [nd |] eqn:Hnd.
  - rewrite (broadcast_block_store net choice block nd Hnd).
    rewrite (store_block_report net choice block nd Hnd).
    split.
    { unfold store_block. rewrite Hnd. case_decide; reflexivity. }
    case_decide; cbn [nr_node_count nr_total_pending_transactions
                      nr_average_neighbors nr_total_blocks_stored];
      repeat split; lia.
  - assert (E : broadcast_block net choice block = net).
    { unfold broadcast_block, store_block. rewrite Hnd.
      destruct (nm_nodes net); reflexivity. }
    rewrite E. repeat split; lia.
Qed.

(** X16.  A block broadcast to a node that does not hold it adds one
    stored copy to the whole network, however many nodes and links there
    are, and [node_count] to the entry reported as ['total_connections'];
    the other entries of the report stay as they were. *)
Theorem broadcast_block_report
    (net : NetworkManager) (choice : nat) (block : Block)
    (nd : BlockchainNode) :
  nm_nodes net !! choice = Some nd ->
  b_block_id block ∉ n_stored_blocks nd ->
  nr_total_blocks_stored (get_network_stats (broadcast_block net choice block))
    = (nr_total_blocks_stored (get_network_stats net) + 1)%Z
  /\ nr_total_connections
       (get_network_stats (broadcast_block net choice block))
     = (nr_total_connections (get_network_stats net) + nm_node_count net)%Z
  /\ nr_total_pending_transactions
       (get_network_stats (broadcast_block net choice block))
     = nr_total_pending_transactions (get_network_stats net)
  /\ nr_average_neighbors (get_network_stats (broadcast_block net choice block))
     = nr_average_neighbors (get_network_stats net)
  /\ nr_node_count (get_network_stats (broadcast_block net choice block))
     = nr_node_count (get_network_stats net).
Proof.
  intros Hnd Hin.
  rewrite (broadcast_block_store net choice block nd Hnd).
  rewrite (store_block_report net choice block nd Hnd).
  rewrite decide_False by exact Hin.
  repeat split.
Qed.

Lemma broadcast_block_report_witness :
  nm_nodes two_node_network !! 0%nat = Some node_0
  /\ (b_block_id (example_block 600 1) ∉ n_stored_blocks node_0)
  /\ nr_total_blocks_stored
       (get_network_stats
          (broadcast_block two_node_network 0 (example_block 600 1)))
     = (nr_total_blocks_stored (get_network_stats two_node_network) + 1)%Z.
Proof.
  assert (H1 : nm_nodes two_node_network !! 0%nat = Some node_0) by reflexivity.
  assert (H2 : b_block_id (example_block 600 1) ∉ n_stored_blocks node_0)
    by (cbn [node_0 n_stored_blocks]; apply not_elem_of_empty).
  split; [exact H1 | split; [exact H2 |]].
  exact (proj1 (broadcast_block_report two_node_network 0
                  (example_block 600 1) node_0 H1 H2)).
Defined.

(** X17.  Broadcasting never replicates: after any run of
    [broadcast_block] calls the number of stored copies in the whole
    network grew by at most one per call, the entry reported as
    ['total_connections'] is that number times [node_count], and the
    pending transactions, the average and the node count of the report are
    those of the start. *)
Theorem broadcast_blocks_report
    (net : NetworkManager) (broadcasts : list (nat * Block)) :
  (nr_total_blocks_stored (get_network_stats net)
   <= nr_total_blocks_stored (get_network_stats (broadcast_blocks net broadcasts))
   <= nr_total_blocks_stored (get_network_stats net)
      + Z.of_nat (length broadcasts))%Z
  /\ nr_total_connections (get_network_stats (broadcast_blocks net broadcasts))
     = (nr_total_blocks_stored
          (get_network_stats (broadcast_blocks net broadcasts))
        * nm_node_count net)%Z
  /\ nr_total_pending_transactions
       (get_network_stats (broadcast_blocks net broadcasts))
     = nr_total_pending_transactions (get_network_stats net)
  /\ nr_average_neighbors (get_network_stats (broadcast_blocks net broadcasts))
     = nr_average_neighbors (get_network_stats net)
  /\ nr_node_count (get_network_stats (broadcast_blocks net broadcasts))
     = nr_node_count (get_network_stats net).
Proof.
  assert (Hgen : forall broadcasts net,
    nm_node_count (broadcast_blocks net broadcasts) = nm_node_count net
    /\ (nr_total_blocks_stored (get_network_stats net)
        <= nr_total_blocks_stored
             (get_network_stats (broadcast_blocks net broadcasts))
        <= nr_total_blocks_stored (get_network_stats net)
           + Z.of_nat (length broadcasts))%Z
    /\ nr_total_pending_transactions
         (get_network_stats (broadcast_blocks net broadcasts))
       = nr_total_pending_transactions (get_network_stats net)
    /\ nr_average_neighbors
         (get_network_stats (broadcast_blocks net broadcasts))
       = nr_average_neighbors (get_network_stats net)
    /\ nr_node_count (get_network_stats (broadcast_blocks net broadcasts))
       = nr_node_count (get_network_stats net)).
  { clear. intros broadcasts.
    induction broadcasts as [| [c b] rest IH]; intros net.
    - cbn [broadcast_blocks fold_left length]. repeat split; lia.
    - destruct (broadcast_block_report_step net c b) as (S0 & S1 & S2 & S3 & S4).
      destruct (IH (broadcast_block net c b)) as (I0 & I1 & I2 & I3 & I4).
      unfold broadcast_blocks in *. cbn [fold_left fst snd length].
      rewrite I0, I2, I3, I4.
      split; [exact S0 | split; [lia | split; [exact S2 | split; [exact S3 | exact S1]]]]. }
  destruct (Hgen broadcasts net) as (H0 & H1 & H2 & H3 & H4).
  split; [exact H1 | split; [| split; [exact H2 | split; [exact H3 | exact H4]]]].
  unfold get_network_stats at 1.
  cbn [nr_total_connections]. rewrite H0. reflexivity.
Qed.

Lemma pop_while_take_drop
    (pool : list Transaction) (count max_count : Z)
    (transactions : list Transaction) :
  pop_while pool count max_count transactions
  = (transactions ++ take (Z.to_nat (max_count - count)) pool,
     drop (Z.to_nat (max_count - count)) pool).
Proof.
  revert count transactions.
  induction pool as [| tx rest IH]; intros count transactions;
    cbn [pop_while].
  - rewrite take_nil, drop_nil, app_nil_r. reflexivity.
  - destruct (Z.ltb_spec count max_count) as [Hlt | Hge].
    + rewrite IH.
      replace (Z.to_nat (max_count - count))
        with (S (Z.to_nat (max_count - (count + 1)))) by lia.
      cbn [take drop]. rewrite <- app_assoc. reflexivity.
    + replace (Z.to_nat (max_count - count)) with 0%nat by lia.
      rewrite take_0, drop_0, app_nil_r. reflexivity.
Qed.

(** X18.  A broadcast transaction reaches every node: after
    [broadcast_transaction] each node holds it at the tail of its pool and
    the report counts one more pending transaction per node, while the
    stored blocks are untouched.  A node's pool is a queue:
    [get_transactions] returns its first [max_count] transactions in the
    order of arrival and keeps the rest, so a node asked for its whole pool
    after the broadcast returns the old pool followed by the new
    transaction. *)
Theorem broadcast_transaction_reaches_every_node
    (net : NetworkManager) (transaction : Transaction) :
  (forall j nd, nm_nodes net !! j = Some nd ->
     nm_nodes (broadcast_transaction net transaction) !! j
       = Some (node_add_transaction nd transaction)
     /\ fst (node_get_transactions (node_add_transaction nd transaction)
               (Z.of_nat (length (n_unconfirmed_transactions nd)) + 1))
        = n_unconfirmed_transactions nd ++ [transaction])
  /\ (forall nd max_count,
        fst (node_get_transactions nd max_count)
          = take (Z.to_nat max_count) (n_unconfirmed_transactions nd)
        /\ n_unconfirmed_transactions (snd (node_get_transactions nd max_count))
          = drop (Z.to_nat max_count) (n_unconfirmed_transactions nd))
  /\ nr_total_pending_transactions
       (get_network_stats (broadcast_transaction net transaction))
     = (nr_total_pending_transactions (get_network_stats net)
        + Z.of_nat (length (nm_nodes net)))%Z
  /\ nr_total_blocks_stored
       (get_network_stats (broadcast_transaction net transaction))
     = nr_total_blocks_stored (get_network_stats net).
Proof.
  assert (Hget : forall nd max_count,
        fst (node_get_transactions nd max_count)
          = take (Z.to_nat max_count) (n_unconfirmed_transactions nd)
        /\ n_unconfirmed_transactions (snd (node_get_transactions nd max_count))
          = drop (Z.to_nat max_count) (n_unconfirmed_transactions nd)).
  { intros nd max_count. unfold node_get_transactions.
    rewrite pop_while_take_drop, Z.sub_0_r. split; reflexivity. }
  split; [| split; [exact Hget | split]].
  - intros j nd Hnd. split.
    + unfold broadcast_transaction. cbn [set_nodes nm_nodes].
      rewrite list_lookup_fmap, Hnd. reflexivity.
    + rewrite (proj1 (Hget _ _)). cbn [node_add_transaction n_unconfirmed_transactions].
      apply take_ge. rewrite length_app. cbn [length]. lia.
  - unfold get_network_stats, broadcast_transaction.
    cbn [set_nodes nm_nodes nr_total_pending_transactions].
    induction (nm_nodes net) as [| nd rest IH]; [reflexivity |].
    cbn [map length]. rewrite !sum_Z_cons, IH.
    unfold node_get_pending_transaction_count, node_add_transaction.
    cbn [n_unconfirmed_transactions]. rewrite length_app. cbn [length]. lia.
  - unfold get_network_stats, broadcast_transaction.
    cbn [set_nodes nm_nodes nr_total_blocks_stored].
    induction (nm_nodes net) as [| nd rest IH]; [reflexivity |].
    cbn [map]. rewrite !sum_Z_cons, IH. reflexivity.
Qed.

(** ** wallet.py: balances *)

Lemma subtract_balance_no_fee (w : Wallet) (amount : Q) :
  Qle_bool amount (w_balance w) = true ->
  fst (subtract_balance w amount 0) = true
  /\ w_balance (snd (subtract_balance w amount 0)) == w_balance w - amount
  /\ w_wallet_id (snd (subtract_balance w amount 0)) = w_wallet_id w.
Proof.
  intros H. apply Qle_bool_iff in H. unfold subtract_balance.
  assert (H' : Qle_bool (amount + 0) (w_balance w) = true)
    by (apply Qle_bool_iff; lra).
  rewrite H'. cbn [fst snd w_balance w_wallet_id].
  split; [reflexivity | split; [ring | reflexivity]].
Qed.



Lemma add_mining_reward_balance (wm : WalletManager) (miner_id k : string)
    (amount : Q) :
  get_wallet_balance (add_mining_reward wm miner_id amount) k
  == if decide (k = miner_id) then get_wallet_balance wm k + amount
     else get_wallet_balance wm k.
Proof.
  unfold add_mining_reward, get_wallet_balance.
  destruct (decide (k = miner_id)) as [-> | Hne].
  - destruct (wm_wallets wm !! miner_id) as [w |];
      cbn [set_wallets wm_wallets]; rewrite lookup_insert_eq;
      cbn [add_balance new_wallet w_balance]; ring.
  - destruct (wm_wallets wm !! miner_id) as [w |];
      cbn [set_wallets wm_wallets]; rewrite lookup_insert_ne by congruence;
      reflexivity.
Qed.


(** X21.  Creating a wallet and destroying it again gives the manager
    back: [simulate_wallet_destruction] undoes [simulate_wallet_creation]
    of a wallet that did not exist.  Creating a wallet that exists changes
    nothing (its balance is not reset), and a destroyed wallet reads as
    balance zero. *)
Theorem simulate_wallet_creation_destruction
    (wm : WalletManager) (wallet_id : string) (initial_balance : Q) :
  (wm_wallets wm !! wallet_id = None ->
     simulate_wallet_destruction
       (simulate_wallet_creation wm wallet_id initial_balance) wallet_id = wm
     /\ get_wallet_balance
          (simulate_wallet_creation wm wallet_id initial_balance) wallet_id
        = initial_balance)
  /\ (is_Some (wm_wallets wm !! wallet_id) ->
      simulate_wallet_creation wm wallet_id initial_balance = wm)
  /\ get_wallet_balance (simulate_wallet_destruction wm wallet_id) wallet_id = 0
  /\ (forall k, k <> wallet_id ->
        wm_wallets (simulate_wallet_destruction wm wallet_id) !! k
          = wm_wallets wm !! k
        /\ wm_wallets (simulate_wallet_creation wm wallet_id initial_balance) !! k
          = wm_wallets wm !! k).
Proof.
  split; [| split; [| split]].
  - intros Hnone. unfold simulate_wallet_creation. rewrite Hnone.
    unfold simulate_wallet_destruction, get_wallet_balance.
    cbn [set_wallets wm_wallets]. rewrite lookup_insert_eq.
    split; [| reflexivity].
    cbn [set_wallets wm_wallets wm_wallet_count wm_transaction_count
         wm_interval wm_running wm_fee_calculator wm_network_congestion
         wm_block_utilization].
    rewrite delete_insert_eq, delete_id by exact Hnone.
    destruct wm; reflexivity.
  - intros [w Hw]. unfold simulate_wallet_creation. rewrite Hw. reflexivity.
  - unfold simulate_wallet_destruction, get_wallet_balance.
    destruct (wm_wallets wm !! wallet_id) as [w |] eqn:Hw.
    + cbn [set_wallets wm_wallets]. rewrite lookup_delete_eq. reflexivity.
    + rewrite Hw. reflexivity.
  - intros k Hk. unfold simulate_wallet_destruction, simulate_wallet_creation.
    destruct (wm_wallets wm !! wallet_id) as [w |] eqn:Hw;
      cbn [set_wallets wm_wallets];
      rewrite ?lookup_delete_ne, ?lookup_insert_ne by congruence;
      split; reflexivity.
Qed.

Lemma process_confirmed_transaction_balance
    (wm : WalletManager) (tx : Transaction) (k : string) :
  is_Some (wm_wallets (fst (process_confirmed_transaction wm tx)) !! k)
    <-> is_Some (wm_wallets wm !! k).
Proof.
  unfold process_confirmed_transaction. cbn [fst].
  destruct (wm_wallets wm !! tx_recipient tx) as [w |] eqn:Hw; [| reflexivity].
  cbn [set_wallets wm_wallets].
  destruct (decide (k = tx_recipient tx)) as [-> | Hne].
  - rewrite lookup_insert_eq, Hw. split; intros _; eauto.
  - rewrite lookup_insert_ne by congruence. reflexivity.
Qed.


(** ** wallet.py: the wallets of a manager *)

Lemma wallet_name_inj (i j : Z) : wallet_name i = wallet_name j -> i = j.
Proof.
  unfold wallet_name. intros H. apply (inj (String.append "wallet_")) in H.
  apply (inj pretty) in H. exact H.
Qed.

Lemma create_wallets_lookup
    (uniform : Z -> Q) (l : list Z) (wm : WalletManager) (j : Z) :
  wm_wallet_count (fold_left (create_wallet uniform) l wm) = wm_wallet_count wm
  /\ wm_wallets (fold_left (create_wallet uniform) l wm) !! wallet_name j
     = if decide (j ∈ l)
       then Some (new_wallet (wallet_name j)
                    (initial_balance_of uniform (wm_wallet_count wm) j))
       else wm_wallets wm !! wallet_name j.
Proof.
  revert wm. induction l as [| i l IH]; intros wm; cbn [fold_left].
  - split; [reflexivity |]. rewrite decide_False by apply not_elem_of_nil.
    reflexivity.
  - destruct (IH (create_wallet uniform wm i)) as [Hc Hl].
    rewrite Hc, Hl. cbn [create_wallet set_wallets wm_wallet_count wm_wallets].
    split; [reflexivity |].
    destruct (decide (j ∈ l)) as [Hin | Hin].
    + rewrite decide_True by (right; exact Hin). reflexivity.
    + destruct (decide (j = i)) as [-> | Hne].
      * rewrite decide_True by left. rewrite lookup_insert_eq. reflexivity.
      * rewrite decide_False
          by (intros H; apply elem_of_cons in H as [? | ?]; contradiction).
        rewrite lookup_insert_ne; [reflexivity |].
        intros H. apply wallet_name_inj in H. congruence.
Qed.

Lemma create_wallets_size
    (uniform : Z -> Q) (l : list Z) (wm : WalletManager) :
  NoDup l ->
  (forall i, i ∈ l -> wm_wallets wm !! wallet_name i = None) ->
  size (wm_wallets (fold_left (create_wallet uniform) l wm))
  = (size (wm_wallets wm) + length l)%nat.
Proof.
  revert wm. induction l as [| i l IH]; intros wm Hnd Hnew; cbn [fold_left length].
  - lia.
  - apply NoDup_cons in Hnd as [Hi Hnd]. rewrite IH.
    + cbn [create_wallet set_wallets wm_wallets].
      rewrite map_size_insert_None by (apply Hnew; left). lia.
    + exact Hnd.
    + intros k Hk. cbn [create_wallet set_wallets wm_wallets].
      rewrite lookup_insert_ne.
      * apply Hnew. right. exact Hk.
      * intros H. apply wallet_name_inj in H. congruence.
Qed.

Lemma WalletManager_init_size
    (uniform : Z -> Q) (wallet_count transaction_count : Z) (interval : Q) :
  size (wm_wallets
          (WalletManager_init uniform wallet_count transaction_count interval))
    = Z.to_nat wallet_count
  /\ wm_running
       (WalletManager_init uniform wallet_count transaction_count interval)
     = false
  /\ wm_transaction_count
       (WalletManager_init uniform wallet_count transaction_count interval)
     = transaction_count.
Proof.
  unfold WalletManager_init, _create_wallets. cbn [wm_wallet_count].
  split; [| split].
  - rewrite create_wallets_size.
    + cbn [wm_wallets]. rewrite map_size_empty, length_seqZ. lia.
    + apply NoDup_seqZ.
    + intros i _. apply lookup_empty.
  - induction (seqZ 0 wallet_count) as [| i l IH] using rev_ind; [reflexivity |].
    rewrite fold_left_app. cbn [fold_left create_wallet set_wallets wm_running].
    exact IH.
  - induction (seqZ 0 wallet_count) as [| i l IH] using rev_ind; [reflexivity |].
    rewrite fold_left_app.
    cbn [fold_left create_wallet set_wallets wm_transaction_count].
    exact IH.
Qed.

(** X23.  The manager starts with the wallets [wallet_0] ..
    [wallet_(wallet_count - 1)] and no other: [wallet_count] of them, the
    first [wallet_count // 2] funded with their draw and the others empty
    (a single wallet is therefore never funded), all with counters at
    zero; it is not running and holds the default network conditions. *)
Theorem WalletManager_init_wallets
    (uniform : Z -> Q) (wallet_count transaction_count : Z) (interval : Q) :
  size (wm_wallets
          (WalletManager_init uniform wallet_count transaction_count interval))
    = Z.to_nat wallet_count
  /\ (forall i,
        wm_wallets
          (WalletManager_init uniform wallet_count transaction_count interval)
          !! wallet_name i
        = if decide (0 <= i < wallet_count)%Z
          then Some (new_wallet (wallet_name i)
                       (if (i <? wallet_count / 2)%Z then uniform i else 0))
          else None)
  /\ wm_running
       (WalletManager_init uniform wallet_count transaction_count interval)
     = false
  /\ wm_transaction_count
       (WalletManager_init uniform wallet_count transaction_count interval)
     = transaction_count
  /\ get_wallet_balance
       (WalletManager_init uniform 1 transaction_count interval)
       (wallet_name 0) = 0.
Proof.
  destruct (WalletManager_init_size uniform wallet_count transaction_count
              interval) as (S1 & S2 & S3).
  split; [exact S1 | split; [| split; [exact S2 | split; [exact S3 |]]]].
  - intros i. unfold WalletManager_init, _create_wallets.
    cbn [wm_wallet_count].
    match goal with
    | |- context [fold_left _ _ ?wm0] =>
        destruct (create_wallets_lookup uniform (seqZ 0 wallet_count) wm0 i)
          as [_ Hl]
    end.
    rewrite Hl. cbn [wm_wallet_count wm_wallets].
    destruct (decide (i ∈ seqZ 0 wallet_count)) as [Hin | Hin];
      rewrite elem_of_seqZ in Hin.
    + rewrite decide_True by lia. reflexivity.
    + rewrite decide_False by lia. apply lookup_empty.
  - reflexivity.
Qed.

(** X24.  When generation starts on a manager that is not running and is
    to produce transactions, the callback receives
    [len(wallets) * transaction_count] transactions with pairwise
    different ids [tx_0], [tx_1], ...; each is sent by a wallet index
    within the wallets, [transaction_count] consecutive ones per index, to
    the next index (cyclically, so a lone wallet pays itself), with amount
    1 and fee 0.01, and is pending.  The manager is running afterwards,
    its wallets untouched: no balance was checked or debited.  A manager
    that is already running, or whose [transaction_count] is not positive,
    produces nothing. *)
Theorem start_transaction_generation_spec
    (now : Z -> Q) (wm : WalletManager) :
  (wm_running wm = false -> (0 < wm_transaction_count wm)%Z ->
     length (fst (start_transaction_generation now wm))
       = (size (wm_wallets wm) * Z.to_nat (wm_transaction_count wm))%nat
     /\ NoDup (map tx_id (fst (start_transaction_generation now wm)))
     /\ (forall i : nat,
           (i < size (wm_wallets wm) * Z.to_nat (wm_transaction_count wm))%nat ->
           exists tx k,
             fst (start_transaction_generation now wm) !! i = Some tx
             /\ k = (Z.of_nat i / wm_transaction_count wm)%Z
             /\ (0 <= k < Z.of_nat (size (wm_wallets wm)))%Z
             /\ tx_id tx = "tx_" +:+ pretty (Z.of_nat i)
             /\ tx_sender tx = wallet_name k
             /\ tx_recipient tx
                = wallet_name ((k + 1) mod Z.of_nat (size (wm_wallets wm)))%Z
             /\ tx_amount tx = 1 /\ tx_fee tx = 1 # 100
             /\ tx_status_of tx = pending))
  /\ wm_wallets (snd (start_transaction_generation now wm)) = wm_wallets wm
  /\ wm_running (snd (start_transaction_generation now wm)) = true
  /\ start_transaction_generation now
       (snd (start_transaction_generation now wm))
     = ([], snd (start_transaction_generation now wm))
  /\ ((wm_transaction_count wm <= 0)%Z ->
      fst (start_transaction_generation now wm) = []).
Proof.
  split; [| split; [| split; [| split]]].
  - intros Hrun Htc. unfold start_transaction_generation. rewrite Hrun.
    destruct (Z.leb_spec (wm_transaction_count wm) 0) as [Hle | _]; [lia |].
    cbn [fst]. split; [| split].
    + rewrite length_map, length_seqZ. lia.
    + rewrite map_map. apply NoDup_fmap_2; [| apply NoDup_seqZ].
      intros i j H. cbn [generated_transaction tx_id] in H.
      apply (inj (String.append "tx_")) in H. apply (inj pretty) in H. exact H.
    + intros i Hi.
      exists (generated_transaction now wm (Z.of_nat i)),
             (Z.of_nat i / wm_transaction_count wm)%Z.
      split.
      { rewrite list_lookup_fmap, lookup_seqZ_lt by lia. reflexivity. }
      split; [reflexivity |]. split.
      { split; [apply Z.div_pos; lia |].
        apply Z.div_lt_upper_bound; [lia |]. nia. }
      repeat split.
  - unfold start_transaction_generation.
    destruct (wm_running wm); [reflexivity |].
    destruct (wm_transaction_count wm <=? 0)%Z; reflexivity.
  - unfold start_transaction_generation.
    destruct (wm_running wm) eqn:Hrun; [exact Hrun |].
    destruct (wm_transaction_count wm <=? 0)%Z; reflexivity.
  - unfold start_transaction_generation at 2 3.
    destruct (wm_running wm) eqn:Hrun.
    + unfold start_transaction_generation. cbn [snd]. rewrite Hrun. reflexivity.
    + destruct (wm_transaction_count wm <=? 0)%Z; reflexivity.
  - intros Hle. unfold start_transaction_generation.
    destruct (wm_running wm); [reflexivity |].
    destruct (Z.leb_spec (wm_transaction_count wm) 0) as [_ | Hlt];
      [reflexivity | lia].
Qed.

Lemma start_transaction_generation_spec_witness :
  wm_running (WalletManager_init (fun _ : Z => 10%Q) 2 3 1) = false
  /\ (0 < wm_transaction_count (WalletManager_init (fun _ : Z => 10%Q) 2 3 1))%Z
  /\ length (fst (start_transaction_generation (fun _ : Z => 0%Q)
                    (WalletManager_init (fun _ : Z => 10%Q) 2 3 1)))
     = (size (wm_wallets (WalletManager_init (fun _ : Z => 10%Q) 2 3 1))
        * Z.to_nat (wm_transaction_count
                      (WalletManager_init (fun _ : Z => 10%Q) 2 3 1)))%nat.
Proof.
  assert (H1 : wm_running (WalletManager_init (fun _ : Z => 10%Q) 2 3 1) = false)
    by reflexivity.
  assert (H2 : (0 < wm_transaction_count
                      (WalletManager_init (fun _ : Z => 10%Q) 2 3 1))%Z)
    by (vm_compute; reflexivity).
  split; [exact H1 | split; [exact H2 |]].
  exact (proj1 (proj1 (start_transaction_generation_spec (fun _ : Z => 0%Q)
                         (WalletManager_init (fun _ : Z => 10%Q) 2 3 1)) H1 H2)).
Defined.

(** ** simulator.py: the transactions reach the pool *)

Lemma fold_on_transaction_created
    (transactions : list Transaction) (mm : MiningManager)
    (net : NetworkManager) :
  fold_left _on_transaction_created transactions (mm, net)
  = (fold_left add_transaction transactions mm,
     fold_left broadcast_transaction transactions net).
Proof.
  revert mm net. induction transactions as [| tx rest IH]; intros mm net.
  - reflexivity.
  - cbn [fold_left]. unfold _on_transaction_created at 2. cbn [fst snd].
    apply IH.
Qed.

Lemma add_transactions_pool
    (transactions : list Transaction) (mm : MiningManager) :
  mm_transaction_pool (fold_left add_transaction transactions mm)
    = mm_transaction_pool mm ++ transactions
  /\ mm_blocks (fold_left add_transaction transactions mm) = mm_blocks mm.
Proof.
  revert mm. induction transactions as [| tx rest IH]; intros mm;
    cbn [fold_left].
  - rewrite app_nil_r. split; reflexivity.
  - destruct (IH (add_transaction mm tx)) as [H1 H2]. rewrite H1, H2.
    unfold add_transaction, set_transaction_pool.
    cbn [mm_transaction_pool mm_blocks]. rewrite <- app_assoc.
    split; reflexivity.
Qed.

Lemma broadcast_transaction_pending
    (net : NetworkManager) (transaction : Transaction) :
  length (nm_nodes (broadcast_transaction net transaction))
    = length (nm_nodes net)
  /\ nr_total_pending_transactions
       (get_network_stats (broadcast_transaction net transaction))
     = (nr_total_pending_transactions (get_network_stats net)
        + Z.of_nat (length (nm_nodes net)))%Z.
Proof.
  unfold get_network_stats, broadcast_transaction.
  cbn [set_nodes nm_nodes nr_total_pending_transactions].
  split; [apply length_map |].
  induction (nm_nodes net) as [| nd rest IH]; [reflexivity |].
  cbn [map length]. rewrite !sum_Z_cons, IH.
  unfold node_get_pending_transaction_count, node_add_transaction.
  cbn [n_unconfirmed_transactions]. rewrite length_app. cbn [length]. lia.
Qed.

Lemma broadcast_transactions_pending
    (transactions : list Transaction) (net : NetworkManager) :
  length (nm_nodes (fold_left broadcast_transaction transactions net))
    = length (nm_nodes net)
  /\ nr_total_pending_transactions
       (get_network_stats (fold_left broadcast_transaction transactions net))
     = (nr_total_pending_transactions (get_network_stats net)
        + Z.of_nat (length (nm_nodes net))
          * Z.of_nat (length transactions))%Z.
Proof.
  revert net. induction transactions as [| tx rest IH]; intros net;
    cbn [fold_left length].
  - split; [reflexivity | lia].
  - destruct (IH (broadcast_transaction net tx)) as [H1 H2].
    destruct (broadcast_transaction_pending net tx) as [B1 B2].
    rewrite H1, H2, B1, B2. split; [reflexivity | lia].
Qed.

(** X25.  The transaction part of [start]: on a wallet manager that is
    not running and has transactions to produce, every generated
    transaction reaches the mining pool, in the order of generation and
    behind what was pending, and every node of the network; the pool grows
    by [len(wallets) * transaction_count] and no block is touched.  With
    the wallets of a fresh manager the pool of a fresh run therefore holds
    the [wallets * transactions] transactions that [start] expects. *)
Theorem generate_all_transactions_pool
    (now : Z -> Q) (wm : WalletManager) (mm : MiningManager)
    (net : NetworkManager) :
  wm_running wm = false ->
  (0 < wm_transaction_count wm)%Z ->
  mm_transaction_pool (snd (fst (generate_all_transactions now wm mm net)))
    = mm_transaction_pool mm ++ fst (start_transaction_generation now wm)
  /\ get_pending_transaction_count
       (snd (fst (generate_all_transactions now wm mm net)))
     = (get_pending_transaction_count mm
        + Z.of_nat (size (wm_wallets wm)) * wm_transaction_count wm)%Z
  /\ mm_blocks (snd (fst (generate_all_transactions now wm mm net)))
     = mm_blocks mm
  /\ nr_total_pending_transactions
       (get_network_stats (snd (generate_all_transactions now wm mm net)))
     = (nr_total_pending_transactions (get_network_stats net)
        + Z.of_nat (length (nm_nodes net))
          * (Z.of_nat (size (wm_wallets wm)) * wm_transaction_count wm))%Z
  /\ (forall uniform wallet_count interval,
        (0 <= wallet_count)%Z ->
        mm_transaction_pool mm = [] ->
        get_pending_transaction_count
          (snd (fst (generate_all_transactions now
             (WalletManager_init uniform wallet_count
                (wm_transaction_count wm) interval) mm net)))
        = (wallet_count * wm_transaction_count wm)%Z).
Proof.
  intros Hrun Htc.
  assert (Hgen : forall wm0, wm_running wm0 = false ->
    (0 < wm_transaction_count wm0)%Z ->
    mm_transaction_pool (snd (fst (generate_all_transactions now wm0 mm net)))
      = mm_transaction_pool mm ++ fst (start_transaction_generation now wm0)
    /\ mm_blocks (snd (fst (generate_all_transactions now wm0 mm net)))
       = mm_blocks mm
    /\ length (fst (start_transaction_generation now wm0))
       = Z.to_nat (Z.of_nat (size (wm_wallets wm0)) * wm_transaction_count wm0)
    /\ nr_total_pending_transactions
         (get_network_stats (snd (generate_all_transactions now wm0 mm net)))
       = (nr_total_pending_transactions (get_network_stats net)
          + Z.of_nat (length (nm_nodes net))
            * Z.of_nat (length (fst (start_transaction_generation now wm0))))%Z).
  { intros wm0 Hrun0 Htc0. unfold generate_all_transactions.
    destruct (start_transaction_generation now wm0) as [txs wm1] eqn:Hstart.
    rewrite fold_on_transaction_created. cbn [fst snd].
    destruct (add_transactions_pool txs mm) as [P1 P2].
    destruct (broadcast_transactions_pending txs net) as [_ B2].
    split; [exact P1 | split; [exact P2 | split; [| exact B2]]].
    unfold start_transaction_generation in Hstart. rewrite Hrun0 in Hstart.
    destruct (Z.leb_spec (wm_transaction_count wm0) 0) as [Hle | _]; [lia |].
    injection Hstart as <- _. rewrite length_map, length_seqZ. reflexivity. }
  destruct (Hgen wm Hrun Htc) as (G1 & G2 & G3 & G4).
  split; [exact G1 | split; [| split; [exact G2 | split]]].
  - unfold get_pending_transaction_count. rewrite G1, length_app, G3. lia.
  - rewrite G4, G3. rewrite Z2Nat.id by lia. reflexivity.
  - intros uniform wallet_count interval Hwc Hpool.
    destruct (WalletManager_init_size uniform wallet_count
                (wm_transaction_count wm) interval) as (S1 & S2 & S3).
    destruct (Hgen (WalletManager_init uniform wallet_count
                      (wm_transaction_count wm) interval))
      as (I1 & _ & I3 & _).
    + exact S2.
    + rewrite S3. exact Htc.
    + unfold get_pending_transaction_count.
      rewrite I1, Hpool, app_nil_l, I3, S1, S3. lia.
Qed.

Lemma generate_all_transactions_pool_witness :
  wm_running (WalletManager_init (fun _ : Z => 10%Q) 2 3 1) = false
  /\ (0 < wm_transaction_count
            (WalletManager_init (fun _ : Z => 10%Q) 2 3 1))%Z
  /\ mm_blocks
       (snd (fst (generate_all_transactions (fun _ : Z => 0%Q)
          (WalletManager_init (fun _ : Z => 10%Q) 2 3 1)
          queue_engine two_node_network)))
     = mm_blocks queue_engine.
Proof.
  assert (H1 : wm_running (WalletManager_init (fun _ : Z => 10%Q) 2 3 1)
               = false) by reflexivity.
  assert (H2 : (0 < wm_transaction_count
                      (WalletManager_init (fun _ : Z => 10%Q) 2 3 1))%Z)
    by (vm_compute; reflexivity).
  split; [exact H1 | split; [exact H2 |]].
  exact (proj1 (proj2 (proj2
           (generate_all_transactions_pool (fun _ : Z => 0%Q)
              (WalletManager_init (fun _ : Z => 10%Q) 2 3 1)
              queue_engine two_node_network H1 H2)))).
Defined.

(** ** mining.py: what a mined block adds to the counters *)

Lemma submit_block_miner_stats
    (mm mm' : MiningManager) (block : Block) (miner_id : string) :
  submit_block mm block miner_id = Returned true mm' ->
  mm_miners mm'
    = mm_miners (record_miner_stats (set_chain_tip mm block) block miner_id)
  /\ mm_mining_stats mm'
     = mm_mining_stats
         (record_miner_stats (set_chain_tip mm block) block miner_id).
Proof.
  intros H. apply submit_block_returned_true in H.
  cbv zeta in H. destruct H as (_ & mm3 & Hadj & ->).
  set (mm2 := record_miner_stats (set_chain_tip mm block) block miner_id) in *.
  assert (H3 : mm_miners mm3 = mm_miners mm2
               /\ mm_mining_stats mm3 = mm_mining_stats mm2).
  { destruct (_ && _) in Hadj.
    - unfold _adjust_difficulty in Hadj.
      destruct (_ <? _)%Z in Hadj; [injection Hadj as <-; auto |].
      destruct (Qeq_bool _ 0) in Hadj; [discriminate Hadj |].
      injection Hadj as <-. auto.
    - injection Hadj as <-. auto. }
  destruct (_ && _ && _); exact H3.
Qed.



(** ** Network conditions stay within range *)

Lemma Qdiv_nonneg (a b : Q) : 0 <= a -> 0 < b -> 0 <= a / b.
Proof.
  intros Ha Hb. apply Qle_shift_div_l; [exact Hb |]. lra.
Qed.

Lemma sum_Z_nonneg (l : list Z) :
  Forall (fun x => (0 <= x)%Z) l -> (0 <= sum_Z l)%Z.
Proof.
  induction 1 as [| x l Hx _ IH]; [reflexivity |].
  rewrite sum_Z_cons. lia.
Qed.

Lemma inject_Z_nonneg (z : Z) : (0 <= z)%Z -> 0 <= inject_Z z.
Proof. intros H. change 0 with (inject_Z 0). rewrite <- Zle_Qle. exact H. Qed.

Lemma inject_Z_pos (z : Z) : (0 < z)%Z -> 0 < inject_Z z.
Proof. intros H. change 0 with (inject_Z 0). rewrite <- Zlt_Qlt. exact H. Qed.

(** X27.  The network conditions are fractions.  The congestion that
    [_update_network_conditions] derives from the pool is within [[0, 1]]
    and the wallet manager stores it as it is; the block utilization is at
    most 1, and not negative when the recent blocks do not report negative
    transaction counts; the manager and its fee calculator hold the same
    utilization, clamped to [[0, 1]]; the wallets are not touched. *)
Theorem _update_network_conditions_range
    (config : SimulationConfig) (mm : MiningManager) (wm : WalletManager) :
  (0 <= fst (fst (_update_network_conditions config mm wm))
   /\ fst (fst (_update_network_conditions config mm wm)) <= 1)
  /\ snd (fst (_update_network_conditions config mm wm)) <= 1
  /\ (Forall (fun b => (0 <= b_transaction_count b)%Z) (mm_blocks mm) ->
      0 <= snd (fst (_update_network_conditions config mm wm)))
  /\ wm_network_congestion (snd (_update_network_conditions config mm wm))
     == fst (fst (_update_network_conditions config mm wm))
  /\ (0 <= wm_block_utilization (snd (_update_network_conditions config mm wm))
      /\ wm_block_utilization (snd (_update_network_conditions config mm wm))
         <= 1)
  /\ fc_block_utilization
       (wm_fee_calculator (snd (_update_network_conditions config mm wm)))
     = wm_block_utilization (snd (_update_network_conditions config mm wm))
  /\ wm_wallets (snd (_update_network_conditions config mm wm)) = wm_wallets wm.
Proof.
  unfold _update_network_conditions. cbv zeta. cbn [fst snd].
  set (c := if (0 <? cfg_blocksize config)%Z then _ else 0).
  set (u := match recent_blocks (mm_blocks mm) with [] => _ | _ => _ end).
  assert (Hc : 0 <= c /\ c <= 1).
  { subst c. destruct (Z.ltb_spec 0 (cfg_blocksize config)) as [Hpos | _];
      [| split; lra].
    assert (H0 : 0 <= inject_Z (get_pending_transaction_count mm)
                      / inject_Z (cfg_blocksize config * 2)).
    { apply Qdiv_nonneg.
      - apply inject_Z_nonneg. unfold get_pending_transaction_count. lia.
      - apply inject_Z_pos. lia. }
    py_cases; split; lra. }
  assert (Hu : u <= 1).
  { subst u. destruct (recent_blocks (mm_blocks mm)); [lra |].
    destruct (0 <? cfg_blocksize config)%Z; [| lra]. py_cases; lra. }
  assert (Hu0 : Forall (fun b => (0 <= b_transaction_count b)%Z) (mm_blocks mm)
                -> 0 <= u).
  { intros Hall. subst u.
    assert (Hrec : Forall (fun b => (0 <= b_transaction_count b)%Z)
                     (recent_blocks (mm_blocks mm))).
    { unfold recent_blocks. apply Forall_drop. exact Hall. }
    destruct (recent_blocks (mm_blocks mm)) as [| b rest] eqn:Hr; [lra |].
    destruct (Z.ltb_spec 0 (cfg_blocksize config)) as [Hpos | _]; [| lra].
    assert (H0 : 0 <= inject_Z (sum_Z (map b_transaction_count (b :: rest)))
                      / inject_Z (Z.of_nat (length (b :: rest)))
                      / inject_Z (cfg_blocksize config)).
    { apply Qdiv_nonneg; [apply Qdiv_nonneg |].
      - apply inject_Z_nonneg, sum_Z_nonneg.
        apply Forall_fmap. exact Hrec.
      - apply inject_Z_pos. cbn [length]. lia.
      - apply inject_Z_pos. exact Hpos. }
    py_cases; lra. }
  cbn [wm_update_network_conditions wm_network_congestion wm_block_utilization
       wm_fee_calculator wm_wallets update_network_conditions
       fc_block_utilization].
  split; [exact Hc | split; [exact Hu | split; [exact Hu0 |]]].
  split; [| split; [| split; reflexivity]].
  - destruct Hc as [Hc0 Hc1]. py_cases; lra.
  - apply clamp_hi_first. lra.
Qed.

(** ** wallet.py: the fee grows with the amount and the congestion *)

Lemma fee_calculator_after_utilization (updates : list (Q * Q)) :
  0 <= fc_block_utilization (fee_calculator_after updates)
  /\ fc_block_utilization (fee_calculator_after updates) <= 1.
Proof.
  unfold fee_calculator_after.
  induction updates as [| [c u] rest _] using rev_ind.
  - cbn. split; unfold Qle; simpl; lia.
  - rewrite fold_left_app. cbn [fold_left fst snd update_network_conditions
                                fc_block_utilization].
    apply clamp_hi_first. lra.
Qed.

Lemma priority_multiplier_positive (priority : string) :
  0 < default 1 (priority_multipliers !! priority).
Proof.
  rewrite priority_multipliers_lookup. unfold priorityMultiplier.
  repeat (destruct (String.eqb priority _); [cbn; reflexivity |]).
  cbn. reflexivity.
Qed.

Lemma py_clamp_monotone (lo hi x y : Q) :
  x <= y -> py_max lo (py_min x hi) <= py_max lo (py_min y hi).
Proof. intros H. py_cases; lra. Qed.

Lemma calculate_fee_le
    (updates : list (Q * Q)) (priority : string) (a1 a2 c1 c2 : Q) :
  0 <= a1 -> a1 <= a2 -> 0 <= c1 -> c1 <= c2 ->
  calculate_fee (fee_calculator_after updates) a1 priority c1
  <= calculate_fee (fee_calculator_after updates) a2 priority c2.
Proof.
  intros Ha1 Ha Hc1 Hc.
  destruct (fee_calculator_after_constants updates) as (Hrate & Hmin & Hmax).
  destruct (fee_calculator_after_utilization updates) as [Hu0 Hu1].
  pose proof (priority_multiplier_positive priority) as Hp.
  unfold calculate_fee. rewrite Hrate, Hmin, Hmax.
  apply py_clamp_monotone.
  set (p := default 1 (priority_multipliers !! priority)) in *.
  set (u := fc_block_utilization (fee_calculator_after updates)) in *.
  assert (Hk : 0 <= TRANSACTION_CONFIG_fee_rate * p * (1 + u * (1 # 2))).
  { apply Qmult_le_0_compat; [apply Qmult_le_0_compat |]; try lra.
    unfold TRANSACTION_CONFIG_fee_rate, Qle. simpl. lia. }
  assert (H1 : a1 * (1 + c1 * 2) <= a2 * (1 + c2 * 2)).
  { apply Qle_trans with (a2 * (1 + c1 * 2)).
    - apply Qmult_le_compat_r; lra.
    - rewrite !(Qmult_comm a2). apply Qmult_le_compat_r; lra. }
  assert (E1 : a1 * TRANSACTION_CONFIG_fee_rate * p * (1 + c1 * 2)
               * (1 + u * (1 # 2))
               == a1 * (1 + c1 * 2)
                  * (TRANSACTION_CONFIG_fee_rate * p * (1 + u * (1 # 2))))
    by ring.
  assert (E2 : a2 * TRANSACTION_CONFIG_fee_rate * p * (1 + c2 * 2)
               * (1 + u * (1 # 2))
               == a2 * (1 + c2 * 2)
                  * (TRANSACTION_CONFIG_fee_rate * p * (1 + u * (1 # 2))))
    by ring.
  rewrite E1, E2. apply Qmult_le_compat_r; assumption.
Qed.

(** X28.  The fee never falls when the transaction gets larger or the
    network busier: for a non-negative amount and congestion and whatever
    conditions were pushed into the calculator, [calculate_fee] is monotone
    in the amount and in the congestion.  The five estimates of
    [get_fee_estimate], for 0%, 25%, 50%, 75% and 100% congestion in that
    order, are therefore in ascending order. *)
Theorem calculate_fee_monotone
    (updates : list (Q * Q)) (priority : string) (a1 a2 c1 c2 : Q) :
  0 <= a1 -> a1 <= a2 -> 0 <= c1 -> c1 <= c2 ->
  calculate_fee (fee_calculator_after updates) a1 priority c1
  <= calculate_fee (fee_calculator_after updates) a2 priority c2
  /\ map fst (get_fee_estimate (fee_calculator_after updates) a1 priority)
     = ["0%_congestion"; "25%_congestion"; "50%_congestion";
        "75%_congestion"; "100%_congestion"]
  /\ forall i j x y,
       (i <= j)%nat ->
       map snd (get_fee_estimate (fee_calculator_after updates) a1 priority)
         !! i = Some x ->
       map snd (get_fee_estimate (fee_calculator_after updates) a1 priority)
         !! j = Some y ->
       x <= y.
Proof.
  intros Ha1 Ha Hc1 Hc.
  split; [apply calculate_fee_le; assumption | split; [reflexivity |]].
  intros i j x y Hij Hx Hy. unfold get_fee_estimate in Hx, Hy.
  cbn [map fst snd] in Hx, Hy.
  destruct i as [| [| [| [| [| i]]]]]; cbn in Hx; try discriminate Hx;
    injection Hx as <-;
    destruct j as [| [| [| [| [| j]]]]]; cbn in Hy; try discriminate Hy;
    injection Hy as <-; try lia;
    apply calculate_fee_le; try exact Ha1; try apply Qle_refl;
    unfold Qle; simpl; lia.
Qed.

Lemma calculate_fee_monotone_witness :
  0 <= 1 /\ 1 <= 2 /\ 0 <= 0 /\ 0 <= 1 # 2
  /\ calculate_fee (fee_calculator_after []) 1 "normal" 0
     <= calculate_fee (fee_calculator_after []) 2 "normal" (1 # 2).
Proof.
  assert (H1 : 0 <= 1) by lra.
  assert (H2 : 1 <= 2) by lra.
  assert (H3 : 0 <= 0) by lra.
  assert (H4 : 0 <= 1 # 2) by lra.
  split; [exact H1 | split; [exact H2 | split; [exact H3 | split; [exact H4 |]]]].
  exact (proj1 (calculate_fee_monotone [] "normal" 1 2 0 (1 # 2) H1 H2 H3 H4)).
Defined.

(** ** config.py: the configuration of a run *)

Lemma seconds_per_year_exact :
  float_of_int (365 * 24 * 60 * 60) == inject_Z 31536000.
Proof. vm_compute. reflexivity. Qed.

Lemma py_int_nonneg (x : Q) : 0 <= x -> (0 <= py_int x)%Z.
Proof.
  intros Hx. unfold py_int. apply Qle_bool_iff in Hx as Hb. rewrite Hb.
  change 0%Z with (Qfloor 0). apply Qfloor_resp_le. exact Hx.
Qed.

Lemma from_args_blocks_exact (blocktime years : Q) :
  0 < blocktime -> 0 <= years ->
  representable (inject_Z 31536000 / blocktime) ->
  representable (inject_Z 31536000 / blocktime * years) ->
  inject_Z (py_int (float_mul
              (float_div (float_of_int (365 * 24 * 60 * 60)) blocktime) years))
    * blocktime <= inject_Z 31536000 * years
  /\ inject_Z 31536000 * years
     < (inject_Z (py_int (float_mul
              (float_div (float_of_int (365 * 24 * 60 * 60)) blocktime) years))
        + 1) * blocktime.
Proof.
  intros Htime Hyears [Hq _] [Hp _].
  unfold float_div.
  rewrite (round64_compat
             (float_of_int (365 * 24 * 60 * 60) / blocktime)
             (inject_Z 31536000 / blocktime))
    by (rewrite seconds_per_year_exact; reflexivity).
  unfold float_mul.
  rewrite (round64_compat
             (round64 (inject_Z 31536000 / blocktime) * years)
             (inject_Z 31536000 / blocktime * years))
    by (rewrite Hq; reflexivity).
  set (x := inject_Z 31536000 / blocktime * years) in *.
  assert (Ex : x * blocktime == inject_Z 31536000 * years)
    by (subst x; field; lra).
  assert (Hx : 0 <= x).
  { subst x. apply Qmult_le_0_compat; [| exact Hyears].
    apply Qle_shift_div_l; [exact Htime |]. rewrite Qmult_0_l.
    unfold Qle. simpl. lia. }
  assert (Epy : py_int (round64 x) = Qfloor x).
  { unfold py_int. rewrite (Qfloor_comp _ _ Hp), (Qceiling_comp _ _ Hp).
    assert (Hb : Qle_bool 0 (round64 x) = true)
      by (apply Qle_bool_iff; rewrite Hp; exact Hx).
    rewrite Hb. reflexivity. }
  rewrite Epy.
  pose proof (Qfloor_le x) as Hlo. pose proof (Qlt_floor x) as Hhi.
  rewrite inject_Z_plus in Hhi. change (inject_Z 1) with 1 in Hhi.
  rewrite <- Ex. split.
  - apply Qmult_le_compat_r; lra.
  - apply Qmult_lt_compat_r; lra.
Qed.



(** ** network.py: partitions *)

Lemma remove_first_absent (k : nat) (l : list nat) :
  (k ∉ l) -> remove_first k l = l.
Proof.
  induction l as [| x rest IH]; intros Hk; cbn [remove_first]; [reflexivity |].
  apply not_elem_of_cons in Hk as [Hne Hk].
  rewrite decide_False by congruence. rewrite IH by exact Hk. reflexivity.
Qed.

Lemma remove_first_NoDup (k : nat) (l : list nat) :
  NoDup l -> NoDup (remove_first k l).
Proof.
  induction l as [| x rest IH]; intros Hnd; cbn [remove_first]; [exact Hnd |].
  apply NoDup_cons in Hnd as [Hx Hrest].
  case_decide; [exact Hrest |].
  apply NoDup_cons. split; [| apply IH; exact Hrest].
  rewrite (remove_first_elem k x rest Hrest). tauto.
Qed.

Lemma remove_neighbor_length (net : NetworkManager) (i k : nat) :
  length (nm_nodes (remove_neighbor net i k)) = length (nm_nodes net).
Proof.
  unfold remove_neighbor. destruct (nm_nodes net !! i); [| reflexivity].
  case_decide; [| reflexivity]. cbn [set_nodes nm_nodes]. apply length_insert.
Qed.

Lemma neighbors_of_remove_neighbor (net : NetworkManager) (i k j : nat) :
  neighbors_of (remove_neighbor net i k) j
  = if decide (j = i) then remove_first k (neighbors_of net i)
    else neighbors_of net j.
Proof.
  unfold remove_neighbor, neighbors_of.
  destruct (nm_nodes net !! i) as [nd |] eqn:Hnd.
  - apply lookup_lt_Some in Hnd as Hlt.
    destruct (decide (k ∈ n_neighbors nd)) as [Hin | Hin].
    + cbn [set_nodes nm_nodes]. destruct (decide (j = i)) as [-> | Hne].
      * rewrite list_lookup_insert_eq by exact Hlt. reflexivity.
      * rewrite list_lookup_insert_ne by congruence. reflexivity.
    + destruct (decide (j = i)) as [-> | Hne]; [| reflexivity].
      rewrite Hnd, remove_first_absent by exact Hin. reflexivity.
  - destruct (decide (j = i)) as [-> | Hne]; [| reflexivity].
    rewrite Hnd. reflexivity.
Qed.

Lemma disconnect_links (net : NetworkManager) (p o : nat) :
  (forall j, NoDup (neighbors_of net j)) ->
  (forall j, NoDup (neighbors_of (disconnect net p o) j))
  /\ length (nm_nodes (disconnect net p o)) = length (nm_nodes net)
  /\ forall j x,
       x ∈ neighbors_of (disconnect net p o) j
       <-> x ∈ neighbors_of net j
           /\ ~ (j = p /\ x = o) /\ ~ (j = o /\ x = p).
Proof.
  intros Hnd. unfold disconnect. split; [| split].
  - intros j. rewrite !neighbors_of_remove_neighbor.
    repeat case_decide; subst; repeat apply remove_first_NoDup; try apply Hnd.
  - rewrite !remove_neighbor_length. reflexivity.
  - intros j x. rewrite !neighbors_of_remove_neighbor.
    destruct (decide (j = o)) as [-> | Hjo].
    + destruct (decide (o = p)) as [-> | Hop].
      * rewrite (remove_first_elem p x _ (remove_first_NoDup p _ (Hnd p))).
        rewrite (remove_first_elem p x _ (Hnd p)). tauto.
      * rewrite (remove_first_elem p x _ (Hnd o)). split.
        -- intros [H1 H2]. split; [exact H1 |]. split; intros [? ?]; congruence.
        -- intros (H1 & _ & H3). split; [exact H1 |]. intros ->. tauto.
    + destruct (decide (j = p)) as [-> | Hjp].
      * rewrite (remove_first_elem o x _ (Hnd p)). split.
        -- intros [H1 H2]. split; [exact H1 |]. split; intros [? ?]; congruence.
        -- intros (H1 & H2 & _). split; [exact H1 |]. intros ->. tauto.
      * split; [| tauto]. intros H. split; [exact H |].
        split; intros [? ?]; congruence.
Qed.

Lemma cut_links_links
    (partition_nodes other_nodes : list nat) (net : NetworkManager) :
  (forall j, NoDup (neighbors_of net j)) ->
  (forall j, NoDup (neighbors_of (cut_links net partition_nodes other_nodes) j))
  /\ length (nm_nodes (cut_links net partition_nodes other_nodes))
     = length (nm_nodes net)
  /\ forall j x,
       x ∈ neighbors_of (cut_links net partition_nodes other_nodes) j
       <-> x ∈ neighbors_of net j
           /\ ~ (j ∈ partition_nodes /\ x ∈ other_nodes)
           /\ ~ (j ∈ other_nodes /\ x ∈ partition_nodes).
Proof.
  assert (Hinner : forall p os net0,
    (forall j, NoDup (neighbors_of net0 j)) ->
    (forall j, NoDup (neighbors_of
                        (fold_left (fun net o => disconnect net p o) os net0) j))
    /\ length (nm_nodes (fold_left (fun net o => disconnect net p o) os net0))
       = length (nm_nodes net0)
    /\ forall j x,
         x ∈ neighbors_of (fold_left (fun net o => disconnect net p o) os net0) j
         <-> x ∈ neighbors_of net0 j
             /\ ~ (j = p /\ x ∈ os) /\ ~ (j ∈ os /\ x = p)).
  { intros p os. induction os as [| o os IH]; intros net0 Hnd; cbn [fold_left].
    - split; [exact Hnd | split; [reflexivity |]]. intros j x.
      split; [| tauto]. intros H. split; [exact H |].
      split; [intros [_ H'] | intros [H' _]]; inversion H'.
    - destruct (disconnect_links net0 p o Hnd) as (D1 & D2 & D3).
      destruct (IH _ D1) as (I1 & I2 & I3).
      split; [exact I1 | split; [congruence |]].
      intros j x. rewrite I3, D3, !elem_of_cons. tauto. }
  revert net. induction partition_nodes as [| p ps IH]; intros net Hnd;
    unfold cut_links in *; cbn [fold_left].
  - split; [exact Hnd | split; [reflexivity |]]. intros j x.
    split; [| tauto]. intros H. split; [exact H |].
    split; intros [H1 H2]; [inversion H1 | inversion H2].
  - destruct (Hinner p other_nodes net Hnd) as (D1 & D2 & D3).
    destruct (IH _ D1) as (I1 & I2 & I3).
    split; [exact I1 | split; [congruence |]].
    intros j x. rewrite I3, D3, !elem_of_cons. tauto.
Qed.

(** X30.  [simulate_network_partition] cuts exactly the links across the
    partition.  On a network whose links are mutual, without self-loops
    and repeated neighbours, and for a size from 0 to below the number of
    nodes, the call returns, two nodes are linked afterwards exactly when
    they were linked before and lie on the same side, the links are still
    mutual, and no node is lost; [heal_network_partition] then gives again
    a network with mutual links.  A size of at least the number of nodes
    changes nothing. *)
Theorem simulate_network_partition_cuts
    (draw : list nat -> nat -> list nat)
    (sample : nat -> list nat -> nat -> list nat)
    (net : NetworkManager) (partition_size : Z) :
  topology_ok net ->
  (0 <= partition_size < Z.of_nat (length (nm_nodes net)))%Z ->
  is_sample sample ->
  (exists net',
      simulate_network_partition draw net partition_size = Returned tt net'
      /\ topology_ok net'
      /\ length (nm_nodes net') = length (nm_nodes net)
      /\ (forall j x,
            x ∈ neighbors_of net' j
            <-> x ∈ neighbors_of net j
                /\ (j ∈ draw (seq 0 (length (nm_nodes net)))
                           (Z.to_nat partition_size)
                    <-> x ∈ draw (seq 0 (length (nm_nodes net)))
                               (Z.to_nat partition_size)))
      /\ topology_ok (heal_network_partition sample net'))
  /\ forall size, (Z.of_nat (length (nm_nodes net)) <= size)%Z ->
       simulate_network_partition draw net size = Returned tt net.
Proof.
  intros Hok Hsize Hs. split.
  - unfold simulate_network_partition.
    destruct (Z.leb_spec (Z.of_nat (length (nm_nodes net))) partition_size)
      as [Hle | _]; [lia |].
    destruct (Z.ltb_spec partition_size 0) as [Hlt | _]; [lia |].
    cbv zeta.
    set (ps := draw (seq 0 (length (nm_nodes net))) (Z.to_nat partition_size)).
    set (os := filter (fun n => n ∉ ps) (seq 0 (length (nm_nodes net)))).
    assert (Hnd : forall j, NoDup (neighbors_of net j)).
    { intros j. destruct (decide (j < length (nm_nodes net))%nat) as [Hj | Hj].
      - apply (Hok j Hj).
      - unfold neighbors_of. rewrite lookup_ge_None_2 by lia. apply NoDup_nil.
        exact I. }
    destruct (cut_links_links ps os net Hnd) as (C1 & C2 & C3).
    assert (Hrange : forall j x, x ∈ neighbors_of net j ->
              (j < length (nm_nodes net))%nat /\ (x < length (nm_nodes net))%nat
              /\ j ∈ neighbors_of net x).
    { intros j x Hx.
      destruct (decide (j < length (nm_nodes net))%nat) as [Hj | Hj].
      - destruct (Hok j Hj) as (_ & _ & Hsym). destruct (Hsym x Hx). auto.
      - unfold neighbors_of in Hx. rewrite lookup_ge_None_2 in Hx by lia.
        inversion Hx. }
    assert (Hos : forall y, (y < length (nm_nodes net))%nat ->
              (y ∈ os <-> y ∉ ps)).
    { intros y Hy. subst os. rewrite list_elem_of_filter, elem_of_seq.
      split; [tauto | intros H; split; [exact H | lia]]. }
    assert (Hcut : forall j x,
      x ∈ neighbors_of (cut_links net ps os) j
      <-> x ∈ neighbors_of net j /\ (j ∈ ps <-> x ∈ ps)).
    { intros j x. rewrite C3. split.
      - intros (H1 & H2 & H3). split; [exact H1 |].
        destruct (Hrange j x H1) as (Hj & Hx & _).
        rewrite (Hos x Hx) in H2. rewrite (Hos j Hj) in H3.
        destruct (decide (j ∈ ps)), (decide (x ∈ ps)); tauto.
      - intros [H1 H2]. split; [exact H1 |].
        destruct (Hrange j x H1) as (Hj & Hx & _).
        rewrite (Hos x Hx), (Hos j Hj). tauto. }
    assert (Hok' : topology_ok (cut_links net ps os)).
    { intros j Hj. rewrite C2 in Hj. rewrite C2.
      destruct (Hok j Hj) as (_ & Hself & _).
      split; [apply C1 | split].
      - rewrite Hcut. tauto.
      - intros x. rewrite !Hcut. intros [H1 H2].
        destruct (Hrange j x H1) as (_ & Hx & Hback). tauto. }
    exists (cut_links net ps os).
    split; [reflexivity | split; [exact Hok' | split; [exact C2 |]]].
    split; [exact Hcut |].
    unfold heal_network_partition, _connect_nodes.
    destruct (connect_nodes_invariant sample
                (seq 0 (length (nm_nodes (cut_links net ps os))))
                (cut_links net ps os) Hs Hok') as (H1 & _).
    + apply Forall_forall. intros i Hi. apply elem_of_seq in Hi. lia.
    + exact H1.
  - intros size Hge. unfold simulate_network_partition.
    destruct (Z.leb_spec (Z.of_nat (length (nm_nodes net))) size);
      [reflexivity | lia].
Qed.

Lemma simulate_network_partition_cuts_witness :
  topology_ok (_create_network first_sample 3 1 empty_network_stats)
  /\ (0 <= 1 < Z.of_nat (length (nm_nodes
              (_create_network first_sample 3 1 empty_network_stats))))%Z
  /\ is_sample first_sample
  /\ simulate_network_partition (fun population n => take n population)
       (_create_network first_sample 3 1 empty_network_stats) 3
     = Returned tt (_create_network first_sample 3 1 empty_network_stats).
Proof.
  assert (H1 : topology_ok
                 (_create_network first_sample 3 1 empty_network_stats)).
  { unfold _create_network. rewrite _create_network_nodes.
    unfold _connect_nodes.
    match goal with
    | |- topology_ok (fold_left _ (seq 0 (length (nm_nodes ?n))) _) =>
        destruct (connect_nodes_invariant first_sample
                    (seq 0 (length (nm_nodes n))) n first_sample_is_sample
                    (new_nodes_topology_ok _ _ _ _)) as (H & _)
    end.
    - apply Forall_forall. intros i Hi. apply elem_of_seq in Hi. lia.
    - exact H. }
  assert (H2 : (0 <= 1 < Z.of_nat (length (nm_nodes
              (_create_network first_sample 3 1 empty_network_stats))))%Z)
    by (vm_compute; split; [discriminate | reflexivity]).
  split; [exact H1 | split; [exact H2 | split; [exact first_sample_is_sample |]]].
  apply (proj2 (simulate_network_partition_cuts
                  (fun population n => take n population) first_sample
                  (_create_network first_sample 3 1 empty_network_stats) 1
                  H1 H2 first_sample_is_sample)).
  vm_compute. discriminate.
Defined.
